(** * Financial news sentiment: aggregation pipeline and rule-based scorer

    A shallow embedding of the backend of the financial-news-sentiment
    service ([backend/app/sentiment.py], [news_api.py], [excel_news.py],
    [news_scraper.py], [api.py]) together with the properties of its
    specification.

    Conventions of the embedding.
    - Python [str] is [string]; a character is a code point below 256.
    - Python [int] is [Z]; Python [float] is idealised as an exact
      rational [Q] (no rounding), with [VNaN] for the one non-number that
      the sources can deliver (an empty spreadsheet cell).
    - A Python [dict] with string keys is an association list in insertion
      order; a Python [set] of strings is a [gset string].
    - A call that can raise returns an [outcome]; code that also mutates
      objects or consumes the clock, the random generator or the network
      runs in the monad [M], which keeps the state reached when an
      exception is raised, as Python does.
    - Everything the process reads from outside (HTTP responses, the
      spreadsheet, environment variables, clock and random draws) is a
      field of [Env]; so is what the library calls do that the sources
      rely on ([pd.to_datetime] on a column, [json.dump] into a file). *)

From Stdlib Require Import ZArith QArith Qminmax Lqa Lia Ascii String.
From stdpp Require Import base gmap sets list strings.

Open Scope string_scope.
Open Scope list_scope.
Open Scope Z_scope.

(** ** Python values, strings and exceptions *)

Module Py.

#[warnings="-register-all"]
Inductive pyval :=
| VNone
| VBool (b : bool)
| VInt (z : Z)
| VFloat (q : Q)
| VNaN
| VStr (s : string)
| VList (l : list pyval)
| VDict (d : list (string * pyval)).

Abbreviation dict := (list (string * pyval)).

(** Exceptions carry their class and the message [str(e)]. *)
Inductive exn_class :=
| AttributeError | TypeError | ValueError | KeyError | OSError | OverflowError
| RequestException | JSONDecodeError.

Record exn := Exn { exn_cls : exn_class; exn_msg : string }.

Inductive outcome (A : Type) :=
| Ret (a : A)
| Raise (e : exn).
Arguments Ret {A} a.
Arguments Raise {A} e.

Definition is_ret {A} (o : outcome A) : bool :=
  match o with Ret _ => true | Raise _ => false end.

(** [bool(v)] *)
Definition truthy (v : pyval) : bool :=
  match v with
  | VNone => false
  | VBool b => b
  | VInt z => negb (z =? 0)
  | VFloat q => negb (Qeq_bool q 0)
  | VNaN => true
  | VStr s => negb (String.eqb s "")
  | VList l => match l with [] => false | _ => true end
  | VDict d => match d with [] => false | _ => true end
  end.

(** [d.get(k, default)] and [d[k]] *)
Fixpoint dict_get (d : dict) (k : string) (default : pyval) : pyval :=
  match d with
  | [] => default
  | (k', v) :: d' => if String.eqb k' k then v else dict_get d' k default
  end.

Fixpoint dict_lookup (d : dict) (k : string) : option pyval :=
  match d with
  | [] => None
  | (k', v) :: d' => if String.eqb k' k then Some v else dict_lookup d' k
  end.

Definition dict_item (d : dict) (k : string) : outcome pyval :=
  match dict_lookup d k with
  | Some v => Ret v
  | None => Raise (Exn KeyError k)
  end.

Definition dict_keys (d : dict) : list string := map fst d.

(** [d[k] = v]: overwrite in place, or append a new key. *)
Fixpoint dict_set (d : dict) (k : string) (v : pyval) : dict :=
  match d with
  | [] => [(k, v)]
  | (k', v') :: d' =>
      if String.eqb k' k then (k', v) :: d' else (k', v') :: dict_set d' k v
  end.

(** [d.update(u)] *)
Definition dict_update (d u : dict) : dict :=
  fold_left (fun acc kv => dict_set acc (fst kv) (snd kv)) u d.

(** [v == s] for a string literal [s] *)
Definition eq_str (v : pyval) (s : string) : bool :=
  match v with VStr s' => String.eqb s' s | _ => false end.

(** [v.get(k, default)]: only a dict has the method. *)
Definition py_get (v : pyval) (k : string) (default : pyval) : outcome pyval :=
  match v with
  | VDict d => Ret (dict_get d k default)
  | _ => Raise (Exn AttributeError "object has no attribute 'get'")
  end.

(** [for x in v], also the elements that [list.extend(v)] appends. *)
Definition iterate (v : pyval) : outcome (list pyval) :=
  match v with
  | VList l => Ret l
  | VStr s => Ret (map (fun c => VStr (String c "")) (list_ascii_of_string s))
  | VDict d => Ret (map (fun kv => VStr (fst kv)) d)
  | _ => Raise (Exn TypeError "object is not iterable")
  end.

(** [v <= n] for an integer [n] *)
Definition le_int (v : pyval) (n : Z) : outcome bool :=
  match v with
  | VInt z => Ret (z <=? n)
  | VBool b => Ret ((if b then 1 else 0) <=? n)
  | VFloat q => Ret (Qle_bool q (inject_Z n))
  | VNaN => Ret false
  | _ => Raise (Exn TypeError "'<=' not supported between these types")
  end.

(** *** Strings *)

Definition code (c : ascii) : N := N_of_ascii c.

(** [str.isspace] on one character (code points below 256). *)
Definition isspace (c : ascii) : bool :=
  let n := code c in
  ((9 <=? n) && (n <=? 13) || (28 <=? n) && (n <=? 32)
   || (n =? 133) || (n =? 160))%N.

Definition lower_char (c : ascii) : ascii :=
  let n := code c in
  if ((65 <=? n) && (n <=? 90)
      || (192 <=? n) && (n <=? 222) && negb (n =? 215))%N
  then ascii_of_N (n + 32) else c.

(** [s.lower()] *)
Fixpoint lower (s : string) : string :=
  match s with
  | EmptyString => EmptyString
  | String c r => String (lower_char c) (lower r)
  end.

Fixpoint lstrip (s : string) : string :=
  match s with
  | EmptyString => EmptyString
  | String c r => if isspace c then lstrip r else s
  end.

Definition rstrip (s : string) : string :=
  String.rev (lstrip (String.rev s)).

(** [s.strip()] *)
Definition strip (s : string) : string := rstrip (lstrip s).

(** [needle in hay] for two strings. *)
Fixpoint contains (needle hay : string) : bool :=
  String.prefix needle hay
  || match hay with
     | EmptyString => false
     | String _ hay' => contains needle hay'
     end.

Definition len (s : string) : Z := Z.of_nat (String.length s).

(** [s[:n]], with Python's reading of a negative bound. *)
Definition slice_to (s : string) (n : Z) : string :=
  let stop := if n <? 0 then Z.max 0 (len s + n) else n in
  String.substring 0 (Z.to_nat stop) s.

(** [l[:n]] on lists. *)
Definition list_slice_to {A} (l : list A) (n : Z) : list A :=
  let stop := if n <? 0 then Z.max 0 (Z.of_nat (length l) + n) else n in
  take (Z.to_nat stop) l.

(** *** The monad of effectful code

    [M S A] is a computation over a mutable state [S] that returns an [A]
    or raises; the state reached at the raise is kept. *)

Definition M (S A : Type) : Type := S -> outcome A * S.

Definition ret {S A} (a : A) : M S A := fun s => (Ret a, s).

Definition raise {S A} (e : exn) : M S A := fun s => (Raise e, s).

Definition bind {S A B} (m : M S A) (k : A -> M S B) : M S B :=
  fun s =>
    match m s with
    | (Ret a, s') => k a s'
    | (Raise e, s') => (Raise e, s')
    end.

(** [try: body  except Exception as e: handler e] *)
Definition try_except {S A} (body : M S A) (handler : exn -> M S A) : M S A :=
  fun s =>
    match body s with
    | (Ret a, s') => (Ret a, s')
    | (Raise e, s') => handler e s'
    end.

Definition lift {S A} (o : outcome A) : M S A := fun s => (o, s).

Definition get {S} : M S S := fun s => (Ret s, s).

Definition modify {S} (f : S -> S) : M S unit := fun s => (Ret tt, f s).

(** Pure exception-only code: the same combinators on [outcome]. *)
Definition obind {A B} (o : outcome A) (k : A -> outcome B) : outcome B :=
  match o with
  | Ret a => k a
  | Raise e => Raise e
  end.

End Py.

Import Py.

Declare Scope py_scope.
Delimit Scope py_scope with py.
Notation "x <- m ;; k" := (bind m (fun x => k))
  (at level 100, m at next level, right associativity) : py_scope.
Notation "m ;;; k" := (bind m (fun _ => k))
  (at level 100, right associativity) : py_scope.
Notation "x <~ o ;; k" := (obind o (fun x => k))
  (at level 100, o at next level, right associativity) : py_scope.
Open Scope py_scope.

(** ** The outside world *)

(** An HTTP response: [response.status_code], [response.text] and the
    result of [response.json()]. *)
Record response := Response {
  status_code : Z;
  text : string;
  json : outcome pyval
}.

(** The metrics file of the registry: absent, holding the JSON value
    that [json.load] reads from it, or holding text that is not JSON. *)
Inductive file_content :=
| Missing
| Json (v : pyval)
| Corrupt.

(** A sheet as [pd.read_excel] gives it: the names of its columns and,
    row by row, the cells that are filled in. Every row has every
    column: a cell that is not filled in reads NaN. *)
Record DataFrame := {
  columns : list string;
  cells : list dict
}.

(** What [pd.to_datetime] makes of a column: whether the dates carry a
    time zone, and for every position the time in microseconds since the
    epoch, [None] standing for NaT. *)
Record DatetimeSeries := {
  tz_aware : bool;
  date_at : nat -> option Z
}.

Record Env := {
  (** process environment, read when the model object is built *)
  env_model_version : string;
  env_batch_size : outcome Z;
  env_max_length : outcome Z;
  env_makedirs : outcome unit;
  (** [None]: no MODEL_PATH or no such file; otherwise what
      [json.load] gives for it *)
  env_config_file : option (outcome pyval);
  (** whether the metrics file can be opened, for reading as for
      writing (a file that can be read and not written is not told
      apart: either way the save fails before the file is touched) *)
  env_registry_writable : bool;
  (** [json.dump] into the metrics file, once [open(metrics_file, 'w')]
      has emptied it: [None] when it succeeds, [Some partial] when it
      raises and leaves [partial] in the file *)
  env_registry_dump : option file_content;
  (** [time.time()] at its n-th call, [random.random()] at its n-th call *)
  time_at : nat -> Q;
  random_at : nat -> Q;
  (** [datetime.now()] in microseconds since the epoch (one reading per
      run), and the two formatters applied to it *)
  now : Z;
  strftime : Z -> string;
  isoformat : Z -> string;
  (** NewsAPI: the probe request and the request for each page *)
  probe_response : outcome response;
  page_response : Z -> outcome response;
  (** [datetime.strptime(v, "%Y-%m-%dT%H:%M:%SZ").strftime("%Y-%m-%d %H:%M:%S")] *)
  reformat_date : pyval -> outcome string;
  (** the spreadsheet: [None] when the file is missing, else what
      [pd.read_excel] gives *)
  excel_file : option (outcome DataFrame);
  (** [pd.to_datetime] of a column: it fails as a whole, or converts
      every position *)
  to_datetime : list pyval -> outcome DatetimeSeries
}.

(** Calls that leave the process, in the order they are made. *)
Inductive call :=
| ProbeApi
| GetPage (page : Z)
| ReadExcel (ticker : string) (days : Z)
| DemoNews (ticker : string) (days : Z).

(** Mutable state outside the model object. *)
Record Sys := {
  ticks : nat;
  draws : nat;
  registry : file_content;
  calls : list call
}.

Definition tick (s : Sys) : Sys :=
  {| ticks := S (ticks s); draws := draws s;
     registry := registry s; calls := calls s |}.

Definition draw (s : Sys) : Sys :=
  {| ticks := ticks s; draws := S (draws s);
     registry := registry s; calls := calls s |}.

Definition time_time (env : Env) : M Sys Q :=
  fun s => (Ret (time_at env (ticks s)), tick s).

Definition random_random (env : Env) : M Sys Q :=
  fun s => (Ret (random_at env (draws s)), draw s).

Definition registry_write (content : file_content) : M Sys unit :=
  modify (fun s => {| ticks := ticks s; draws := draws s;
                      registry := content; calls := calls s |}).

Definition add_calls (cs : list call) (s : Sys) : Sys :=
  {| ticks := ticks s; draws := draws s;
     registry := registry s; calls := calls s ++ cs |}.

Definition record_call (c : call) : M Sys unit := modify (add_calls [c]).

(** ** sentiment.py *)

Module Sentiment.

Record SentimentModel := {
  model_version : string;
  batch_size : Z;
  max_length : Z;
  config : pyval;
  request_count : Z;
  error_count : Z;
  latency_ms_sum : Q;
  last_metrics_save : Q
}.

Definition set_request_count (self : SentimentModel) (n : Z) :=
  {| model_version := model_version self; batch_size := batch_size self;
     max_length := max_length self; config := config self;
     request_count := n; error_count := error_count self;
     latency_ms_sum := latency_ms_sum self;
     last_metrics_save := last_metrics_save self |}.

Definition set_error_count (self : SentimentModel) (n : Z) :=
  {| model_version := model_version self; batch_size := batch_size self;
     max_length := max_length self; config := config self;
     request_count := request_count self; error_count := n;
     latency_ms_sum := latency_ms_sum self;
     last_metrics_save := last_metrics_save self |}.

Definition set_latency_ms_sum (self : SentimentModel) (q : Q) :=
  {| model_version := model_version self; batch_size := batch_size self;
     max_length := max_length self; config := config self;
     request_count := request_count self; error_count := error_count self;
     latency_ms_sum := q;
     last_metrics_save := last_metrics_save self |}.

Definition set_last_metrics_save (self : SentimentModel) (q : Q) :=
  {| model_version := model_version self; batch_size := batch_size self;
     max_length := max_length self; config := config self;
     request_count := request_count self; error_count := error_count self;
     latency_ms_sum := latency_ms_sum self;
     last_metrics_save := q |}.

(** A method runs on the object and the rest of the state. *)
Abbreviation Self := (SentimentModel * Sys)%type.

Definition get_self : M Self SentimentModel := fun s => (Ret (fst s), s).

Definition modify_self (f : SentimentModel -> SentimentModel) : M Self unit :=
  modify (fun s => (f (fst s), snd s)).

Definition on_sys {A} (m : M Sys A) : M Self A :=
  fun s => let (o, sys') := m (snd s) in (o, (fst s, sys')).

Definition positive_keywords_default : list string :=
  ["surge"; "record"; "exceeding"; "strong"; "grow"; "growth"; "breakthrough";
   "positive"; "gain"; "gains"; "profit"; "profitable"; "success"; "successful";
   "innovation"; "innovative"; "opportunity"; "opportunities"; "upbeat";
   "optimistic"].

Definition negative_keywords_default : list string :=
  ["downgrade"; "concerns"; "vulnerabilities"; "issues"; "challenges"; "mount";
   "labor"; "divided"; "volatility"; "fears"; "recession"; "loss"; "losses";
   "debt"; "decline"; "fell"; "fall"; "drop"; "bearish"; "pessimistic";
   "bankruptcy"; "lawsuit"; "investigation"; "regulatory"; "scrutiny";
   "inflation"; "shortage"].

Definition default_config (env : Env) : pyval :=
  VDict [("model_type", VStr "rule-based");
         ("positive_keywords", VList (map VStr positive_keywords_default));
         ("negative_keywords", VList (map VStr negative_keywords_default));
         ("version", VStr (env_model_version env));
         ("created_at", VStr (isoformat env (now env)))].

Definition _load_config (env : Env) : pyval :=
  match env_config_file env with
  | Some (Ret v) => v
  | Some (Raise _) => default_config env
  | None => default_config env
  end.

(** [SentimentModel.__init__] *)
Definition init (env : Env) : M Sys SentimentModel :=
  batch <- lift (env_batch_size env);;
  maxlen <- lift (env_max_length env);;
  _ <- lift (env_makedirs env);;
  let cfg := _load_config env in
  t <- time_time env;;
  ret {| model_version := env_model_version env; batch_size := batch;
         max_length := maxlen; config := cfg;
         request_count := 0; error_count := 0;
         latency_ms_sum := 0%Q; last_metrics_save := t |}.

(** [word.lower()] *)
Definition str_lower (v : pyval) : outcome string :=
  match v with
  | VStr s => Ret (lower s)
  | _ => Raise (Exn AttributeError "object has no attribute 'lower'")
  end.

(** [sum(1 for word in words if word.lower() in text.lower())] *)
Fixpoint count_keywords (words : list pyval) (text : string) : outcome Z :=
  match words with
  | [] => Ret 0
  | word :: rest =>
      w <~ str_lower word;;
      n <~ count_keywords rest text;;
      Ret ((if contains w (lower text) then 1 else 0) + n)
  end.

Definition rule_result (sentiment : string) (score : Q)
    (positive_count negative_count : Z) : dict :=
  [("sentiment", VStr sentiment);
   ("score", VFloat score);
   ("details", VDict [("positive_count", VInt positive_count);
                      ("negative_count", VInt negative_count)])].

Definition _analyze_rule_based (env : Env) (text : string) : M Self dict :=
  self <- get_self;;
  positive_keywords <-
    lift (py_get (config self) "positive_keywords" (VList []));;
  negative_keywords <-
    lift (py_get (config self) "negative_keywords" (VList []));;
  positive_count <-
    lift (ws <~ iterate positive_keywords;; count_keywords ws text);;
  negative_count <-
    lift (ws <~ iterate negative_keywords;; count_keywords ws text);;
  if positive_count >? negative_count then
    let base_score :=
      Qmin (0.7 + 0.1 * inject_Z (positive_count - negative_count)) 0.95 in
    r <- on_sys (random_random env);;
    ret (rule_result "positive" (base_score + r * 0.05)
           positive_count negative_count)
  else if negative_count >? positive_count then
    let base_score :=
      Qmin (0.7 + 0.1 * inject_Z (negative_count - positive_count)) 0.95 in
    r <- on_sys (random_random env);;
    ret (rule_result "negative" (base_score + r * 0.05)
           positive_count negative_count)
  else
    r <- on_sys (random_random env);;
    ret (rule_result "neutral" (0.5 + r * 0.1) positive_count negative_count).

(** [metrics_data] as the first half of the [try] block computes it.
    The file is read only if it exists; a dict is wrapped into a list
    first, and only a list has [append]. *)
Definition metrics_data_of (env : Env) (content : file_content)
    (metrics : dict) : outcome (list pyval) :=
  match content with
  | Missing => Ret [VDict metrics]
  | Json existing_metrics =>
      if env_registry_writable env then
        let existing_metrics :=
          match existing_metrics with
          | VDict _ => VList [existing_metrics]
          | _ => existing_metrics
          end in
        match existing_metrics with
        | VList l => Ret (l ++ [VDict metrics])
        | _ => Raise (Exn AttributeError "object has no attribute 'append'")
        end
      else Raise (Exn OSError "Permission denied")
  | Corrupt =>
      if env_registry_writable env then
        Raise (Exn JSONDecodeError "Expecting value")
      else Raise (Exn OSError "Permission denied")
  end.

(** [with open(metrics_file, 'w') as f: json.dump(metrics_data, f, indent=2)]:
    opening the file empties it, so a dump that fails leaves it changed. *)
Definition write_metrics (env : Env) (metrics_data : list pyval)
  : M Sys unit :=
  if env_registry_writable env then
    match env_registry_dump env with
    | None => registry_write (Json (VList metrics_data))
    | Some partial =>
        registry_write partial;;; raise (Exn OSError "write failed")
    end
  else raise (Exn OSError "Permission denied").

Definition _save_metrics (env : Env) : M Self unit :=
  self <- get_self;;
  let avg_latency :=
    (latency_ms_sum self / inject_Z (Z.max 1 (request_count self)))%Q in
  let error_rate :=
    (inject_Z (error_count self) / inject_Z (Z.max 1 (request_count self)))%Q in
  let metrics :=
    [("model_version", VStr (model_version self));
     ("timestamp", VStr (isoformat env (now env)));
     ("request_count", VInt (request_count self));
     ("error_count", VInt (error_count self));
     ("avg_latency_ms", VFloat avg_latency);
     ("error_rate", VFloat error_rate)] in
  try_except
    (content <- on_sys (fun s => (Ret (registry s), s));;
     metrics_data <- lift (metrics_data_of env content metrics);;
     on_sys (write_metrics env metrics_data);;;
     t <- on_sys (time_time env);;
     modify_self (fun self => set_last_metrics_save self t))
    (fun _ => ret tt).

Definition fallback_result (self : SentimentModel) (e : exn) : dict :=
  [("sentiment", VStr "neutral");
   ("score", VFloat 0.5);
   ("model_version", VStr (model_version self));
   ("error", VStr (exn_msg e))].

Definition truncate (self : SentimentModel) (text : string) : string :=
  if len text >? max_length self then slice_to text (max_length self)
  else text.

(** [SentimentModel.analyze] *)
Definition analyze (env : Env) (text : string) : M Self dict :=
  start_time <- on_sys (time_time env);;
  modify_self (fun self => set_request_count self (request_count self + 1));;;
  self <- get_self;;
  let text := truncate self text in
  try_except
    (result <- _analyze_rule_based env text;;
     end_time <- on_sys (time_time env);;
     let latency_ms := ((end_time - start_time) * 1000)%Q in
     modify_self (fun self =>
       set_latency_ms_sum self (latency_ms_sum self + latency_ms)%Q);;;
     t <- on_sys (time_time env);;
     self <- get_self;;
     (if Qlt_le_dec 60 (t - last_metrics_save self) then _save_metrics env
      else ret tt);;;
     self <- get_self;;
     ret (dict_update result
            [("model_version", VStr (model_version self));
             ("latency_ms", VFloat latency_ms)]))
    (fun e =>
     modify_self (fun self => set_error_count self (error_count self + 1));;;
     self <- get_self;;
     ret (fallback_result self e)).

(** The counting part of [_analyze_rule_based] on its own: the two
    keyword lists are read and counted before anything else happens. *)
Definition keyword_counts (cfg : pyval) (text : string) : outcome (Z * Z) :=
  pos <~ py_get cfg "positive_keywords" (VList []);;
  neg <~ py_get cfg "negative_keywords" (VList []);;
  pc <~ (ws <~ iterate pos;; count_keywords ws text);;
  nc <~ (ws <~ iterate neg;; count_keywords ws text);;
  Ret (pc, nc).

(** Two readings of "counting keywords", for comparison with the code.
    [occurrences needle hay] is the number of positions of [hay] at which
    [needle] starts; [occurrence_total] adds it up over the keywords,
    case-insensitively, so a keyword that appears twice counts twice.
    [keywords_present] counts the keywords that appear at least once. *)
Fixpoint occurrences (needle hay : string) : Z :=
  (if String.prefix needle hay then 1 else 0)
  + match hay with
    | EmptyString => 0
    | String _ hay' => occurrences needle hay'
    end.

Definition occurrence_total (keywords : list string) (text : string) : Z :=
  fold_right (fun w acc => occurrences (lower w) (lower text) + acc) 0 keywords.

Definition keywords_present (keywords : list string) (text : string) : Z :=
  Z.of_nat (length
    (List.filter (fun w => 0 <? occurrences (lower w) (lower text)) keywords)).

(** The process: the singleton [_model] and the rest of the state. *)
Record Proc := {
  _model : option SentimentModel;
  sys : Sys
}.

Definition get_model (env : Env) : M Proc SentimentModel :=
  fun p =>
    match _model p with
    | Some m => (Ret m, p)
    | None =>
        match init env (sys p) with
        | (Ret m, s') => (Ret m, {| _model := Some m; sys := s' |})
        | (Raise e, s') => (Raise e, {| _model := None; sys := s' |})
        end
    end.

(** A method call on the singleton: the object is shared, so what the
    method does to it is seen by every later call. *)
Definition call_method {A} (m : SentimentModel) (f : M Self A) : M Proc A :=
  fun p =>
    match f (m, sys p) with
    | (o, (m', s')) => (o, {| _model := Some m'; sys := s' |})
    end.

Definition analyze_sentiment (env : Env) (text : string) : M Proc dict :=
  model <- get_model env;;
  call_method model (analyze env text).

End Sentiment.

(** ** Dates

    [datetime.now() - timedelta(days=days)] in microseconds. The two
    range checks of the library are kept: a [timedelta] holds at most
    999999999 days, and a [datetime] lies in the years 1 to 9999. *)

Definition microseconds_per_day : Z := 86400 * 1000000.
Definition datetime_min : Z := -62135596800 * 1000000.
Definition datetime_max : Z := 253402300799 * 1000000 + 999999.

Definition days_ago (env : Env) (days : Z) : outcome Z :=
  if (days <? -999999999) || (999999999 <? days) then
    Raise (Exn OverflowError "days out of range for timedelta")
  else
    let t := now env - days * microseconds_per_day in
    if (t <? datetime_min) || (datetime_max <? t) then
      Raise (Exn OverflowError "date value out of range")
    else Ret t.

(** What [strptime] reads back from a date printed to the second. *)
Definition floor_second (t : Z) : Z := t / 1000000 * 1000000.

(** ** news_api.py *)

Module NewsApi.

Definition is_api_key_valid (env : Env) : M Sys bool :=
  try_except
    (record_call ProbeApi;;;
     response <- lift (probe_response env);;
     if status_code response =? 200 then ret true
     else if status_code response =? 401 then ret false
     else if status_code response =? 429 then ret false
     else ret false)
    (fun _ => ret false).

(** The paging loop [while len(all_articles) < max_results]. The request
    parameters other than the page number (query, date window, page
    size, key) are the same at every turn, so the reply depends on the
    page number alone. Each turn that goes round again has appended at
    least [page_size] articles; [fuel] bounds the number of turns and
    [Z.to_nat max_results] is always enough (lemma [paging_fuel]). *)
Fixpoint paging (fuel : nat) (env : Env) (max_results page_size page : Z)
    (all_articles : list pyval) : M Sys (list pyval) :=
  if Z.of_nat (length all_articles) <? max_results then
    match fuel with
    | O => ret all_articles
    | S fuel' =>
        record_call (GetPage page);;;
        response <- lift (page_response env page);;
        if status_code response =? 429 then ret all_articles
        else if negb (status_code response =? 200) then ret all_articles
        else
          data <- lift (json response);;
          articles <- lift (py_get data "articles" (VList []));;
          extension <- lift (iterate articles);;
          let all_articles := all_articles ++ extension in
          if Z.of_nat (length extension) <? page_size then ret all_articles
          else
            let page := page + 1 in
            total <- lift (py_get data "totalResults" (VInt 0));;
            reached <- lift (le_int total (Z.of_nat (length all_articles)));;
            if (reached : bool) then ret all_articles
            else paging fuel' env max_results page_size page all_articles
    end
  else ret all_articles.

(** [title.strip().lower()] *)
Definition strip_lower (v : pyval) : outcome string :=
  match v with
  | VStr s => Ret (lower (strip s))
  | _ => Raise (Exn AttributeError "object has no attribute 'strip'")
  end.

Definition is_value_or_type_error (e : exn) : bool :=
  match exn_cls e with
  | ValueError | TypeError => true
  | _ => false
  end.

(** The loop that turns articles into news items. *)
Fixpoint format_articles (env : Env) (ticker : string)
    (articles : list pyval) (seen_titles : gset string)
    (news_items : list dict) : outcome (list dict) :=
  match articles with
  | [] => Ret news_items
  | article :: rest =>
      title <~ py_get article "title" (VStr "");;
      if negb (truthy title) then
        format_articles env ticker rest seen_titles news_items
      else
        normalized_title <~ strip_lower title;;
        if bool_decide (normalized_title ∈ seen_titles) then
          format_articles env ticker rest seen_titles news_items
        else
          let seen_titles := {[normalized_title]} ∪ seen_titles in
          published <~ py_get article "publishedAt" (VStr "");;
          match reformat_date env published with
          | Raise e =>
              if is_value_or_type_error e then
                format_articles env ticker rest seen_titles news_items
              else Raise e
          | Ret published_date =>
              source <~ py_get article "source" (VDict []);;
              publisher <~ py_get source "name" (VStr "");;
              link <~ py_get article "url" (VStr "");;
              let news_item :=
                [("title", title);
                 ("publisher", publisher);
                 ("link", link);
                 ("published_date", VStr published_date);
                 ("ticker", VStr ticker)] in
              format_articles env ticker rest seen_titles
                (news_items ++ [news_item])
          end
  end.

Definition get_news_from_api (env : Env) (ticker : string)
    (days max_results : Z) : M Sys (list dict) :=
  try_except
    (let search_days := Z.min days 30 in
     start_date <- lift (days_ago env search_days);;
     let page_size := Z.min 100 max_results in
     all_articles <-
       paging (Z.to_nat max_results) env max_results page_size 1 [];;
     lift (format_articles env ticker
             (list_slice_to all_articles max_results) ∅ []))
    (fun e =>
       match exn_cls e with
       | RequestException => ret []
       | _ => ret []
       end).

End NewsApi.

(** ** excel_news.py *)

Module ExcelNews.

(** [df[name]]: the column, or [KeyError] when the sheet has none of
    that name. *)
Definition column (df : DataFrame) (name : string) : outcome (list pyval) :=
  if bool_decide (name ∈ columns df) then
    Ret ((fun row => dict_get row name VNaN) <$> cells df)
  else Raise (Exn KeyError name).

(** [df.to_dict('records')]: one dict per row, with every column. *)
Definition to_records (df : DataFrame) : list dict :=
  (fun row => (fun name => (name, dict_get row name VNaN)) <$> columns df)
  <$> cells df.

(** One row of the boolean mask
    [((df.ticker == ticker) | (df.ticker == "GENERAL")) & (date >= cutoff)];
    a missing date (NaT, [None] here) compares false. *)
Definition row_selected (ticker : string) (cutoff_date : Z)
    (cell : pyval) (date : option Z) : bool :=
  (eq_str cell ticker || eq_str cell "GENERAL")
  && match date with
     | Some t => cutoff_date <=? t
     | None => false
     end.

(** [df[mask]]: the rows at the positions where the mask is true. *)
Fixpoint select_rows {A} (mask : list bool) (rows : list A) : list A :=
  match mask, rows with
  | selected :: mask', row :: rows' =>
      if (selected : bool) then row :: select_rows mask' rows'
      else select_rows mask' rows'
  | _, _ => []
  end.

(** The filter and the conversion to records. The mask is computed on
    whole columns, the dates by one call of [pd.to_datetime]: a missing
    column or a date column that cannot be converted fails the whole
    filter, and so do dates with a time zone, which cannot be compared
    with the naive [cutoff_date]. The records carry the cells as read,
    not the converted dates. *)
Definition filter_rows (env : Env) (ticker : string) (cutoff_date : Z)
    (df : DataFrame) : outcome (list dict) :=
  tickers <~ column df "ticker";;
  published <~ column df "published_date";;
  dates <~ to_datetime env published;;
  if tz_aware dates then
    Raise (Exn TypeError
             "Invalid comparison between dtype=datetime64[ns, tz] and datetime")
  else
    let mask :=
      imap (fun i cell =>
              row_selected ticker cutoff_date cell (date_at dates i))
        tickers in
    Ret (select_rows mask (to_records df)).

Definition get_news_from_excel (env : Env) (ticker : string) (days : Z)
  : M Sys (list dict) :=
  try_except
    (record_call (ReadExcel ticker days);;;
     match excel_file env with
     | None => ret []
     | Some read_excel =>
         df <- lift read_excel;;
         cutoff_date <- lift (days_ago env days);;
         lift (filter_rows env ticker cutoff_date df)
     end)
    (fun _ => ret []).

End ExcelNews.

(** ** news_scraper.py *)

Module NewsScraper.

Import Sentiment NewsApi ExcelNews.

Definition microseconds_per_hour : Z := 3600 * 1000000.

(** One hard-coded headline, published [d] days and [h] hours ago, with
    the time that [strptime] reads back from its printed date. *)
Definition demo_entry (env : Env) (title publisher link : string) (d h : Z)
  : dict * Z :=
  let t := now env - d * microseconds_per_day - h * microseconds_per_hour in
  ([("title", VStr title);
    ("publisher", VStr publisher);
    ("link", VStr link);
    ("published_date", VStr (strftime env t))],
   floor_second t).

Definition example_link (ticker suffix : string) : string :=
  "https://example.com/" +:+ lower ticker +:+ suffix.

Definition common_news (env : Env) : list (dict * Z) :=
  [demo_entry env "Markets reach record highs as tech stocks surge"
     "Financial Times" "https://example.com/markets-record-high" 1 0;
   demo_entry env "Federal Reserve announces plans to maintain interest rates"
     "Wall Street Journal" "https://example.com/fed-rates" 2 0;
   demo_entry env "Global recession fears grow as manufacturing slows"
     "Reuters" "https://example.com/recession-fears" 3 0;
   demo_entry env "Inflation data shows signs of moderating, analysts say"
     "Bloomberg" "https://example.com/inflation-data" 4 0].

Definition default_ticker_news (env : Env) (ticker : string)
  : list (dict * Z) :=
  [demo_entry env (ticker +:+ " shares move on market trends")
     "Market Watch" (example_link ticker "-shares") 1 2;
   demo_entry env ("Analysts issue new price targets for " +:+ ticker)
     "Seeking Alpha" (example_link ticker "-price-targets") 2 5;
   demo_entry env (ticker +:+ " announces quarterly dividend")
     "Investor's Business Daily" (example_link ticker "-dividend") 3 8].

(** [ticker_news.get(ticker, default_ticker_news)] *)
Definition ticker_news (env : Env) (ticker : string) : list (dict * Z) :=
  if String.eqb ticker "AAPL" then
    [demo_entry env
       (ticker +:+ " reports record quarterly earnings, exceeding expectations")
       "CNBC" (example_link ticker "-earnings") 1 4;
     demo_entry env
       ("New " +:+ ticker +:+ " product line launches to strong demand")
       "TechCrunch" (example_link ticker "-product-launch") 2 6;
     demo_entry env
       ("Analyst downgrades " +:+ ticker +:+ " citing supply chain concerns")
       "Seeking Alpha" (example_link ticker "-downgrade") 3 8]
  else if String.eqb ticker "MSFT" then
    [demo_entry env (ticker +:+ " cloud services grow 40% year-over-year")
       "CNBC" (example_link ticker "-cloud-growth") 1 3;
     demo_entry env
       (ticker +:+ " announces new AI partnerships with industry leaders")
       "TechCrunch" (example_link ticker "-ai-partnerships") 2 5;
     demo_entry env
       ("Security vulnerabilities discovered in " +:+ ticker +:+ " products")
       "ZDNet" (example_link ticker "-security-issues") 3 7]
  else if String.eqb ticker "GOOGL" then
    [demo_entry env
       (ticker +:+ " ad revenue exceeds projections in quarterly report")
       "CNBC" (example_link ticker "-ad-revenue") 1 2;
     demo_entry env
       ("Regulatory challenges mount for " +:+ ticker +:+ " in European markets")
       "Financial Times" (example_link ticker "-eu-regulation") 2 4;
     demo_entry env
       (ticker +:+ " unveils new search algorithm with enhanced AI capabilities")
       "The Verge" (example_link ticker "-search-ai") 3 6]
  else if String.eqb ticker "AMZN" then
    [demo_entry env
       (ticker +:+ " e-commerce sales surge during holiday season")
       "Reuters" (example_link ticker "-holiday-sales") 1 1;
     demo_entry env
       (ticker +:+ " expands logistics network with new fulfillment centers")
       "Business Insider" (example_link ticker "-logistics-expansion") 2 3;
     demo_entry env
       ("Labor union pushes for worker rights at " +:+ ticker +:+ " warehouses")
       "Washington Post" (example_link ticker "-labor-issues") 3 5]
  else if String.eqb ticker "TSLA" then
    [demo_entry env
       (ticker +:+ " production numbers hit new record in latest quarter")
       "Electrek" (example_link ticker "-production-record") 1 1;
     demo_entry env
       (ticker +:+ " CEO announces new battery technology breakthrough")
       "CleanTechnica" (example_link ticker "-battery-tech") 2 2;
     demo_entry env
       ("Analysts divided on " +:+ ticker
        +:+ " stock valuation after recent volatility")
       "Barron's" (example_link ticker "-valuation-debate") 3 3]
  else default_ticker_news env ticker.

(** The date filter of [get_demo_news]; a kept item gets its ticker. *)
Fixpoint filter_by_date (ticker : string) (cutoff_date : Z)
    (result : list (dict * Z)) : list dict :=
  match result with
  | [] => []
  | (item, publish_date) :: rest =>
      if publish_date <? cutoff_date then
        filter_by_date ticker cutoff_date rest
      else
        dict_set item "ticker" (VStr ticker)
        :: filter_by_date ticker cutoff_date rest
  end.

Definition get_demo_news (env : Env) (ticker : string) (days : Z)
  : M Sys (list dict) :=
  record_call (DemoNews ticker days);;;
  cutoff_date <- lift (days_ago env days);;
  let result := common_news env ++ ticker_news env ticker in
  ret (filter_by_date ticker cutoff_date result).

(** [item.get("title", "").strip().lower()] *)
Definition normalized_title (item : dict) : outcome string :=
  strip_lower (dict_get item "title" (VStr "")).

(** [{item.get("title", "").strip().lower() for item in news_items}] *)
Fixpoint existing_titles_of (news_items : list dict) : outcome (gset string) :=
  match news_items with
  | [] => Ret ∅
  | item :: rest =>
      title <~ normalized_title item;;
      titles <~ existing_titles_of rest;;
      Ret ({[title]} ∪ titles)
  end.

(** The merge loop shared by the spreadsheet and the demo step:
    append the incoming items whose title is new. *)
Fixpoint merge_new (incoming : list dict) (news_items : list dict)
    (existing_titles : gset string) : outcome (list dict) :=
  match incoming with
  | [] => Ret news_items
  | item :: rest =>
      title <~ normalized_title item;;
      if negb (String.eqb title "")
         && negb (bool_decide (title ∈ existing_titles)) then
        merge_new rest (news_items ++ [item]) ({[title]} ∪ existing_titles)
      else merge_new rest news_items existing_titles
  end.

Definition is_empty {A} (l : list A) : bool :=
  match l with [] => true | _ => false end.

Definition merge_step (incoming news_items : list dict)
  : outcome (list dict) :=
  if is_empty incoming then Ret news_items
  else
    existing_titles <~ existing_titles_of news_items;;
    merge_new incoming news_items existing_titles.

Definition in_sys {A} (m : M Sys A) : M Proc A :=
  fun p => let (o, s') := m (sys p) in (o, {| _model := _model p; sys := s' |}).

(** Step 1: the primary source. *)
Definition primary_step (env : Env) (ticker : string) (days max_results : Z)
  : M Proc (list dict) :=
  valid <- in_sys (is_api_key_valid env);;
  if (valid : bool) then
    in_sys (get_news_from_api env ticker days max_results)
  else ret [].

Definition needs_excel (days max_results : Z) (news_items : list dict)
  : bool :=
  let excel_threshold := Z.min 30 (max_results / 2) in
  (days >? 30) || (Z.of_nat (length news_items) <? excel_threshold).

(** Step 2: supplement from the spreadsheet. *)
Definition excel_step (env : Env) (ticker : string) (days max_results : Z)
    (news_items : list dict) : M Proc (list dict) :=
  if needs_excel days max_results news_items then
    excel_items <- in_sys (get_news_from_excel env ticker days);;
    lift (merge_step excel_items news_items)
  else ret news_items.

Definition needs_demo (news_items : list dict) : bool :=
  is_empty news_items || (Z.of_nat (length news_items) <? 5).

(** Step 3: last resort, the hard-coded headlines. *)
Definition demo_step (env : Env) (ticker : string) (days : Z)
    (news_items : list dict) : M Proc (list dict) :=
  if needs_demo news_items then
    demo_items <- in_sys (get_demo_news env ticker days);;
    lift (merge_step demo_items news_items)
  else ret news_items.

(** Step 4: keep at most [max_results] items. *)
Definition truncate_step (max_results : Z) (news_items : list dict)
  : list dict :=
  if Z.of_nat (length news_items) >? max_results then
    list_slice_to news_items max_results
  else news_items.

(** Step 5: score every item that has a headline. A headline that is
    not a string cannot be cut for the log line (lists apart, which no
    source delivers: see [merged_titles_are_strings]). *)
Fixpoint process_items (env : Env) (ticker : string) (news_items : list dict)
    (processed_items : list dict) : M Proc (list dict) :=
  match news_items with
  | [] => ret processed_items
  | item :: rest =>
      let title := dict_get item "title" (VStr "") in
      if negb (truthy title) then
        process_items env ticker rest processed_items
      else
        match title with
        | VStr headline =>
            sentiment_result <- analyze_sentiment env headline;;
            sentiment <- lift (dict_item sentiment_result "sentiment");;
            score <- lift (dict_item sentiment_result "score");;
            let news_item :=
              [("title", title);
               ("publisher", dict_get item "publisher" (VStr ""));
               ("link", dict_get item "link" (VStr ""));
               ("published_date", dict_get item "published_date" (VStr ""));
               ("ticker", VStr ticker);
               ("sentiment", sentiment);
               ("score", score)] in
            process_items env ticker rest (processed_items ++ [news_item])
        | _ => raise (Exn TypeError "object is not subscriptable")
        end
  end.

(** Steps 1 to 3: what the three sources give, merged. *)
Definition collect_news (env : Env) (ticker : string)
    (days max_results : Z) : M Proc (list dict) :=
  news_items <- primary_step env ticker days max_results;;
  news_items <- excel_step env ticker days max_results news_items;;
  demo_step env ticker days news_items.

(** The body of the [try] block. *)
Definition get_financial_news_body (env : Env) (ticker : string)
    (days max_results : Z) : M Proc (list dict) :=
  news_items <- collect_news env ticker days max_results;;
  let news_items := truncate_step max_results news_items in
  process_items env ticker news_items [].

Definition coerce_days (days : option Z) : Z :=
  let days := match days with None => 7 | Some d => d end in
  Z.max 1 days.

Definition get_financial_news (env : Env) (ticker : string)
    (days : option Z) (max_results : Z) : M Proc (list dict) :=
  let days := coerce_days days in
  try_except
    (get_financial_news_body env ticker days max_results)
    (fun _ => ret []).

End NewsScraper.

(** ** api.py: the summary of one ticker *)

Module Api.

Import Sentiment NewsScraper.

(** [sentiment_values[v]] *)
Definition sentiment_value (v : pyval) : outcome Z :=
  if eq_str v "positive" then Ret 1
  else if eq_str v "neutral" then Ret 0
  else if eq_str v "negative" then Ret (-1)
  else Raise (Exn KeyError "sentiment").

(** A score as a number. The scorer only produces floats; a NaN score
    is outside the model. *)
Definition as_number (v : pyval) : outcome Q :=
  match v with
  | VFloat q => Ret q
  | VInt z => Ret (inject_Z z)
  | VBool b => Ret (if b then 1%Q else 0%Q)
  | _ => Raise (Exn TypeError "unsupported operand type")
  end.

(** [sum(1 for item in news if item["sentiment"] == label)] *)
Fixpoint count_sentiment (news : list dict) (label : string) : outcome Z :=
  match news with
  | [] => Ret 0
  | item :: rest =>
      s <~ dict_item item "sentiment";;
      n <~ count_sentiment rest label;;
      Ret ((if eq_str s label then 1 else 0) + n)
  end.

(** [sum(sentiment_values[item["sentiment"]] * item["score"] for item in news)] *)
Fixpoint weighted_sum_of (news : list dict) : outcome Q :=
  match news with
  | [] => Ret 0%Q
  | item :: rest =>
      s <~ dict_item item "sentiment";;
      v <~ sentiment_value s;;
      sc <~ dict_item item "score";;
      w <~ as_number sc;;
      acc <~ weighted_sum_of rest;;
      Ret (inject_Z v * w + acc)%Q
  end.

(** [sum(item["score"] for item in news)] *)
Fixpoint total_weight_of (news : list dict) : outcome Q :=
  match news with
  | [] => Ret 0%Q
  | item :: rest =>
      sc <~ dict_item item "score";;
      w <~ as_number sc;;
      acc <~ total_weight_of rest;;
      Ret (w + acc)%Q
  end.

(** [sum(sentiment_values[item["sentiment"]] for item in news)] *)
Fixpoint polarity_sum_of (news : list dict) : outcome Z :=
  match news with
  | [] => Ret 0
  | item :: rest =>
      s <~ dict_item item "sentiment";;
      v <~ sentiment_value s;;
      acc <~ polarity_sum_of rest;;
      Ret (v + acc)
  end.

(** The summary that [get_sentiment_summary_endpoint] stores under one
    ticker, as a function of that ticker's news. *)
Definition summarize (news : list dict) : outcome dict :=
  if is_empty news then
    Ret [("total_news", VInt 0);
         ("positive", VInt 0);
         ("negative", VInt 0);
         ("neutral", VInt 0);
         ("avg_sentiment_score", VInt 0)]
  else
    positive <~ count_sentiment news "positive";;
    negative <~ count_sentiment news "negative";;
    neutral <~ count_sentiment news "neutral";;
    weighted_sum <~ weighted_sum_of news;;
    total_weight <~ total_weight_of news;;
    let weighted_avg_score :=
      if Qlt_le_dec 0 total_weight then VFloat (weighted_sum / total_weight)
      else VInt 0 in
    polarity_sum <~ polarity_sum_of news;;
    let avg_score :=
      (inject_Z polarity_sum / inject_Z (Z.of_nat (length news)))%Q in
    Ret [("total_news", VInt (Z.of_nat (length news)));
         ("positive", VInt positive);
         ("negative", VInt negative);
         ("neutral", VInt neutral);
         ("avg_sentiment_score", VFloat avg_score);
         ("weighted_avg_score", weighted_avg_score)].

(** One turn of the endpoint's loop over tickers. *)
Definition ticker_summary (env : Env) (ticker : string) (days : option Z)
    (max_results : option Z) : M Proc dict :=
  let search_days := match days with None => 7 | Some d => Z.max 1 d end in
  let results_limit :=
    match max_results with None => 100 | Some m => Z.max 1 m end in
  news <- get_financial_news env ticker (Some search_days) results_limit;;
  lift (summarize news).

End Api.

(** ** Vocabulary of the properties *)

Module Props.

Import Sentiment NewsApi ExcelNews NewsScraper Api.

(** The three score formulas of the rule-based scorer, as a relation
    between the two counts, the jitter draw and the result. *)
Inductive rule_based_result (pc nc : Z) (j : Q) : dict -> Prop :=
| RulePositive :
    nc < pc ->
    rule_based_result pc nc j
      (rule_result "positive"
         (Qmin (0.7 + 0.1 * inject_Z (pc - nc)) 0.95 + j * 0.05) pc nc)
| RuleNegative :
    pc < nc ->
    rule_based_result pc nc j
      (rule_result "negative"
         (Qmin (0.7 + 0.1 * inject_Z (nc - pc)) 0.95 + j * 0.05) pc nc)
| RuleNeutral :
    pc = nc ->
    rule_based_result pc nc j (rule_result "neutral" (0.5 + j * 0.1) pc nc).

(** The normalized title of an item whose title is a string. *)
Definition norm_key (item : dict) : string :=
  match normalized_title item with
  | Ret t => t
  | Raise _ => ""
  end.

Definition has_str_title (item : dict) : Prop :=
  exists s, dict_get item "title" (VStr "") = VStr s.

(** Every title is a string and no normalized title occurs twice. *)
Definition well_titled (l : list dict) : Prop :=
  Forall has_str_title l /\ NoDup (norm_key <$> l).

(** What the merge loop appends: a sublist of the incoming items, with
    string titles that are non-empty, new and pairwise distinct once
    normalized; and no non-empty new title of an incoming item is lost. *)
Definition merged_in (news incoming added : list dict) : Prop :=
  added `sublist_of` incoming
  /\ Forall has_str_title added
  /\ (forall item, item ∈ added ->
        norm_key item <> "" /\ norm_key item ∉ (norm_key <$> news))
  /\ NoDup (norm_key <$> added)
  /\ (forall item, item ∈ incoming ->
        norm_key item <> "" -> norm_key item ∉ (norm_key <$> news) ->
        norm_key item ∈ (norm_key <$> added)).

(** [out] is [l] with exactly the items kept that satisfy [P] at their
    position, the positions counted from [i] on; the order is that of
    [l]. *)
Inductive picked {A} (P : nat -> A -> Prop)
  : nat -> list A -> list A -> Prop :=
| PickedNil i : picked P i [] []
| PickedKeep i x l out :
    P i x -> picked P (S i) l out -> picked P i (x :: l) (x :: out)
| PickedSkip i x l out :
    ~ P i x -> picked P (S i) l out -> picked P i (x :: l) out.

(** The item at position [i] of [incoming] brings a normalized title
    that is not empty, not that of an item of [news] and not that of an
    earlier incoming item. *)
Definition fresh_title (news incoming : list dict) (i : nat) (item : dict)
  : Prop :=
  norm_key item <> ""
  /\ ~ norm_key item ∈ (norm_key <$> news)
  /\ forall j earlier,
       (j < i)%nat -> incoming !! j = Some earlier ->
       norm_key earlier <> norm_key item.

(** The record that the scoring loop builds from one item. *)
Definition scored_from (ticker : string) (item scored : dict) : Prop :=
  exists headline sentiment score,
    dict_get item "title" (VStr "") = VStr headline
    /\ headline <> ""
    /\ scored = [("title", VStr headline);
                 ("publisher", dict_get item "publisher" (VStr ""));
                 ("link", dict_get item "link" (VStr ""));
                 ("published_date", dict_get item "published_date" (VStr ""));
                 ("ticker", VStr ticker);
                 ("sentiment", sentiment);
                 ("score", score)].

(** One full turn of the loop that goes round again: the request for
    [page] succeeds and its articles are appended. *)
Inductive turn (env : Env) (max_results page_size : Z)
  : Z * list pyval -> Z * list pyval -> Prop :=
| Turn page all_articles resp data articles extension total :
    Z.of_nat (length all_articles) < max_results ->
    page_response env page = Ret resp ->
    status_code resp = 200 ->
    json resp = Ret data ->
    py_get data "articles" (VList []) = Ret articles ->
    iterate articles = Ret extension ->
    page_size <= Z.of_nat (length extension) ->
    py_get data "totalResults" (VInt 0) = Ret total ->
    le_int total (Z.of_nat (length (all_articles ++ extension))) = Ret false ->
    turn env max_results page_size
      (page, all_articles) (page + 1, all_articles ++ extension).

(** The requests made while going from one loop state to another. *)
Inductive requests (env : Env) (max_results page_size : Z)
  : Z * list pyval -> Z * list pyval -> list call -> Prop :=
| RequestsNil st : requests env max_results page_size st st []
| RequestsCons st st' st'' cs :
    turn env max_results page_size st st' ->
    requests env max_results page_size st' st'' cs ->
    requests env max_results page_size st st'' (GetPage (fst st) :: cs).

End Props.

(** ** Sample environments and inputs *)

Module Samples.

Import Sentiment NewsApi ExcelNews NewsScraper Api.

Definition network_down : exn := Exn RequestException "connection refused".

(** No network, no spreadsheet, default model settings. *)
Definition offline_env : Env :=
  {| env_model_version := "rule-based-v1";
     env_batch_size := Ret 16;
     env_max_length := Ret 512;
     env_makedirs := Ret tt;
     env_config_file := None;
     env_registry_writable := true;
     env_registry_dump := None;
     time_at := fun n => inject_Z (Z.of_nat n);
     random_at := fun _ => 0.5%Q;
     now := 1700000000 * 1000000;
     strftime := fun _ => "2023-11-14 22:13:20";
     isoformat := fun _ => "2023-11-14T22:13:20";
     probe_response := Raise network_down;
     page_response := fun _ => Raise network_down;
     reformat_date := fun v =>
       match v with
       | VStr s =>
           if String.eqb s "" then Raise (Exn ValueError "bad date")
           else Ret (String.substring 0 10 s +:+ " " +:+ String.substring 11 8 s)
       | _ => Raise (Exn TypeError "strptime() argument 1 must be str")
       end;
     excel_file := None;
     to_datetime := fun published =>
       if forallb (fun v => match v with
                            | VInt _ | VNaN | VNone => true
                            | _ => false
                            end) published
       then Ret {| tz_aware := false;
                   date_at := fun i => match published !! i with
                                       | Some (VInt t) => Some t
                                       | _ => None
                                       end |}
       else Raise (Exn ValueError "unknown datetime string format") |}.

(** A sheet with the five columns of the demo data. *)
Definition sheet (rows : list dict) : DataFrame :=
  {| columns := ["ticker"; "title"; "publisher"; "link"; "published_date"];
     cells := rows |}.

Definition with_excel (env : Env) (rows : list dict) : Env :=
  {| env_model_version := env_model_version env;
     env_batch_size := env_batch_size env;
     env_max_length := env_max_length env;
     env_makedirs := env_makedirs env;
     env_config_file := env_config_file env;
     env_registry_writable := env_registry_writable env;
     env_registry_dump := env_registry_dump env;
     time_at := time_at env;
     random_at := random_at env;
     now := now env;
     strftime := strftime env;
     isoformat := isoformat env;
     probe_response := probe_response env;
     page_response := page_response env;
     reformat_date := reformat_date env;
     excel_file := Some (Ret (sheet rows));
     to_datetime := to_datetime env |}.

Definition excel_row (ticker : string) (title : pyval) : dict :=
  [("ticker", VStr ticker);
   ("title", title);
   ("publisher", VStr "Reuters");
   ("link", VStr "https://example.com/story");
   ("published_date", VInt (1700000000 * 1000000))].

(** A spreadsheet with one row whose title cell is empty (NaN). *)
Definition nan_title_env : Env :=
  with_excel offline_env [excel_row "AAPL" VNaN].

(** A spreadsheet with one row whose title is blank. *)
Definition blank_title_env : Env :=
  with_excel offline_env [excel_row "AAPL" (VStr "   ")].

(** A spreadsheet with a general-interest row and a duplicate of it. *)
Definition general_rows_env : Env :=
  with_excel offline_env
    [excel_row "GENERAL" (VStr "Stocks rally on strong earnings");
     excel_row "AAPL" (VStr "  STOCKS rally on strong earnings ");
     excel_row "MSFT" (VStr "Cloud revenue grows")].

(** NewsAPI answers the probe and the first page (one hundred articles
    out of five hundred) and then reports a rate limit. *)
Definition sample_article (n : nat) : pyval :=
  VDict [("source", VDict [("id", VNone); ("name", VStr "Reuters")]);
         ("title", VStr ("Story " +:+ string_of_list_ascii (repeat "x"%char n)));
         ("url", VStr "https://example.com/story");
         ("publishedAt", VStr "2023-11-14T10:00:00Z")].

Definition first_page : pyval :=
  VDict [("status", VStr "ok");
         ("totalResults", VInt 500);
         ("articles", VList (map sample_article (seq 0 100)))].

Definition rate_limited_env : Env :=
  {| env_model_version := env_model_version offline_env;
     env_batch_size := env_batch_size offline_env;
     env_max_length := env_max_length offline_env;
     env_makedirs := env_makedirs offline_env;
     env_config_file := env_config_file offline_env;
     env_registry_writable := env_registry_writable offline_env;
     env_registry_dump := env_registry_dump offline_env;
     time_at := time_at offline_env;
     random_at := random_at offline_env;
     now := now offline_env;
     strftime := strftime offline_env;
     isoformat := isoformat offline_env;
     probe_response := Ret (Response 200 "ok" (Ret (VDict [])));
     page_response := fun page =>
       if page =? 1 then Ret (Response 200 "ok" (Ret first_page))
       else Ret (Response 429 "rate limited"
                   (Ret (VDict [("status", VStr "error")])));
     reformat_date := reformat_date offline_env;
     excel_file := excel_file offline_env;
     to_datetime := to_datetime offline_env |}.

Definition fresh_sys : Sys :=
  {| ticks := 0; draws := 0; registry := Missing; calls := [] |}.

Definition fresh_proc : Proc := {| _model := None; sys := fresh_sys |}.

(** The model object as [init] builds it with the default settings. *)
Definition default_model : SentimentModel :=
  {| model_version := "rule-based-v1"; batch_size := 16; max_length := 512;
     config := default_config offline_env;
     request_count := 0; error_count := 0;
     latency_ms_sum := 0%Q; last_metrics_save := 0%Q |}.

(** A configuration file whose positive keyword list holds a number. *)
Definition broken_config : pyval :=
  VDict [("positive_keywords", VList [VStr "surge"; VInt 7]);
         ("negative_keywords", VList [VStr "loss"])].

Definition broken_model : SentimentModel :=
  {| model_version := "rule-based-v1"; batch_size := 16; max_length := 512;
     config := broken_config;
     request_count := 3; error_count := 1;
     latency_ms_sum := 0%Q; last_metrics_save := 0%Q |}.

End Samples.

(** ** Vocabulary of the further properties *)

Module Shapes.

Import Sentiment NewsApi ExcelNews NewsScraper Api Props.

(** The requests for [n] pages in a row, from [page] on. *)
Definition page_calls (page : Z) (n : nat) : list call :=
  (fun i => GetPage (page + Z.of_nat i)) <$> seq 0 n.

(** The shape of an item that the primary source builds. *)
Definition api_item (ticker : string) (item : dict) : Prop :=
  exists title publisher link published_date,
    item = [("title", VStr title);
            ("publisher", publisher);
            ("link", link);
            ("published_date", VStr published_date);
            ("ticker", VStr ticker)]
    /\ title <> "".

(** The record at position [i] of the sheet is for the ticker, or a
    general one, and its converted date is at or after the cutoff. *)
Definition row_matches (ticker : string) (cutoff_date : Z)
    (dates : nat -> option Z) (i : nat) (record : dict) : Prop :=
  (dict_lookup record "ticker" = Some (VStr ticker)
   \/ dict_lookup record "ticker" = Some (VStr "GENERAL"))
  /\ exists date, dates i = Some date /\ cutoff_date <= date.

(** The entries of the metrics file when one more can be appended: none
    when the file is absent, the list that it holds, or the one dict
    that it holds. *)
Definition entries_of (content : file_content) : option (list pyval) :=
  match content with
  | Missing => Some []
  | Json (VList l) => Some l
  | Json (VDict d) => Some [VDict d]
  | _ => None
  end.

(** Whether the probe request is answered with status 200. *)
Definition probe_ok (env : Env) : bool :=
  match probe_response env with
  | Ret response => status_code response =? 200
  | Raise _ => false
  end.

(** The model object exists already, or its settings can be read. *)
Definition model_ready (env : Env) (p : Proc) : Prop :=
  is_Some (_model p)
  \/ (is_ret (env_batch_size env) && is_ret (env_max_length env)
      && is_ret (env_makedirs env) = true).

(** The requests that the model has counted so far. *)
Definition requests_so_far (p : Proc) : Z :=
  match _model p with
  | Some m => request_count m
  | None => 0
  end.

(** A sentiment label and a float score, as the scorer gives them. *)
Definition scored (item : dict) : Prop :=
  exists label q,
    dict_lookup item "sentiment" = Some (VStr label)
    /\ (label = "positive" \/ label = "negative" \/ label = "neutral")
    /\ dict_lookup item "score" = Some (VFloat q).

Definition has_headline (item : dict) : Prop :=
  exists s, dict_get item "title" (VStr "") = VStr s /\ s <> "".

(** The shape of an item of the hard-coded source. *)
Definition demo_item (ticker : string) (item : dict) : Prop :=
  exists title publisher link published_date,
    item = [("title", VStr title);
            ("publisher", VStr publisher);
            ("link", VStr link);
            ("published_date", VStr published_date);
            ("ticker", VStr ticker)].

(** A score that is a non-negative number. *)
Definition nonneg_score (item : dict) : Prop :=
  exists v q,
    dict_lookup item "score" = Some v /\ as_number v = Ret q /\ (0 <= q)%Q.

End Shapes.

(** ** Further sample worlds *)

Module MoreSamples.

Import Sentiment NewsApi ExcelNews NewsScraper Api Samples.

(** A model that reads the first twenty characters only. *)
Definition terse_model : SentimentModel :=
  {| model_version := "rule-based-v1"; batch_size := 16; max_length := 20;
     config := default_config offline_env;
     request_count := 0; error_count := 0;
     latency_ms_sum := 0%Q; last_metrics_save := 0%Q |}.

(** A model whose configuration file names no keyword list. *)
Definition bare_model : SentimentModel :=
  {| model_version := "rule-based-v1"; batch_size := 16; max_length := 512;
     config := VDict [("threshold", VFloat 0.5)];
     request_count := 0; error_count := 0;
     latency_ms_sum := 0%Q; last_metrics_save := 0%Q |}.

(** A process whose model object exists already. *)
Definition loaded_proc : Proc := {| _model := Some broken_model; sys := fresh_sys |}.



(** A spreadsheet whose second row has a date that cannot be read. *)
Definition bad_date_env : Env :=
  with_excel offline_env
    [excel_row "AAPL" (VStr "Apple beats estimates");
     [("ticker", VStr "MSFT");
      ("title", VStr "Cloud revenue grows");
      ("publisher", VStr "Reuters");
      ("link", VStr "https://example.com/story");
      ("published_date", VStr "next week")]].

(** NewsAPI answers the probe and the first page, and the connection
    fails at the second page. *)
Definition dropped_connection_env : Env :=
  {| env_model_version := env_model_version offline_env;
     env_batch_size := env_batch_size offline_env;
     env_max_length := env_max_length offline_env;
     env_makedirs := env_makedirs offline_env;
     env_config_file := env_config_file offline_env;
     env_registry_writable := env_registry_writable offline_env;
     env_registry_dump := env_registry_dump offline_env;
     time_at := time_at offline_env;
     random_at := random_at offline_env;
     now := now offline_env;
     strftime := strftime offline_env;
     isoformat := isoformat offline_env;
     probe_response := Ret (Response 200 "ok" (Ret (VDict [])));
     page_response := fun page =>
       if page =? 1 then Ret (Response 200 "ok" (Ret first_page))
       else Raise network_down;
     reformat_date := reformat_date offline_env;
     excel_file := excel_file offline_env;
     to_datetime := to_datetime offline_env |}.

(** Three scored records, one of each label. *)
Definition sample_news : list dict :=
  [[("title", VStr "Profits surge"); ("sentiment", VStr "positive");
    ("score", VFloat 0.8)];
   [("title", VStr "Shares crash"); ("sentiment", VStr "negative");
    ("score", VFloat 0.75)];
   [("title", VStr "Board meets"); ("sentiment", VStr "neutral");
    ("score", VFloat 0.5)]].

End MoreSamples.

(** * Properties *)

Import Sentiment NewsApi ExcelNews NewsScraper Api Props Samples.

(** ** The model at work *)

Example strip_lower_example :
  lower (strip "  Markets REACH Record Highs ") = "markets reach record highs".
Proof. reflexivity. Qed.

Example contains_example :
  contains "grow" "earnings growth slows" = true
  /\ contains "growth" "earnings grow" = false
  /\ contains "" "" = true.
Proof. repeat split; reflexivity. Qed.

Example slice_to_example :
  slice_to "headline" 4 = "head" /\ slice_to "headline" (-3) = "headl"
  /\ slice_to "headline" 20 = "headline" /\ slice_to "headline" (-20) = "".
Proof. repeat split; reflexivity. Qed.

(** With the network down and no spreadsheet, the pipeline serves the
    seven hard-coded headlines of the ticker, after one probe, one
    spreadsheet read and one use of the demo source. *)
Example offline_run :
  exists items p',
    get_financial_news offline_env "AAPL" (Some 7) 100 fresh_proc
    = (Ret items, p')
    /\ length items = 7%nat
    /\ calls (sys p') = [ProbeApi; ReadExcel "AAPL" 7; DemoNews "AAPL" 7]
    /\ option_map request_count (_model p') = Some 7.
Proof.
  do 2 eexists. split; [vm_compute; reflexivity|].
  repeat split; reflexivity.
Qed.

(** The headline of the scenario in the specification: two positive
    keywords (record, surge), none negative. *)
Example record_highs_is_positive :
  exists r st',
    analyze offline_env "Markets reach record highs as tech stocks surge"
      (default_model, fresh_sys) = (Ret r, st')
    /\ dict_lookup r "sentiment" = Some (VStr "positive")
    /\ dict_lookup r "score" = Some (VFloat (Qmin (0.7 + 0.1 * 2) 0.95
                                              + 0.5 * 0.05)).
Proof.
  do 2 eexists. split; [vm_compute; reflexivity|]. split; reflexivity.
Qed.

(** Case analysis on the next call whose outcome decides the run. *)
Ltac next_outcome :=
  match goal with
  | |- context [match ?o with Ret _ => _ | Raise _ => _ end] =>
      destruct o; cbn [obind]; try congruence
  end.

(** * The scorer *)

Section Scorer.

Variable env : Env.

Lemma rule_based_raises text self sys e :
  keyword_counts (config self) text = Raise e ->
  _analyze_rule_based env text (self, sys) = (Raise e, (self, sys)).
Proof.
  unfold keyword_counts, _analyze_rule_based, bind, lift, get_self.
  cbn [fst]. repeat next_outcome.
Qed.

Lemma rule_based_returns text self sys pc nc :
  keyword_counts (config self) text = Ret (pc, nc) ->
  exists r,
    _analyze_rule_based env text (self, sys) = (Ret r, (self, draw sys))
    /\ rule_based_result pc nc (random_at env (draws sys)) r.
Proof.
  unfold keyword_counts, _analyze_rule_based, bind, lift, get_self.
  cbn [fst]. repeat next_outcome.
  intros [= -> ->]. unfold on_sys, random_random, ret. cbn [fst snd].
  destruct (Z.gtb_spec pc nc) as [Hgt|Hle].
  - eexists; split; [reflexivity|]. constructor. lia.
  - destruct (Z.gtb_spec nc pc) as [Hgt'|Hle'].
    + eexists; split; [reflexivity|]. constructor. lia.
    + eexists; split; [reflexivity|]. apply RuleNeutral. lia.
Qed.

Lemma rule_based_update pc nc j r (extra1 extra2 : pyval) :
  rule_based_result pc nc j r ->
  dict_update r [("model_version", extra1); ("latency_ms", extra2)]
  = r ++ [("model_version", extra1); ("latency_ms", extra2)].
Proof. intros H; destruct H; reflexivity. Qed.

Lemma save_metrics_returns st :
  exists self' sys',
    _save_metrics env st = (Ret tt, (self', sys'))
    /\ error_count self' = error_count (fst st)
    /\ request_count self' = request_count (fst st)
    /\ model_version self' = model_version (fst st).
Proof.
  destruct st as [self sys].
  unfold _save_metrics, bind, get_self, try_except, on_sys, lift,
    write_metrics, registry_write, modify_self, modify, raise, time_time, ret;
    simpl.
  destruct (metrics_data_of env (registry sys) _) as [metrics_data|e]; simpl.
  - destruct (env_registry_writable env); simpl;
      [destruct (env_registry_dump env); simpl|];
      do 2 eexists; (split; [reflexivity|]); simpl; auto.
  - do 2 eexists. split; [reflexivity|]. simpl. auto.
Qed.

Lemma analyze_cases text self sys :
  let self1 := set_request_count self (request_count self + 1) in
  match keyword_counts (config self) (truncate self text) with
  | Raise e =>
      analyze env text (self, sys)
      = (Ret (fallback_result self e),
         (set_error_count self1 (error_count self + 1), tick sys))
  | Ret (pc, nc) =>
      exists r0 latency self' sys',
        rule_based_result pc nc (random_at env (draws sys)) r0
        /\ analyze env text (self, sys)
           = (Ret (r0 ++ [("model_version", VStr (model_version self));
                          ("latency_ms", VFloat latency)]),
              (self', sys'))
        /\ error_count self' = error_count self
        /\ request_count self' = request_count self + 1
  end.
Proof.
  intros self1.
  destruct (keyword_counts (config self) (truncate self text))
    as [[pc nc]|e] eqn:Hk.
  - destruct (rule_based_returns (truncate self text) self1 (tick sys) pc nc Hk)
      as (r0 & Hr & Hres).
    unfold analyze, bind, try_except, on_sys, modify_self, modify, get_self,
      time_time.
    cbn -[tick draw _analyze_rule_based _save_metrics truncate dict_update]. fold self1.
    change (truncate self1 text) with (truncate self text).
    rewrite Hr. cbn -[tick draw _analyze_rule_based _save_metrics truncate dict_update].
    match goal with
    | |- context [Qlt_le_dec ?a ?b] => destruct (Qlt_le_dec a b)
    end.
    + match goal with
      | |- context [_save_metrics env ?st] =>
          destruct (save_metrics_returns st) as (s' & y' & Hs & He & Hc & Hv);
          rewrite Hs
      end.
      cbn -[dict_update] in *. exists r0. eexists. exists s', y'.
      split; [exact Hres|]. split; [|auto].
      erewrite rule_based_update by exact Hres. rewrite Hv. reflexivity.
    + cbn -[dict_update]. exists r0. eexists. do 2 eexists.
      split; [exact Hres|].
      split; [erewrite rule_based_update by exact Hres; reflexivity|].
      split; reflexivity.
  - pose proof (rule_based_raises (truncate self text) self1 (tick sys) e Hk)
      as Hr.
    unfold analyze, bind, try_except, on_sys, modify_self, modify, get_self,
      time_time.
    cbn -[tick draw _analyze_rule_based _save_metrics truncate dict_update]. fold self1.
    change (truncate self1 text) with (truncate self text).
    rewrite Hr. reflexivity.
Qed.

Lemma rule_based_raise_inv text self sys e :
  fst (_analyze_rule_based env text (self, sys)) = Raise e ->
  keyword_counts (config self) text = Raise e.
Proof.
  destruct (keyword_counts (config self) text) as [[pc nc]|e'] eqn:Hk.
  - destruct (rule_based_returns text self sys pc nc Hk) as (r & Hr & _).
    rewrite Hr. discriminate.
  - rewrite (rule_based_raises text self sys e' Hk). simpl. congruence.
Qed.

Lemma substring_length n s :
  String.length (String.substring 0 n s) = Nat.min n (String.length s).
Proof.
  revert s; induction n as [|n IH]; intros [|c s]; simpl; auto.
Qed.

Lemma truncate_length self text :
  0 <= max_length self < len text ->
  len (truncate self text) = max_length self.
Proof.
  intros [H0 H1]. unfold truncate.
  destruct (Z.gtb_spec (len text) (max_length self)); [|lia].
  unfold slice_to. destruct (Z.ltb_spec (max_length self) 0); [lia|].
  unfold len in *. rewrite substring_length. lia.
Qed.

(** C4. [analyze] returns for every string, whatever the state of the
    model: it never raises. The text that is scored is the text cut to
    [max_length]. Whenever the scoring call raises, the result is the
    neutral fallback with score 0.5 and the error's description, and the
    error counter has grown by exactly one; whenever it returns, the
    error counter is unchanged. *)
Theorem analyze_never_raises text self sys :
  let scoring :=
    _analyze_rule_based env (truncate self text)
      (set_request_count self (request_count self + 1), tick sys) in
  exists r self' sys',
    analyze env text (self, sys) = (Ret r, (self', sys'))
    /\ request_count self' = request_count self + 1
    /\ (0 <= max_length self < len text ->
        len (truncate self text) = max_length self)
    /\ (forall e,
          fst scoring = Raise e ->
          r = [("sentiment", VStr "neutral");
               ("score", VFloat 0.5);
               ("model_version", VStr (model_version self));
               ("error", VStr (exn_msg e))]
          /\ error_count self' = error_count self + 1)
    /\ (is_ret (fst scoring) = true -> error_count self' = error_count self).
Proof.
  intros scoring. pose proof (analyze_cases text self sys) as H.
  cbv zeta in H.
  destruct (keyword_counts (config self) (truncate self text))
    as [[pc nc]|e0] eqn:Hk.
  - destruct H as (r0 & lat & self' & sys' & Hres & Ha & He & Hc).
    eexists. exists self', sys'. split; [exact Ha|]. split; [exact Hc|].
    split; [apply truncate_length|]. split.
    + intros e He'. apply rule_based_raise_inv in He'. simpl in He'. congruence.
    + intros _. exact He.
  - eexists. do 2 eexists. split; [exact H|]. split; [reflexivity|].
    split; [apply truncate_length|]. split.
    + intros e He'. apply rule_based_raise_inv in He'. simpl in He'.
      assert (e = e0) as -> by congruence. split; reflexivity.
    + subst scoring.
      rewrite (rule_based_raises (truncate self text)
                 (set_request_count self (request_count self + 1))
                 (tick sys) e0 Hk).
      discriminate.
Qed.

Lemma base_score_bounds (d : Z) :
  1 <= d ->
  (0.7 <= Qmin (0.7 + 0.1 * inject_Z d) 0.95 /\
   Qmin (0.7 + 0.1 * inject_Z d) 0.95 <= 0.95)%Q.
Proof.
  intros Hd. split; [|apply Q.le_min_r].
  assert (1 <= inject_Z d)%Q as H1
    by (change 1%Q with (inject_Z 1); rewrite <- Zle_Qle; exact Hd).
  apply Q.min_glb; lra.
Qed.

(** C8. With every jitter draw in [0,1), the score that [analyze]
    returns lies in [0,1] (indeed in [0.5,1]). With [pc] and [nc] the two
    counts reported in [details] and [j] the draw: a positive or negative
    result has score min(0.7 + 0.1*|pc - nc|, 0.95) + 0.05*j, a neutral one
    0.5 + 0.1*j, and the fallback after a failure has exactly 0.5. The
    formula is the same for both polarities: the sign is carried by
    [sentiment] alone. Floats are taken as exact rationals. *)
Theorem analyze_score_in_unit_interval text self sys :
  (forall n, 0 <= random_at env n /\ random_at env n < 1)%Q ->
  exists r st' q,
    analyze env text (self, sys) = (Ret r, st')
    /\ dict_lookup r "score" = Some (VFloat q)
    /\ (0 <= q /\ 0.5 <= q /\ q <= 1)%Q
    /\ let j := random_at env (draws sys) in
       (0 <= j * 0.05 /\ j * 0.05 <= 0.05 /\ 0 <= j * 0.1 /\ j * 0.1 <= 0.1)%Q
       /\ ((exists pc nc,
              dict_lookup r "details"
              = Some (VDict [("positive_count", VInt pc);
                             ("negative_count", VInt nc)])
              /\ dict_lookup r "error" = None
              /\ ((nc < pc
                   /\ dict_lookup r "sentiment" = Some (VStr "positive")
                   /\ q = (Qmin (0.7 + 0.1 * inject_Z (pc - nc)) 0.95
                           + j * 0.05)%Q)
                  \/ (pc < nc
                      /\ dict_lookup r "sentiment" = Some (VStr "negative")
                      /\ q = (Qmin (0.7 + 0.1 * inject_Z (nc - pc)) 0.95
                              + j * 0.05)%Q)
                  \/ (pc = nc
                      /\ dict_lookup r "sentiment" = Some (VStr "neutral")
                      /\ q = (0.5 + j * 0.1)%Q)))
           \/ (exists msg,
                 dict_lookup r "error" = Some (VStr msg)
                 /\ dict_lookup r "sentiment" = Some (VStr "neutral")
                 /\ q = 0.5%Q)).
Proof.
  intros Hj. pose proof (analyze_cases text self sys) as H.
  cbv zeta in H. destruct (Hj (draws sys)) as [Hj0 Hj1].
  assert (0 <= random_at env (draws sys) * 0.05
          /\ random_at env (draws sys) * 0.05 <= 0.05
          /\ 0 <= random_at env (draws sys) * 0.1
          /\ random_at env (draws sys) * 0.1 <= 0.1)%Q as Hjit
    by (repeat split; lra).
  destruct (keyword_counts (config self) (truncate self text))
    as [[pc nc]|e0] eqn:Hk.
  - destruct H as (r0 & lat & self' & sys' & Hres & Ha & _ & _).
    destruct Hres as [Hlt|Hlt|Heq].
    + pose proof (base_score_bounds (pc - nc) ltac:(lia)) as [Hb0 Hb1].
      do 3 eexists. split; [exact Ha|]. split; [reflexivity|].
      split; [repeat split; lra|]. cbv zeta. split; [exact Hjit|].
      left. exists pc, nc. split; [reflexivity|]. split; [reflexivity|].
      left. auto.
    + pose proof (base_score_bounds (nc - pc) ltac:(lia)) as [Hb0 Hb1].
      do 3 eexists. split; [exact Ha|]. split; [reflexivity|].
      split; [repeat split; lra|]. cbv zeta. split; [exact Hjit|].
      left. exists pc, nc. split; [reflexivity|]. split; [reflexivity|].
      right; left. auto.
    + do 3 eexists. split; [exact Ha|]. split; [reflexivity|].
      split; [repeat split; lra|]. cbv zeta. split; [exact Hjit|].
      left. exists pc, nc. split; [reflexivity|]. split; [reflexivity|].
      right; right. auto.
  - do 3 eexists. split; [exact H|]. split; [reflexivity|].
    split; [repeat split; lra|]. cbv zeta. split; [exact Hjit|].
    right. exists (exn_msg e0). auto.
Qed.

Lemma occurrences_nonneg needle hay : 0 <= occurrences needle hay.
Proof.
  induction hay as [|c hay IH]; cbn [occurrences];
    match goal with |- context [if ?b then _ else _] => destruct b end; lia.
Qed.

Lemma contains_occurrences needle hay :
  contains needle hay = (0 <? occurrences needle hay).
Proof.
  induction hay as [|c hay IH].
  - cbn [contains occurrences]. destruct (String.prefix needle ""); reflexivity.
  - cbn [contains occurrences]. rewrite IH.
    pose proof (occurrences_nonneg needle hay).
    destruct (String.prefix needle (String c hay)); simpl.
    + symmetry. apply Z.ltb_lt. lia.
    + reflexivity.
Qed.

Lemma count_keywords_present ws text :
  count_keywords (map VStr ws) text = Ret (keywords_present ws text).
Proof.
  unfold keywords_present. induction ws as [|w ws IH]; [reflexivity|].
  cbn [map count_keywords str_lower obind List.filter]. rewrite IH.
  cbn [obind]. rewrite contains_occurrences.
  destruct (0 <? occurrences (lower w) (lower text)); cbn [length]; f_equal; lia.
Qed.

Lemma keywords_present_le_total ws text :
  keywords_present ws text <= occurrence_total ws text.
Proof.
  unfold keywords_present, occurrence_total.
  induction ws as [|w ws IH]; [reflexivity|].
  cbn [List.filter fold_right].
  pose proof (occurrences_nonneg (lower w) (lower text)).
  destruct (Z.ltb_spec 0 (occurrences (lower w) (lower text)));
    cbn [length]; lia.
Qed.

(** C6, as the code has it. When the two keyword lists of the
    configuration are lists of strings, the counts that [analyze] reports
    are the numbers of list entries that occur at least once, as a
    substring and without regard to case, in the text cut to
    [max_length]: an entry that occurs several times counts once. The
    count is therefore at most the number of entries and at most the
    number of occurrences. *)
Theorem keyword_count_counts_entries_present text self sys pos neg :
  py_get (config self) "positive_keywords" (VList [])
  = Ret (VList (map VStr pos)) ->
  py_get (config self) "negative_keywords" (VList [])
  = Ret (VList (map VStr neg)) ->
  let cut := truncate self text in
  exists r st',
    analyze env text (self, sys) = (Ret r, st')
    /\ dict_lookup r "details"
       = Some (VDict [("positive_count", VInt (keywords_present pos cut));
                      ("negative_count", VInt (keywords_present neg cut))])
    /\ keywords_present pos cut <= Z.of_nat (length pos)
    /\ keywords_present neg cut <= Z.of_nat (length neg)
    /\ keywords_present pos cut <= occurrence_total pos cut
    /\ keywords_present neg cut <= occurrence_total neg cut.
Proof.
  intros Hp Hn cut. pose proof (analyze_cases text self sys) as H.
  cbv zeta in H. fold cut in H.
  assert (keyword_counts (config self) cut
          = Ret (keywords_present pos cut, keywords_present neg cut)) as Hk.
  { unfold keyword_counts. rewrite Hp, Hn. cbn [obind iterate].
    rewrite !count_keywords_present. reflexivity. }
  rewrite Hk in H.
  destruct H as (r0 & lat & self' & sys' & Hres & Ha & _ & _).
  exists (r0 ++ [("model_version", VStr (model_version self));
                 ("latency_ms", VFloat lat)]), (self', sys').
  split; [exact Ha|]. split; [destruct Hres; reflexivity|].
  unfold keywords_present at 1 3.
  repeat split;
    try apply keywords_present_le_total;
    apply Nat2Z.inj_le, filter_length_le.
Qed.

End Scorer.

(** Instances of the scorer theorems on the sample models. *)

Lemma analyze_never_raises_witness :
  exists r self' sys',
    analyze offline_env "Profits surge" (broken_model, fresh_sys)
    = (Ret r, (self', sys'))
    /\ dict_lookup r "sentiment" = Some (VStr "neutral")
    /\ dict_lookup r "score" = Some (VFloat 0.5)
    /\ error_count self' = 2.
Proof.
  destruct (analyze_never_raises offline_env "Profits surge" broken_model
              fresh_sys) as (r & self' & sys' & Ha & _ & _ & Hfail & _).
  destruct (Hfail (Exn AttributeError "object has no attribute 'lower'")
              eq_refl) as [-> He].
  do 3 eexists. split; [exact Ha|].
  split; [reflexivity|]. split; [reflexivity|]. exact He.
Defined.

Lemma analyze_score_in_unit_interval_witness :
  (forall n, 0 <= random_at offline_env n /\ random_at offline_env n < 1)%Q
  /\ exists r st' q,
       analyze offline_env "Markets reach record highs as tech stocks surge"
         (default_model, fresh_sys) = (Ret r, st')
       /\ dict_lookup r "score" = Some (VFloat q)
       /\ (0 <= q /\ 0.5 <= q /\ q <= 1)%Q.
Proof.
  assert (forall n, 0 <= random_at offline_env n
                    /\ random_at offline_env n < 1)%Q as Hj
    by (intros n; simpl; split; lra).
  split; [exact Hj|].
  destruct (analyze_score_in_unit_interval offline_env
              "Markets reach record highs as tech stocks surge"
              default_model fresh_sys Hj) as (r & st' & q & Ha & Hs & Hq & _).
  exists r, st', q. auto.
Defined.

Lemma keyword_count_counts_entries_present_witness :
  exists r st',
    analyze offline_env "Markets reach record highs as tech stocks surge"
      (default_model, fresh_sys) = (Ret r, st')
    /\ dict_lookup r "details"
       = Some (VDict [("positive_count", VInt 2); ("negative_count", VInt 0)]).
Proof.
  destruct (keyword_count_counts_entries_present offline_env
              "Markets reach record highs as tech stocks surge"
              default_model fresh_sys
              positive_keywords_default negative_keywords_default
              eq_refl eq_refl) as (r & st' & Ha & Hd & _).
  exists r, st'. split; [exact Ha|]. exact Hd.
Defined.

(** C6, as stated, fails: "surge surge" holds the keyword twice, and the
    scorer reports a positive count of 1, not 2. *)
Lemma repeated_keyword_counts_once :
  exists r st',
    analyze offline_env "surge surge" (default_model, fresh_sys) = (Ret r, st')
    /\ dict_lookup r "details"
       = Some (VDict [("positive_count", VInt 1); ("negative_count", VInt 0)])
    /\ occurrence_total positive_keywords_default
         (truncate default_model "surge surge") = 2.
Proof.
  do 2 eexists. split; [vm_compute; reflexivity|].
  split; vm_compute; reflexivity.
Qed.

(** * The aggregation pipeline *)

(** ** Titles *)

Lemma normalized_title_ret item t :
  normalized_title item = Ret t -> has_str_title item /\ norm_key item = t.
Proof.
  unfold norm_key, has_str_title. intros H. rewrite H. split; [|reflexivity].
  unfold normalized_title, strip_lower in H.
  destruct (dict_get item "title" (VStr "")); try discriminate. eauto.
Qed.

Lemma has_str_title_norm item :
  has_str_title item -> normalized_title item = Ret (norm_key item).
Proof.
  intros [s Hs]. unfold norm_key, normalized_title. rewrite Hs. reflexivity.
Qed.

Lemma well_titled_nil : well_titled [].
Proof. split; constructor. Qed.

Lemma well_titled_snoc l item :
  well_titled l -> has_str_title item -> norm_key item ∉ (norm_key <$> l) ->
  well_titled (l ++ [item]).
Proof.
  intros [Hs Hn] Hi Hfresh. split.
  - apply Forall_app; split; [exact Hs|]. constructor; [exact Hi|constructor].
  - rewrite fmap_app. apply NoDup_app. split; [exact Hn|].
    split; [|apply NoDup_singleton].
    intros x Hx Hx'. apply list_elem_of_singleton in Hx'. subst. auto.
Qed.

Lemma well_titled_sublist l k :
  l `sublist_of` k -> well_titled k -> well_titled l.
Proof.
  intros Hsub [Hs Hn]. split.
  - eapply Forall_forall. intros x Hx.
    eapply (proj1 (Forall_forall _ _) Hs), elem_of_sublist; eauto.
  - eapply sublist_NoDup; [exact Hn|apply fmap_sublist, Hsub].
Qed.

(** ** The sources *)

Section Sources.

Variable env : Env.

Lemma is_api_key_valid_returns s :
  exists b s', is_api_key_valid env s = (Ret b, s').
Proof.
  unfold is_api_key_valid, try_except, bind, lift, record_call, modify, ret.
  destruct (probe_response env) as [r|e]; [|eauto].
  repeat match goal with |- context [if ?b then _ else _] => destruct b end;
    eauto.
Qed.

Lemma get_news_from_excel_returns ticker days s :
  exists l s', get_news_from_excel env ticker days s = (Ret l, s').
Proof.
  unfold get_news_from_excel, try_except.
  match goal with |- context [match ?m s with _ => _ end] => destruct (m s) as [[l|e] s'] end;
    eauto.
Qed.

Lemma get_news_from_excel_calls ticker days s :
  calls (snd (get_news_from_excel env ticker days s))
  = calls s ++ [ReadExcel ticker days].
Proof.
  unfold get_news_from_excel, try_except, bind, lift, record_call, modify, ret.
  cbn. destruct (excel_file env) as [[rows|e]|]; cbn; try reflexivity.
  destruct (days_ago env days); cbn; [|reflexivity].
  destruct (filter_rows env ticker _ rows); reflexivity.
Qed.

(** The formatting loop keeps the titles distinct. *)
Lemma format_articles_well_titled ticker articles :
  forall seen news out,
    format_articles env ticker articles seen news = Ret out ->
    well_titled news ->
    (forall item, item ∈ news -> norm_key item ∈ seen) ->
    well_titled out.
Proof.
  induction articles as [|article rest IH]; intros seen news out.
  - cbn. intros [= <-] Hw _. exact Hw.
  - cbn [format_articles]. unfold obind at 1.
    destruct (py_get article "title" (VStr "")) as [title|]; [|discriminate].
    destruct (truthy title); cbn [negb]; [|apply IH].
    unfold obind at 1.
    destruct (strip_lower title) as [normalized|] eqn:Hn; [|discriminate].
    case_bool_decide as Hseen; [apply IH|].
    unfold obind at 1.
    destruct (py_get article "publishedAt" (VStr "")) as [published|];
      [|discriminate].
    destruct (reformat_date env published) as [date|e].
    + unfold obind at 1.
      destruct (py_get article "source" (VDict [])) as [source|];
        [|discriminate].
      unfold obind at 1.
      destruct (py_get source "name" (VStr "")) as [publisher|];
        [|discriminate].
      unfold obind at 1.
      destruct (py_get article "url" (VStr "")) as [link|]; [|discriminate].
      intros Hout Hw Hcov.
      set (item := [("title", title); ("publisher", publisher); ("link", link);
                    ("published_date", VStr date); ("ticker", VStr ticker)])
        in *.
      assert (normalized_title item = Ret normalized) as Hitem by exact Hn.
      apply normalized_title_ret in Hitem as [Hstr Hkey].
      eapply IH; [exact Hout| |].
      * apply well_titled_snoc; [exact Hw|exact Hstr|].
        rewrite Hkey. intros Hin.
        apply list_elem_of_fmap in Hin as (it & -> & Hit).
        apply Hseen, Hcov, Hit.
      * intros it Hit. apply elem_of_app in Hit as [Hit|Hit].
        -- apply elem_of_union_r, Hcov, Hit.
        -- apply list_elem_of_singleton in Hit. subst it. rewrite Hkey.
           apply elem_of_union_l, elem_of_singleton. reflexivity.
    + destruct (is_value_or_type_error e); [|discriminate].
      intros Hout Hw Hcov. eapply IH; [exact Hout|exact Hw|].
      intros it Hit. apply elem_of_union_r, Hcov, Hit.
Qed.

Lemma get_news_from_api_returns ticker days max_results s :
  exists l s',
    get_news_from_api env ticker days max_results s = (Ret l, s')
    /\ well_titled l.
Proof.
  unfold get_news_from_api, try_except.
  match goal with
  | |- context [match ?m s with _ => _ end] =>
      destruct (m s) as [[l|e] s'] eqn:Hrun
  end.
  - exists l, s'. split; [reflexivity|].
    unfold bind, lift in Hrun.
    destruct (days_ago env _); [|discriminate].
    destruct (paging _ _ _ _ _ _ s) as [[all|] s1]; [|discriminate].
    injection Hrun as Hfmt _.
    eapply format_articles_well_titled; [exact Hfmt|apply well_titled_nil|].
    intros it Hit. inversion Hit.
  - destruct (exn_cls e); exists [], s'; split;
      try reflexivity; apply well_titled_nil.
Qed.

End Sources.

(** ** Merging *)

Lemma existing_titles_of_spec news titles :
  existing_titles_of news = Ret titles ->
  Forall has_str_title news
  /\ (forall t, t ∈ titles <-> t ∈ (norm_key <$> news)).
Proof.
  revert titles. induction news as [|item rest IH]; intros titles.
  - cbn. intros [= <-]. split; [constructor|]. intros t. set_solver.
  - cbn [existing_titles_of]. unfold obind at 1.
    destruct (normalized_title item) as [t0|] eqn:Ht; [|discriminate].
    unfold obind at 1.
    destruct (existing_titles_of rest) as [ts|]; [|discriminate].
    intros [= <-]. destruct (IH ts eq_refl) as [Hs Hiff].
    apply normalized_title_ret in Ht as [Hstr Hkey]. split.
    + constructor; assumption.
    + intros t. rewrite fmap_cons, elem_of_cons, elem_of_union,
        elem_of_singleton, Hkey, Hiff. reflexivity.
Qed.

Lemma merge_new_spec incoming :
  forall news existing out,
    merge_new incoming news existing = Ret out ->
    (forall t, t ∈ existing <-> t ∈ (norm_key <$> news)) ->
    exists added, out = news ++ added /\ merged_in news incoming added.
Proof.
  induction incoming as [|item rest IH]; intros news existing out.
  - cbn. intros [= <-] _. exists []. rewrite app_nil_r. split; [reflexivity|].
    split; [apply sublist_nil|]. split; [constructor|].
    split; [intros it Hit; inversion Hit|]. split; [constructor|].
    intros it Hit; inversion Hit.
  - cbn [merge_new]. unfold obind at 1.
    destruct (normalized_title item) as [t|] eqn:Ht; [|discriminate].
    apply normalized_title_ret in Ht as [Hstr Hkey].
    destruct (String.eqb_spec t "") as [Hempty|Hne]; cbn [negb andb].
    { (* an empty title is skipped *)
      intros Hout Hex. destruct (IH _ _ _ Hout Hex)
        as (added & -> & Hsub & Hs & Hnew & Hnd & Hall).
      exists added. split; [reflexivity|].
      repeat split; auto; try (apply Hnew; assumption).
      - apply sublist_cons, Hsub.
      - intros it Hit Hit1 Hit2. apply elem_of_cons in Hit as [->|Hit];
          [congruence|auto]. }
    case_bool_decide as Hin; cbn [negb].
    { (* a title already present is skipped *)
      intros Hout Hex. destruct (IH _ _ _ Hout Hex)
        as (added & -> & Hsub & Hs & Hnew & Hnd & Hall).
      exists added. split; [reflexivity|].
      repeat split; auto; try (apply Hnew; assumption).
      - apply sublist_cons, Hsub.
      - intros it Hit Hit1 Hit2. apply elem_of_cons in Hit as [->|Hit];
          [|auto]. exfalso. apply Hit2, Hex. rewrite Hkey. exact Hin. }
    (* a new title is appended *)
    intros Hout Hex.
    assert (forall t', t' ∈ ({[t]} ∪ existing : gset string)
                       <-> t' ∈ (norm_key <$> (news ++ [item]))) as Hex'.
    { intros t'. rewrite fmap_app, elem_of_app, elem_of_union,
        elem_of_singleton, Hex. cbn. rewrite list_elem_of_singleton, Hkey.
      tauto. }
    destruct (IH _ _ _ Hout Hex')
      as (added & -> & Hsub & Hs & Hnew & Hnd & Hall).
    exists (item :: added). split; [rewrite <- app_assoc; reflexivity|].
    assert (norm_key item ∉ (norm_key <$> news)) as Hfresh
      by (rewrite Hkey, <- Hex; exact Hin).
    assert (forall it, it ∈ added ->
              norm_key it <> "" /\ (norm_key it ∉ (norm_key <$> news))
              /\ norm_key it <> norm_key item) as Hnew'.
    { intros it Hit. destruct (Hnew it Hit) as [H1 H2]. split; [exact H1|].
      rewrite fmap_app, not_elem_of_app in H2. destruct H2 as [H2 H3].
      split; [exact H2|]. cbn in H3. rewrite list_elem_of_singleton in H3.
      exact H3. }
    repeat split.
    + apply sublist_skip, Hsub.
    + constructor; assumption.
    + apply elem_of_cons in H as [->|Hit]; [congruence|apply Hnew', Hit].
    + apply elem_of_cons in H as [->|Hit]; [exact Hfresh|apply Hnew', Hit].
    + rewrite fmap_cons. apply NoDup_cons. split; [|exact Hnd].
      intros Hdup. apply list_elem_of_fmap in Hdup as (it & Heq & Hit).
      destruct (Hnew' it Hit) as (_ & _ & Hneq). congruence.
    + intros it Hit Hit1 Hit2. rewrite fmap_cons.
      apply elem_of_cons in Hit as [->|Hit]; [apply list_elem_of_here|].
      destruct (decide (norm_key it = norm_key item)) as [->|Hneq];
        [apply list_elem_of_here|].
      apply list_elem_of_further, Hall; [exact Hit|exact Hit1|].
      rewrite fmap_app, not_elem_of_app. split; [exact Hit2|].
      cbn. rewrite list_elem_of_singleton. exact Hneq.
Qed.

Lemma merged_in_well_titled news incoming added :
  well_titled news -> merged_in news incoming added ->
  well_titled (news ++ added).
Proof.
  intros [Hs Hn] (Hsub & Hs' & Hnew & Hnd & _). split.
  - apply Forall_app. split; assumption.
  - rewrite fmap_app. apply NoDup_app. split; [exact Hn|]. split; [|exact Hnd].
    intros t Ht Ht'. apply list_elem_of_fmap in Ht' as (it & -> & Hit).
    destruct (Hnew it Hit) as [_ Hfresh]. auto.
Qed.

Lemma merge_step_spec incoming news out :
  merge_step incoming news = Ret out ->
  (out = news /\ incoming = [])
  \/ (exists added,
        out = news ++ added /\ Forall has_str_title news
        /\ merged_in news incoming added).
Proof.
  unfold merge_step. destruct incoming as [|item rest]; cbn [is_empty].
  - intros [= <-]. left. auto.
  - unfold obind at 1.
    destruct (existing_titles_of news) as [titles|] eqn:Hex; [|discriminate].
    apply existing_titles_of_spec in Hex as [Hs Hiff].
    intros Hout. right.
    destruct (merge_new_spec _ _ _ _ Hout Hiff) as (added & -> & Hm).
    exists added. auto.
Qed.

Lemma merge_step_well_titled incoming news out :
  merge_step incoming news = Ret out -> well_titled news -> well_titled out.
Proof.
  intros Hm Hw. apply merge_step_spec in Hm as [[-> _]|(added & -> & _ & Hm)];
    [exact Hw|].
  eapply merged_in_well_titled; eassumption.
Qed.

(** What [picked] selects is determined. *)
Lemma picked_unique {A} (P : nat -> A -> Prop) l :
  forall i out1 out2,
    picked P i l out1 -> picked P i l out2 -> out1 = out2.
Proof.
  induction l as [|x l IH]; intros i out1 out2 H1 H2;
    inversion H1; inversion H2; subst; try contradiction;
    [reflexivity|f_equal|]; eapply IH; eassumption.
Qed.

(** The merge loop appends exactly the incoming items whose title is
    fresh. [news0] is the list before the loop, [pre] the incoming items
    that the loop has gone through. *)
Lemma merge_new_picked news0 rest :
  forall pre news existing out,
    merge_new rest news existing = Ret out ->
    (forall t, t ∈ existing
               <-> t ∈ (norm_key <$> news0)
                   \/ (t <> "" /\ t ∈ (norm_key <$> pre))) ->
    exists added,
      out = news ++ added
      /\ Forall has_str_title rest
      /\ picked (fresh_title news0 (pre ++ rest)) (length pre) rest added.
Proof.
  induction rest as [|item rest IH]; intros pre news existing out.
  - cbn. intros [= <-] _. exists []. rewrite app_nil_r.
    split; [reflexivity|]. split; constructor.
  - cbn [merge_new]. unfold obind at 1.
    destruct (normalized_title item) as [t|] eqn:Ht; [|discriminate].
    apply normalized_title_ret in Ht as [Hstr Hkey].
    intros Hrun Hinv.
    assert (fresh_title news0 (pre ++ item :: rest) (length pre) item
            <-> t <> "" /\ t ∉ existing) as Hfresh.
    { unfold fresh_title. rewrite Hkey, Hinv. split.
      - intros (Hne & Hnews & Hearlier). split; [exact Hne|].
        intros [Hin|[_ Hin]]; [auto|].
        apply list_elem_of_fmap in Hin as (earlier & He & Hin).
        apply list_elem_of_lookup in Hin as [j Hj].
        apply (Hearlier j earlier).
        + eapply lookup_lt_Some, Hj.
        + rewrite lookup_app_l by (eapply lookup_lt_Some, Hj). exact Hj.
        + congruence.
      - intros [Hne Hnot]. split; [exact Hne|].
        split; [intros Hin; apply Hnot; auto|].
        intros j earlier Hj Hlook Heq. apply Hnot. right.
        split; [exact Hne|].
        rewrite lookup_app_l in Hlook by exact Hj.
        apply list_elem_of_fmap. exists earlier.
        split; [congruence|]. eapply list_elem_of_lookup_2, Hlook. }
    replace (pre ++ item :: rest) with ((pre ++ [item]) ++ rest) in *
      by (rewrite <- app_assoc; reflexivity).
    assert (forall k, k ∈ (norm_key <$> pre ++ [item])
                      <-> k ∈ (norm_key <$> pre) \/ k = t) as Hpre.
    { intros k. rewrite fmap_app, elem_of_app. cbn.
      rewrite list_elem_of_singleton, Hkey. reflexivity. }
    destruct (negb (String.eqb t "") && negb (bool_decide (t ∈ existing)))
      eqn:Htest.
    + apply andb_true_iff in Htest as [Hne Hnew].
      apply negb_true_iff in Hne, Hnew.
      apply String.eqb_neq in Hne. apply bool_decide_eq_false in Hnew.
      destruct (IH (pre ++ [item]) (news ++ [item]) ({[t]} ∪ existing) out
                  Hrun) as (added & -> & Hs & Hp).
      { intros k. rewrite elem_of_union, elem_of_singleton, Hinv, Hpre.
        split.
        - intros [->|[Hk|[Hk1 Hk2]]]; auto.
        - intros [Hk|[Hk1 [Hk2| ->]]]; auto. }
      exists (item :: added). rewrite <- app_assoc. split; [reflexivity|].
      split; [constructor; assumption|].
      apply PickedKeep; [apply Hfresh; auto|].
      rewrite length_app, Nat.add_1_r in Hp. exact Hp.
    + destruct (IH (pre ++ [item]) news existing out Hrun)
        as (added & -> & Hs & Hp).
      { intros k. rewrite Hinv, Hpre. split.
        - intros [Hk|[Hk1 Hk2]]; auto.
        - intros [Hk|[Hk1 [Hk2| ->]]]; auto.
          apply andb_false_iff in Htest as [Hz|Hz];
            apply negb_false_iff in Hz.
          + apply String.eqb_eq in Hz. contradiction.
          + apply bool_decide_eq_true in Hz. apply Hinv in Hz. exact Hz. }
      exists added. split; [reflexivity|].
      split; [constructor; assumption|].
      apply PickedSkip.
      * rewrite Hfresh. intros [Hne Hnew].
        apply andb_false_iff in Htest as [Hz|Hz];
          apply negb_false_iff in Hz.
        -- apply String.eqb_eq in Hz. contradiction.
        -- apply bool_decide_eq_true in Hz. contradiction.
      * rewrite length_app, Nat.add_1_r in Hp. exact Hp.
Qed.

Lemma merge_step_picked incoming news out :
  merge_step incoming news = Ret out ->
  exists added,
    out = news ++ added
    /\ Forall has_str_title incoming
    /\ picked (fresh_title news incoming) 0 incoming added.
Proof.
  unfold merge_step. destruct incoming as [|item rest]; cbn [is_empty].
  - intros [= <-]. exists []. rewrite app_nil_r.
    split; [reflexivity|]. split; constructor.
  - unfold obind at 1.
    destruct (existing_titles_of news) as [titles|] eqn:Hex; [|discriminate].
    apply existing_titles_of_spec in Hex as [_ Hiff].
    intros Hout.
    apply (merge_new_picked news (item :: rest) [] news titles out Hout).
    intros t. rewrite Hiff. cbn. split; [auto|].
    intros [Ht|[_ Ht]]; [exact Ht|inversion Ht].
Qed.

(** ** Scoring *)

Lemma scored_from_key ticker item scored :
  scored_from ticker item scored ->
  has_str_title scored /\ norm_key scored = norm_key item.
Proof.
  intros (h & s & sc & Ht & _ & ->). split.
  - exists h. reflexivity.
  - unfold norm_key, normalized_title. rewrite Ht. reflexivity.
Qed.

Section Scoring.

Variable env : Env.

Lemma process_items_spec ticker news :
  forall processed p out p',
    process_items env ticker news processed p = (Ret out, p') ->
    exists kept scored,
      out = processed ++ scored
      /\ kept `sublist_of` news
      /\ Forall2 (scored_from ticker) kept scored.
Proof.
  induction news as [|item rest IH]; intros processed p out p'.
  - cbn. intros [= <- _]. exists [], []. rewrite app_nil_r.
    split; [reflexivity|]. split; constructor.
  - cbn [process_items].
    destruct (dict_get item "title" (VStr "")) as [| | | | |headline| |]
      eqn:Ht;
      try (destruct (truthy _); cbn [negb];
           [discriminate
           |intros Hrun; destruct (IH _ _ _ _ Hrun) as (k & s & -> & Hk & Hf);
            exists k, s; split; [reflexivity|]; split;
            [apply sublist_cons, Hk|exact Hf]]).
    destruct (truthy (VStr headline)) eqn:Htruthy; cbn [negb].
    + unfold bind at 1.
      destruct (analyze_sentiment env headline p) as [[r|e] p1];
        [|discriminate].
      unfold bind at 1, lift.
      destruct (dict_item r "sentiment") as [sentiment|]; [|discriminate].
      unfold bind at 1.
      destruct (dict_item r "score") as [score|]; [|discriminate].
      intros Hrun. destruct (IH _ _ _ _ Hrun) as (k & s & -> & Hk & Hf).
      eexists (item :: k), (_ :: s). split; [rewrite <- app_assoc; reflexivity|].
      split; [apply sublist_skip, Hk|]. constructor; [|exact Hf].
      exists headline, sentiment, score. split; [exact Ht|].
      split; [|reflexivity].
      cbn in Htruthy. intros ->. discriminate.
    + intros Hrun. destruct (IH _ _ _ _ Hrun) as (k & s & -> & Hk & Hf).
      exists k, s. split; [reflexivity|]. split; [apply sublist_cons, Hk|exact Hf].
Qed.

End Scoring.

(** ** The steps of the pipeline *)

Section Pipeline.

Variable env : Env.

Lemma primary_step_returns ticker days max_results p :
  exists news p1,
    primary_step env ticker days max_results p = (Ret news, p1)
    /\ well_titled news.
Proof.
  unfold primary_step, bind, in_sys.
  destruct (is_api_key_valid_returns env (sys p)) as (b & s1 & Hb).
  rewrite Hb. destruct b.
  - destruct (get_news_from_api_returns env ticker days max_results s1)
      as (l & s2 & Hl & Hw).
    cbn. rewrite Hl. eauto.
  - cbn. do 2 eexists. split; [reflexivity|apply well_titled_nil].
Qed.

Lemma excel_step_well_titled ticker days max_results news p out p' :
  excel_step env ticker days max_results news p = (Ret out, p') ->
  well_titled news -> well_titled out.
Proof.
  unfold excel_step. destruct (needs_excel days max_results news).
  - unfold bind, in_sys, lift.
    destruct (get_news_from_excel env ticker days (sys p)) as [[l|e] s1];
      [|discriminate].
    destruct (merge_step l news) eqn:Hm; [|discriminate].
    intros [= <- _]. eapply merge_step_well_titled, Hm.
  - intros [= <- _]. auto.
Qed.

Lemma demo_step_well_titled ticker days news p out p' :
  demo_step env ticker days news p = (Ret out, p') ->
  well_titled news -> well_titled out.
Proof.
  unfold demo_step. destruct (needs_demo news).
  - unfold bind, in_sys, lift.
    destruct (get_demo_news env ticker days (sys p)) as [[l|e] s1];
      [|discriminate].
    destruct (merge_step l news) eqn:Hm; [|discriminate].
    intros [= <- _]. eapply merge_step_well_titled, Hm.
  - intros [= <- _]. auto.
Qed.

Lemma list_slice_to_sublist {A} (l : list A) n : list_slice_to l n `sublist_of` l.
Proof. apply sublist_take. Qed.

Lemma truncate_step_sublist max_results news :
  truncate_step max_results news `sublist_of` news.
Proof.
  unfold truncate_step. destruct (_ >? _); [apply list_slice_to_sublist|done].
Qed.

Lemma truncate_step_length max_results news :
  0 <= max_results ->
  Z.of_nat (length (truncate_step max_results news)) <= max_results.
Proof.
  intros Hm. unfold truncate_step.
  destruct (Z.gtb_spec (Z.of_nat (length news)) max_results) as [Hgt|Hle];
    [|exact Hle].
  unfold list_slice_to. destruct (Z.ltb_spec max_results 0); [lia|].
  rewrite length_take. lia.
Qed.

(** Whatever the sources deliver, the merged list has string titles and
    no normalized title twice. *)
Lemma merged_titles_are_strings ticker days max_results p news p' :
  collect_news env ticker days max_results p = (Ret news, p') ->
  well_titled news.
Proof.
  unfold collect_news. unfold bind at 1.
  destruct (primary_step_returns ticker days max_results p)
    as (news1 & p1 & -> & Hw).
  unfold bind at 1.
  destruct (excel_step env ticker days max_results news1 p1)
    as [[news2|e] p2] eqn:Hx; [|discriminate].
  apply excel_step_well_titled in Hx; [|exact Hw].
  intros Hd. eapply demo_step_well_titled; eassumption.
Qed.

(** What a run of the [try] block that does not raise returns: the
    scored records of some of the merged, truncated items, in order. *)
Lemma body_spec ticker days max_results p out p' :
  get_financial_news_body env ticker days max_results p = (Ret out, p') ->
  exists merged kept,
    well_titled merged
    /\ kept `sublist_of` truncate_step max_results merged
    /\ Forall2 (scored_from ticker) kept out.
Proof.
  unfold get_financial_news_body. unfold bind at 1.
  destruct (collect_news env ticker days max_results p)
    as [[news|e] p3] eqn:Hc; [|discriminate].
  apply merged_titles_are_strings in Hc.
  intros Hrun. apply process_items_spec in Hrun
    as (kept & scored & -> & Hk & Hf).
  exists news, kept. auto.
Qed.

Lemma scored_well_titled ticker kept out :
  Forall2 (scored_from ticker) kept out -> well_titled kept -> well_titled out.
Proof.
  intros Hf [Hs Hn]. assert (norm_key <$> out = norm_key <$> kept) as Heq.
  { induction Hf as [|a b k o Hab _ IH]; [reflexivity|].
    rewrite !fmap_cons. f_equal.
    - apply scored_from_key in Hab. tauto.
    - apply IH.
      + inversion Hs; assumption.
      + rewrite fmap_cons in Hn. apply NoDup_cons in Hn. tauto. }
  split; [|rewrite Heq; exact Hn].
  clear Heq Hn Hs. induction Hf as [|a b k o Hab _ IH]; constructor; auto.
  apply scored_from_key in Hab. tauto.
Qed.

Lemma get_financial_news_cases ticker days max_results p :
  let d := coerce_days days in
  match get_financial_news_body env ticker d max_results p with
  | (Ret out, p') =>
      get_financial_news env ticker days max_results p = (Ret out, p')
  | (Raise e, p') =>
      get_financial_news env ticker days max_results p = (Ret [], p')
  end.
Proof.
  unfold get_financial_news, try_except. cbv zeta.
  destruct (get_financial_news_body _ _ _ _ _) as [[out|e] p']; reflexivity.
Qed.

End Pipeline.

(** ** Properties of [get_financial_news] *)

Section Results.

Variable env : Env.

(** C5. [get_financial_news] returns for every ticker, every [days]
    (given or defaulted) and every [max_results], from every state: it
    never raises. Whenever the body of its [try] block raises, in the
    fetch, merge or scoring steps, the result is the empty list. *)
Theorem get_financial_news_never_raises ticker days max_results p :
  exists items p',
    get_financial_news env ticker days max_results p = (Ret items, p')
    /\ (forall e,
          fst (get_financial_news_body env ticker (coerce_days days)
                 max_results p) = Raise e ->
          items = []).
Proof.
  pose proof (get_financial_news_cases env ticker days max_results p) as H.
  cbv zeta in H.
  destruct (get_financial_news_body _ _ _ _ _) as [[out|e0] p'].
  - exists out, p'. split; [exact H|]. discriminate.
  - exists [], p'. split; [exact H|]. reflexivity.
Qed.

(** C1. With [max_results] at least 1, the list that
    [get_financial_news] returns has at most [max_results] items. *)
Theorem result_length_at_most_max_results ticker days max_results p :
  1 <= max_results ->
  exists items p',
    get_financial_news env ticker days max_results p = (Ret items, p')
    /\ Z.of_nat (length items) <= max_results.
Proof.
  intros Hm.
  pose proof (get_financial_news_cases env ticker days max_results p) as H.
  cbv zeta in H.
  destruct (get_financial_news_body _ _ _ _ _) as [[out|e0] p'] eqn:Hb.
  - exists out, p'. split; [exact H|].
    apply body_spec in Hb as (merged & kept & _ & Hk & Hf).
    apply Forall2_length in Hf. apply sublist_length in Hk.
    pose proof (truncate_step_length max_results merged ltac:(lia)). lia.
  - exists [], p'. split; [exact H|]. cbn. lia.
Qed.

(** C2. In the list that [get_financial_news] returns, two items at
    different positions have string titles whose normalized forms
    (trimmed, then lower-cased) differ, whatever the three sources
    delivered. *)
Theorem result_titles_distinct ticker days max_results p :
  exists items p',
    get_financial_news env ticker days max_results p = (Ret items, p')
    /\ forall i j a b,
         i <> j -> items !! i = Some a -> items !! j = Some b ->
         exists s t,
           dict_lookup a "title" = Some (VStr s)
           /\ dict_lookup b "title" = Some (VStr t)
           /\ lower (strip s) <> lower (strip t).
Proof.
  pose proof (get_financial_news_cases env ticker days max_results p) as H.
  cbv zeta in H.
  destruct (get_financial_news_body _ _ _ _ _) as [[out|e0] p'] eqn:Hb.
  - exists out, p'. split; [exact H|].
    apply body_spec in Hb as (merged & kept & Hw & Hk & Hf).
    assert (well_titled out) as [_ Hn].
    { eapply scored_well_titled; [exact Hf|].
      eapply well_titled_sublist; [exact Hk|].
      eapply well_titled_sublist; [apply truncate_step_sublist|exact Hw]. }
    assert (forall x, x ∈ out -> exists s,
              dict_lookup x "title" = Some (VStr s)
              /\ norm_key x = lower (strip s)) as Htitle.
    { intros x Hx. apply list_elem_of_lookup in Hx as [n Hn'].
      destruct (Forall2_lookup_r _ _ _ _ _ Hf Hn')
        as (src & _ & (h & se & sc & _ & _ & ->)).
      exists h. split; reflexivity. }
    intros i j a b Hij Ha Hb'.
    destruct (Htitle a) as (s & Hs & Hks);
      [apply list_elem_of_lookup; eauto|].
    destruct (Htitle b) as (t & Ht & Hkt);
      [apply list_elem_of_lookup; eauto|].
    exists s, t. split; [exact Hs|]. split; [exact Ht|].
    intros Heq. apply Hij.
    eapply (proj1 (NoDup_alt _) Hn i j (norm_key a)).
    + rewrite list_lookup_fmap, Ha. reflexivity.
    + rewrite list_lookup_fmap, Hb'. cbn. f_equal. congruence.
  - exists [], p'. split; [exact H|]. intros i j a b _ Ha. inversion Ha.
Qed.

(** C10. Every item that [get_financial_news] returns has exactly the
    seven fields title, publisher, link, published_date, ticker, sentiment
    and score, in this order; its ticker is the ticker asked for and its
    title is a non-empty string, whatever fields the source row had. *)
Theorem result_items_have_seven_fields ticker days max_results p :
  exists items p',
    get_financial_news env ticker days max_results p = (Ret items, p')
    /\ Forall
         (fun item =>
            dict_keys item
            = ["title"; "publisher"; "link"; "published_date"; "ticker";
               "sentiment"; "score"]
            /\ dict_lookup item "ticker" = Some (VStr ticker)
            /\ exists t, dict_lookup item "title" = Some (VStr t) /\ t <> "")
         items.
Proof.
  pose proof (get_financial_news_cases env ticker days max_results p) as H.
  cbv zeta in H.
  destruct (get_financial_news_body _ _ _ _ _) as [[out|e0] p'] eqn:Hb.
  - exists out, p'. split; [exact H|].
    apply body_spec in Hb as (merged & kept & _ & _ & Hf).
    clear H. induction Hf as [|a b k o Hab _ IH]; constructor; [|exact IH].
    destruct Hab as (h & se & sc & _ & Hne & ->).
    split; [reflexivity|]. split; [reflexivity|]. exists h. auto.
  - exists [], p'. split; [exact H|]. constructor.
Qed.

End Results.

(** A spreadsheet with a general-interest row, the same headline again
    in other case and spacing under the ticker, and a row for another
    ticker: the first is kept and served under the ticker asked for, the
    second is a duplicate, the third is not selected. *)
Example general_rows_run :
  exists items p',
    get_financial_news general_rows_env "AAPL" (Some 7) 100 fresh_proc
    = (Ret items, p')
    /\ length items = 8%nat
    /\ (items !! 0%nat) ≫= (fun item => dict_lookup item "title")
       = Some (VStr "Stocks rally on strong earnings")
    /\ (items !! 0%nat) ≫= (fun item => dict_lookup item "ticker")
       = Some (VStr "AAPL")
    /\ (items !! 1%nat) ≫= (fun item => dict_lookup item "title")
       = Some (VStr "Markets reach record highs as tech stocks surge").
Proof.
  do 2 eexists. split; [vm_compute; reflexivity|].
  repeat split; reflexivity.
Qed.

Lemma get_financial_news_never_raises_witness :
  fst (get_financial_news_body nan_title_env "AAPL" (coerce_days (Some 7)) 100
         fresh_proc)
  = Raise (Exn AttributeError "object has no attribute 'strip'")
  /\ fst (get_financial_news nan_title_env "AAPL" (Some 7) 100 fresh_proc)
     = Ret [].
Proof.
  destruct (get_financial_news_never_raises nan_title_env "AAPL" (Some 7) 100
              fresh_proc) as (items & p' & Hrun & Hfail).
  assert (fst (get_financial_news_body nan_title_env "AAPL"
                 (coerce_days (Some 7)) 100 fresh_proc)
          = Raise (Exn AttributeError "object has no attribute 'strip'"))
    as Hbody by (vm_compute; reflexivity).
  split; [exact Hbody|].
  rewrite Hrun. cbn. f_equal. exact (Hfail _ Hbody).
Defined.

Lemma result_length_at_most_max_results_witness :
  1 <= 3
  /\ exists items p',
       get_financial_news offline_env "AAPL" (Some 7) 3 fresh_proc
       = (Ret items, p')
       /\ Z.of_nat (length items) <= 3.
Proof.
  split; [lia|].
  apply (result_length_at_most_max_results offline_env "AAPL" (Some 7) 3
           fresh_proc).
  lia.
Defined.

(** ** The supplement policy *)

Lemma needs_excel_spec days max_results (news : list dict) :
  needs_excel days max_results news = true
  <-> days > 30 \/ Z.of_nat (length news) < Z.min 30 (max_results / 2).
Proof.
  unfold needs_excel. rewrite orb_true_iff, Z.gtb_gt, Z.ltb_lt. lia.
Qed.

(** C7, as the code has it. For [days] and [max_results] at least 1, the
    step after the primary source reads the spreadsheet exactly when
    [days > 30] or the primary source gave fewer than
    [min 30 (max_results / 2)] items, [/] being integer division; it
    reads it once, for the same ticker and window. When it does, and the
    merge does not raise, every spreadsheet item has a string title and
    the new list is the primary items followed by exactly the
    spreadsheet items with a fresh title, in spreadsheet order
    ([picked], [fresh_title]): an item is appended if and only if its
    normalized title is not empty, is not that of a primary item and is
    not that of an earlier spreadsheet item, so of several rows with one
    title the first is the one kept. When the spreadsheet is not read,
    the list is unchanged. *)
Theorem excel_supplement_policy env ticker days max_results p :
  1 <= days -> 1 <= max_results ->
  let fetch (primary : list dict) :=
    days > 30 \/ Z.of_nat (length primary) < Z.min 30 (max_results / 2) in
  exists primary p1 o p2,
    coerce_days (Some days) = days
    /\ primary_step env ticker days max_results p = (Ret primary, p1)
    /\ excel_step env ticker days max_results primary p1 = (o, p2)
    /\ (fetch primary ->
        exists excel_items,
          fst (get_news_from_excel env ticker days (sys p1)) = Ret excel_items
          /\ calls (sys p2) = calls (sys p1) ++ [ReadExcel ticker days]
          /\ forall out,
               o = Ret out ->
               exists added,
                 out = primary ++ added
                 /\ Forall has_str_title excel_items
                 /\ picked (fresh_title primary excel_items) 0
                      excel_items added)
    /\ (~ fetch primary -> p2 = p1 /\ o = Ret primary).
Proof.
  intros Hd Hm fetch.
  destruct (primary_step_returns env ticker days max_results p)
    as (primary & p1 & Hp & Hw).
  destruct (excel_step env ticker days max_results primary p1) as [o p2] eqn:Hx.
  exists primary, p1, o, p2.
  split; [unfold coerce_days; lia|]. split; [exact Hp|]. split; [exact Hx|].
  unfold excel_step in Hx.
  destruct (needs_excel days max_results primary) eqn:Hn.
  - apply needs_excel_spec in Hn. split; [|intros Hnot; contradiction].
    intros _. unfold bind, in_sys, lift in Hx.
    pose proof (get_news_from_excel_calls env ticker days (sys p1)) as Hc.
    destruct (get_news_from_excel_returns env ticker days (sys p1))
      as (l & s1 & Hl).
    rewrite Hl in Hx, Hc |- *. cbn in Hx, Hc |- *.
    injection Hx as <- <-. exists l. split; [reflexivity|]. split; [exact Hc|].
    intros out Hout. apply merge_step_picked, Hout.
  - split.
    + intros Hf. apply needs_excel_spec in Hf. congruence.
    + intros _. injection Hx as <- <-. auto.
Qed.

Lemma excel_supplement_policy_witness :
  exists primary p1 out p2,
    primary_step general_rows_env "AAPL" 7 100 fresh_proc = (Ret primary, p1)
    /\ excel_step general_rows_env "AAPL" 7 100 primary p1 = (Ret out, p2)
    /\ calls (sys p2) = calls (sys p1) ++ [ReadExcel "AAPL" 7]
    /\ exists added,
         out = primary ++ added
         /\ added
            = [excel_row "GENERAL" (VStr "Stocks rally on strong earnings")].
Proof.
  destruct (excel_supplement_policy general_rows_env "AAPL" 7 100 fresh_proc
              ltac:(lia) ltac:(lia))
    as (primary & p1 & o & p2 & _ & Hp & Hx & Hfetch & _).
  assert (primary = [] /\ p1 = snd (primary_step general_rows_env "AAPL" 7 100
                                       fresh_proc)) as [-> Hp1].
  { rewrite Hp. vm_compute in Hp. injection Hp as <- _. auto. }
  destruct Hfetch as (excel_items & Hl & Hc & Hout);
    [right; vm_compute; reflexivity|].
  assert (o = Ret [excel_row "GENERAL" (VStr "Stocks rally on strong earnings")])
    as Ho.
  { rewrite Hp1 in Hx. vm_compute in Hx. injection Hx as <- _. reflexivity. }
  destruct (Hout _ Ho) as (added & Hadd & _ & _).
  subst o. exists [], p1. eexists. exists p2. split; [exact Hp|].
  split; [exact Hx|]. split; [exact Hc|].
  exists added. split; [exact Hadd|].
  cbn in Hadd. subst added. reflexivity.
Defined.

(** C7, as stated, fails in two ways. On a blank title: with the
    primary source down there is no title yet, so the normalized title
    of the spreadsheet row (the empty string) is not already present;
    the row is fetched and still not merged. On an odd limit: for
    [max_results = 1] the floor [min(30, max_results/2)] of the claim is
    a half, and the empty yield of the primary source is strictly below
    it, but the spreadsheet, which holds a row for the ticker, is not
    read: the code halves with [//], and nothing is below [1 // 2 = 0]. *)
Lemma blank_title_and_odd_limit_depart_from_the_claim :
  (let row := excel_row "AAPL" (VStr "   ") in
   fst (primary_step blank_title_env "AAPL" 7 100 fresh_proc) = Ret []
   /\ fst (get_news_from_excel blank_title_env "AAPL" 7 fresh_sys) = Ret [row]
   /\ normalized_title row = Ret ""
   /\ existing_titles_of [] = Ret ∅
   /\ fst (excel_step blank_title_env "AAPL" 7 100 [] fresh_proc) = Ret [])
  /\ (fst (primary_step general_rows_env "AAPL" 7 1 fresh_proc) = Ret []
      /\ (inject_Z (Z.of_nat (length (@nil dict))) < Qmin 30 (1 / 2))%Q
      /\ fst (get_news_from_excel general_rows_env "AAPL" 7 fresh_sys)
         = Ret [excel_row "GENERAL" (VStr "Stocks rally on strong earnings");
                excel_row "AAPL" (VStr "  STOCKS rally on strong earnings ")]
      /\ excel_step general_rows_env "AAPL" 7 1 [] fresh_proc
         = (Ret [], fresh_proc)).
Proof.
  cbv zeta. repeat split; vm_compute; reflexivity.
Qed.

(** * Paging through the primary source *)

Section Paging.

Variable env : Env.
Variables max_results page_size : Z.

Lemma add_calls_nil s : add_calls [] s = s.
Proof. destruct s. unfold add_calls. cbn. rewrite app_nil_r. reflexivity. Qed.

Lemma add_calls_cons c cs s :
  add_calls cs (add_calls [c] s) = add_calls (c :: cs) s.
Proof. unfold add_calls. cbn. rewrite <- app_assoc. reflexivity. Qed.

Lemma paging_turn fuel page all_articles page' all' s :
  turn env max_results page_size (page, all_articles) (page', all') ->
  paging (S fuel) env max_results page_size page all_articles s
  = paging fuel env max_results page_size page' all'
      (add_calls [GetPage page] s).
Proof.
  intros Ht. inversion Ht as [? ? resp data articles extension total
                                Hlt Hresp Hstatus Hjson Harts Hiter Hfull
                                Htotal Hreached]; subst.
  cbn [paging]. rewrite (proj2 (Z.ltb_lt _ _) Hlt).
  unfold bind, record_call, modify, lift. cbn.
  rewrite Hresp, Hstatus. cbn. rewrite Hjson, Harts, Hiter.
  rewrite (proj2 (Z.ltb_ge _ _) Hfull), Htotal, Hreached.
  reflexivity.
Qed.

Lemma turn_grows st st' :
  1 <= page_size -> turn env max_results page_size st st' ->
  Z.of_nat (length (snd st)) < max_results
  /\ Z.of_nat (length (snd st)) + 1 <= Z.of_nat (length (snd st')).
Proof.
  intros Hps Ht. inversion Ht; subst. cbn [snd].
  rewrite length_app. lia.
Qed.

Lemma paging_requests st st' cs :
  requests env max_results page_size st st' cs ->
  forall fuel s,
    1 <= page_size ->
    max_results <= Z.of_nat fuel + Z.of_nat (length (snd st)) ->
    exists fuel',
      paging fuel env max_results page_size (fst st) (snd st) s
      = paging fuel' env max_results page_size (fst st') (snd st')
          (add_calls cs s)
      /\ max_results <= Z.of_nat fuel' + Z.of_nat (length (snd st')).
Proof.
  induction 1 as [st|st st' st'' cs Ht Hr IH]; intros fuel s Hps Hfuel.
  - exists fuel. rewrite add_calls_nil. auto.
  - destruct (turn_grows _ _ Hps Ht) as [Hlt Hgrow].
    destruct fuel as [|fuel]; [lia|].
    destruct (IH fuel (add_calls [GetPage (fst st)] s) Hps ltac:(lia))
      as (fuel' & Heq & Hfuel').
    exists fuel'. split; [|exact Hfuel'].
    destruct st as [page all_articles], st' as [page' all'].
    cbn [fst snd] in *.
    rewrite (paging_turn fuel page all_articles page' all' s Ht).
    rewrite Heq, add_calls_cons. reflexivity.
Qed.

(** A request that fails by its status ends the loop with what has been
    collected. *)
Lemma paging_status_failure fuel page all_articles resp s :
  Z.of_nat (length all_articles) < max_results ->
  page_response env page = Ret resp ->
  status_code resp <> 200 ->
  paging (S fuel) env max_results page_size page all_articles s
  = (Ret all_articles, add_calls [GetPage page] s).
Proof.
  intros Hlt Hresp Hstatus. cbn [paging]. rewrite (proj2 (Z.ltb_lt _ _) Hlt).
  unfold bind, record_call, modify, lift. cbn.
  rewrite Hresp.
  destruct (Z.eqb_spec (status_code resp) 429); [reflexivity|].
  destruct (Z.eqb_spec (status_code resp) 200); [contradiction|reflexivity].
Qed.

(** A request that raises ends the loop with the exception. *)
Lemma paging_request_raises fuel page all_articles e s :
  Z.of_nat (length all_articles) < max_results ->
  page_response env page = Raise e ->
  paging (S fuel) env max_results page_size page all_articles s
  = (Raise e, add_calls [GetPage page] s).
Proof.
  intros Hlt Hresp. cbn [paging]. rewrite (proj2 (Z.ltb_lt _ _) Hlt).
  unfold bind, record_call, modify, lift. cbn.
  rewrite Hresp. reflexivity.
Qed.

(** Enough fuel: any two amounts that cover [max_results] minus the
    articles already collected give the same run. *)
Lemma paging_fuel fuel1 :
  forall fuel2 page all_articles s,
    1 <= page_size ->
    max_results <= Z.of_nat fuel1 + Z.of_nat (length all_articles) ->
    max_results <= Z.of_nat fuel2 + Z.of_nat (length all_articles) ->
    paging fuel1 env max_results page_size page all_articles s
    = paging fuel2 env max_results page_size page all_articles s.
Proof.
  induction fuel1 as [|fuel1 IH]; intros fuel2 page all_articles s Hps H1 H2.
  - destruct fuel2; cbn [paging];
      destruct (Z.ltb_spec (Z.of_nat (length all_articles)) max_results);
      try lia; reflexivity.
  - destruct fuel2 as [|fuel2].
    + cbn [paging].
      destruct (Z.ltb_spec (Z.of_nat (length all_articles)) max_results);
        try lia; reflexivity.
    + cbn [paging].
      destruct (Z.ltb_spec (Z.of_nat (length all_articles)) max_results);
        [|reflexivity].
      unfold bind, record_call, modify, lift. cbn.
      destruct (page_response env page) as [resp|]; [|reflexivity].
      destruct (status_code resp =? 429); [reflexivity|].
      destruct (status_code resp =? 200); cbn [negb]; [|reflexivity].
      destruct (json resp) as [data|]; [|reflexivity].
      destruct (py_get data "articles" (VList [])) as [articles|];
        [|reflexivity].
      destruct (iterate articles) as [extension|]; [|reflexivity].
      destruct (Z.ltb_spec (Z.of_nat (length extension)) page_size);
        [reflexivity|].
      destruct (py_get data "totalResults" (VInt 0)) as [total|];
        [|reflexivity].
      destruct (le_int total _) as [[|]|]; try reflexivity.
      apply IH; [exact Hps| |]; rewrite length_app; lia.
Qed.

End Paging.

Lemma add_calls_app cs cs' s :
  add_calls cs' (add_calls cs s) = add_calls (cs ++ cs') s.
Proof. unfold add_calls. cbn. rewrite <- app_assoc. reflexivity. Qed.

(** C9. Suppose the paging loop of [get_news_from_api] has collected
    [all_articles] over some full turns and then asks for one more page,
    whose reply has a status other than 200 (429 or any other). Then
    paging stops there, and the function returns the news items that its
    formatting loop builds from all of [all_articles]: nothing collected
    before the failure is dropped. (The formatting loop itself can raise
    on a malformed article, and then the result is the empty list, as it
    would be without the failed page.) *)
Theorem page_failure_keeps_collected_pages
    env ticker days max_results s page all_articles cs resp :
  is_ret (days_ago env (Z.min days 30)) = true ->
  requests env max_results (Z.min 100 max_results)
    (1, []) (page, all_articles) cs ->
  Z.of_nat (length all_articles) < max_results ->
  page_response env page = Ret resp ->
  status_code resp <> 200 ->
  get_news_from_api env ticker days max_results s
  = (Ret match format_articles env ticker all_articles ∅ [] with
         | Ret news_items => news_items
         | Raise _ => []
         end,
     add_calls (cs ++ [GetPage page]) s).
Proof.
  intros Hdate Hreq Hlt Hresp Hstatus.
  assert (1 <= Z.min 100 max_results) as Hps by lia.
  destruct (paging_requests env max_results _ _ _ _ Hreq
              (Z.to_nat max_results) s Hps ltac:(cbn; lia))
    as (fuel' & Heq & Hfuel).
  cbn [fst snd] in Heq, Hfuel.
  destruct fuel' as [|fuel']; [lia|].
  rewrite (paging_status_failure env max_results _ fuel' page all_articles
             resp _ Hlt Hresp Hstatus), add_calls_app in Heq.
  unfold get_news_from_api, try_except, bind, lift.
  destruct (days_ago env (Z.min days 30)); [|discriminate].
  rewrite Heq.
  assert (list_slice_to all_articles max_results = all_articles) as ->.
  { unfold list_slice_to. destruct (Z.ltb_spec max_results 0); [lia|].
    apply take_ge. lia. }
  destruct (format_articles env ticker all_articles ∅ []) as [items|e];
    [reflexivity|].
  destruct (exn_cls e); reflexivity.
Qed.

Lemma page_failure_keeps_collected_pages_witness :
  exists items,
    get_news_from_api rate_limited_env "AAPL" 7 150 fresh_sys
    = (Ret items, add_calls [GetPage 1; GetPage 2] fresh_sys)
    /\ length items = 100%nat.
Proof.
  eexists. split.
  - eapply (page_failure_keeps_collected_pages rate_limited_env "AAPL" 7 150
              fresh_sys 2 (map sample_article (seq 0 100)) [GetPage 1]
              (Response 429 "rate limited"
                 (Ret (VDict [("status", VStr "error")])))).
    + reflexivity.
    + eapply (RequestsCons _ _ _ (1, []) (2, _) (2, _) []);
        [|apply RequestsNil].
      eapply (Turn rate_limited_env 150 (Z.min 100 150) 1 []
                (Response 200 "ok" (Ret first_page)) first_page
                (VList (map sample_article (seq 0 100)))
                (map sample_article (seq 0 100)) (VInt 500));
        try reflexivity; try (cbn; lia); vm_compute; discriminate.
    + vm_compute. reflexivity.
    + reflexivity.
    + cbn. lia.
  - vm_compute. reflexivity.
Defined.

(** X21. By contrast, a page request that raises (a network error or a
    timeout) is handled by the function's outer handlers: the articles
    collected so far are dropped and the result is the empty list. *)
Lemma page_exception_returns_nothing
    env ticker days max_results s page all_articles cs e :
  is_ret (days_ago env (Z.min days 30)) = true ->
  requests env max_results (Z.min 100 max_results)
    (1, []) (page, all_articles) cs ->
  Z.of_nat (length all_articles) < max_results ->
  page_response env page = Raise e ->
  get_news_from_api env ticker days max_results s
  = (Ret [], add_calls (cs ++ [GetPage page]) s).
Proof.
  intros Hdate Hreq Hlt Hresp.
  assert (1 <= Z.min 100 max_results) as Hps by lia.
  destruct (paging_requests env max_results _ _ _ _ Hreq
              (Z.to_nat max_results) s Hps ltac:(cbn; lia))
    as (fuel' & Heq & Hfuel).
  cbn [fst snd] in Heq, Hfuel.
  destruct fuel' as [|fuel']; [lia|].
  rewrite (paging_request_raises env max_results _ fuel' page all_articles
             e _ Hlt Hresp), add_calls_app in Heq.
  unfold get_news_from_api, try_except, bind, lift.
  destruct (days_ago env (Z.min days 30)); [|discriminate].
  rewrite Heq. destruct (exn_cls e); reflexivity.
Qed.

(** * The summary of one ticker *)

(** C3 (the code falls short of it). The summary of an empty list is
    returned without error and its five fields are zero, but it has no
    [weighted_avg_score] field at all, whereas the summary of every
    non-empty list has the six fields, [weighted_avg_score] last. The
    same holds end to end: when the pipeline yields no news, the summary
    stored for the ticker lacks the field. *)
Theorem summarize_empty_omits_weighted_avg_score :
  (exists d,
     summarize [] = Ret d
     /\ d = [("total_news", VInt 0); ("positive", VInt 0);
             ("negative", VInt 0); ("neutral", VInt 0);
             ("avg_sentiment_score", VInt 0)]
     /\ dict_lookup d "weighted_avg_score" = None)
  /\ (forall item news d,
        summarize (item :: news) = Ret d ->
        dict_keys d = ["total_news"; "positive"; "negative"; "neutral";
                       "avg_sentiment_score"; "weighted_avg_score"])
  /\ (exists d,
        fst (ticker_summary nan_title_env "AAPL" (Some 7) (Some 100)
               fresh_proc) = Ret d
        /\ dict_lookup d "total_news" = Some (VInt 0)
        /\ dict_lookup d "weighted_avg_score" = None).
Proof.
  split; [|split].
  - eexists. split; [reflexivity|]. split; reflexivity.
  - intros item news d. unfold summarize. cbn [is_empty].
    repeat (unfold obind at 1;
            match goal with
            | |- context [match ?o with Ret _ => _ | Raise _ => _ end] =>
                destruct o; [|discriminate]
            end).
    intros [= <-]. reflexivity.
  - eexists. split; [vm_compute; reflexivity|]. split; reflexivity.
Qed.

(** * Further properties *)

Import Shapes MoreSamples.

(** * More on the scorer *)

Lemma lower_char_idempotent c : lower_char (lower_char c) = lower_char c.
Proof. destruct c as [[] [] [] [] [] [] [] []]; reflexivity. Qed.

Lemma lower_idempotent s : lower (lower s) = lower s.
Proof.
  induction s as [|c s IH]; [reflexivity|].
  cbn [lower]. rewrite lower_char_idempotent, IH. reflexivity.
Qed.

Lemma lower_length s : String.length (lower s) = String.length s.
Proof. induction s as [|c s IH]; cbn; [reflexivity|]. rewrite IH. reflexivity. Qed.

Lemma lower_substring n s :
  String.substring 0 n (lower s) = lower (String.substring 0 n s).
Proof.
  revert s. induction n as [|n IH]; intros [|c s]; cbn; try reflexivity.
  rewrite IH. reflexivity.
Qed.

Lemma truncate_lower self text :
  truncate self (lower text) = lower (truncate self text).
Proof.
  unfold truncate, slice_to, len. rewrite lower_length.
  destruct (_ >? _); [|reflexivity]. apply lower_substring.
Qed.

Lemma count_keywords_lower ws text :
  count_keywords ws (lower text) = count_keywords ws text.
Proof.
  induction ws as [|w ws IH]; [reflexivity|].
  cbn [count_keywords]. rewrite IH, lower_idempotent. reflexivity.
Qed.

Lemma substring_all s : String.substring 0 (String.length s) s = s.
Proof. induction s as [|c s IH]; cbn; [reflexivity|]. rewrite IH. reflexivity. Qed.

Lemma substring_append n s t :
  (n <= String.length s)%nat ->
  String.substring 0 n (s +:+ t) = String.substring 0 n s.
Proof.
  revert s. induction n as [|n IH]; intros s Hn.
  - destruct s; [destruct t|]; reflexivity.
  - destruct s as [|c s]; [cbn in Hn; lia|].
    change (String c s +:+ t) with (String c (s +:+ t)).
    cbn [String.substring]. rewrite IH by (cbn in Hn; lia). reflexivity.
Qed.

Lemma append_length s t :
  String.length (s +:+ t) = (String.length s + String.length t)%nat.
Proof.
  induction s as [|c s IH]; [reflexivity|].
  change (String c s +:+ t) with (String c (s +:+ t)).
  cbn [String.length]. rewrite IH. reflexivity.
Qed.

Lemma truncate_tail self text extra :
  0 <= max_length self <= len text ->
  truncate self (text +:+ extra) = truncate self text.
Proof.
  intros [H0 H1]. unfold truncate, slice_to, len in *.
  rewrite append_length.
  destruct (Z.ltb_spec (max_length self) 0); [lia|].
  assert (String.substring 0 (Z.to_nat (max_length self)) (text +:+ extra)
          = String.substring 0 (Z.to_nat (max_length self)) text) as Hs
    by (apply substring_append; lia).
  destruct (Z.gtb_spec (Z.of_nat (String.length text)) (max_length self)).
  - destruct (Z.gtb_spec (Z.of_nat (String.length text + String.length extra))
                (max_length self)); [exact Hs|lia].
  - assert (Z.to_nat (max_length self) = String.length text) as Hn by lia.
    destruct (Z.gtb_spec (Z.of_nat (String.length text + String.length extra))
                (max_length self)).
    + rewrite Hs, Hn. apply substring_all.
    + destruct extra; [|cbn in *; lia].
      clear. induction text as [|c s IH]; [reflexivity|].
      change (String c s +:+ "") with (String c (s +:+ "")).
      rewrite IH. reflexivity.
Qed.

Section ScorerMore.

Variable env : Env.

Lemma rule_based_lower text st :
  _analyze_rule_based env (lower text) st = _analyze_rule_based env text st.
Proof.
  unfold _analyze_rule_based, bind, lift, get_self. cbn [fst].
  destruct (py_get (config st.1) "positive_keywords" _); [|reflexivity].
  destruct (py_get (config st.1) "negative_keywords" _); [|reflexivity].
  destruct (iterate a) as [wp|]; cbn [obind]; [|reflexivity].
  rewrite count_keywords_lower.
  destruct (count_keywords wp text); [|reflexivity].
  destruct (iterate a0) as [wn|]; cbn [obind]; [|reflexivity].
  rewrite count_keywords_lower. reflexivity.
Qed.

(** What [analyze] does with the text: it only passes its cut to the
    scoring call. *)
Lemma analyze_text_cut text text' self sys :
  _analyze_rule_based env (truncate self text)
    (set_request_count self (request_count self + 1), tick sys)
  = _analyze_rule_based env (truncate self text')
      (set_request_count self (request_count self + 1), tick sys) ->
  analyze env text (self, sys) = analyze env text' (self, sys).
Proof.
  intros H.
  unfold analyze, bind, try_except, on_sys, modify_self, modify, get_self,
    time_time.
  cbn -[tick draw _analyze_rule_based _save_metrics truncate dict_update].
  change (truncate (set_request_count self (request_count self + 1)) text)
    with (truncate self text).
  change (truncate (set_request_count self (request_count self + 1)) text')
    with (truncate self text').
  rewrite H. reflexivity.
Qed.

(** X1. The scorer ignores case: [analyze] on the lower-cased text gives
    the same result and leaves the same state as on the text itself. *)
Theorem analyze_ignores_case text self sys :
  analyze env (lower text) (self, sys) = analyze env text (self, sys).
Proof.
  apply analyze_text_cut. rewrite truncate_lower. apply rule_based_lower.
Qed.

(** X2. What follows the first [max_length] characters is never looked
    at: for a text at least [max_length] long, appending anything to it
    changes neither the result nor the state that [analyze] leaves. *)
Theorem analyze_ignores_text_beyond_max_length text extra self sys :
  0 <= max_length self <= len text ->
  analyze env (text +:+ extra) (self, sys) = analyze env text (self, sys).
Proof.
  intros H. apply analyze_text_cut. rewrite truncate_tail by exact H.
  reflexivity.
Qed.

End ScorerMore.

(** The ways in which a save can end. *)
Ltac save_cases :=
  match goal with
  | |- context [metrics_data_of ?env ?c ?m] =>
      destruct (metrics_data_of env c m);
      [destruct (env_registry_writable env);
       [destruct (env_registry_dump env)|]|]
  | H : context [metrics_data_of ?env ?c ?m] |- _ =>
      destruct (metrics_data_of env c m);
      [destruct (env_registry_writable env);
       [destruct (env_registry_dump env)|]|]
  end.

Section ScorerState.

Variable env : Env.

Lemma rule_based_outcome text self sys :
  match fst (_analyze_rule_based env text (self, sys)) with
  | Ret r0 =>
      exists pc nc,
        keyword_counts (config self) text = Ret (pc, nc)
        /\ _analyze_rule_based env text (self, sys) = (Ret r0, (self, draw sys))
        /\ rule_based_result pc nc (random_at env (draws sys)) r0
  | Raise e =>
      keyword_counts (config self) text = Raise e
      /\ _analyze_rule_based env text (self, sys) = (Raise e, (self, sys))
  end.
Proof.
  destruct (keyword_counts (config self) text) as [[pc nc]|e] eqn:Hk.
  - destruct (rule_based_returns env text self sys pc nc Hk) as (r & Hr & Hres).
    rewrite Hr. cbn [fst]. exists pc, nc. auto.
  - rewrite (rule_based_raises env text self sys e Hk). cbn [fst]. auto.
Qed.

(** The complete effect of one call of [analyze], by the outcome of its
    scoring call. *)
Lemma analyze_run text self sys :
  let self1 := set_request_count self (request_count self + 1) in
  let t0 := time_at env (ticks sys) in
  let t1 := time_at env (S (ticks sys)) in
  let t2 := time_at env (S (S (ticks sys))) in
  let t3 := time_at env (S (S (S (ticks sys)))) in
  let latency := ((t1 - t0) * 1000)%Q in
  let self2 := set_latency_ms_sum self1 (latency_ms_sum self + latency)%Q in
  let sys2 := tick (tick (draw (tick sys))) in
  match fst (_analyze_rule_based env (truncate self text) (self1, tick sys)) with
  | Raise e =>
      analyze env text (self, sys)
      = (Ret (fallback_result self e),
         (set_error_count self1 (error_count self + 1), tick sys))
  | Ret r0 =>
      analyze env text (self, sys)
      = (Ret (r0 ++ [("model_version", VStr (model_version self));
                     ("latency_ms", VFloat latency)]),
         if Qlt_le_dec 60 (t2 - last_metrics_save self) then
           snd (_save_metrics env (self2, sys2))
         else (self2, sys2))
  end.
Proof.
  intros self1 t0 t1 t2 t3 latency self2 sys2.
  pose proof (rule_based_outcome (truncate self text) self1 (tick sys)) as H.
  destruct (fst (_analyze_rule_based env (truncate self text)
                   (self1, tick sys))) as [r0|e].
  - destruct H as (pc & nc & _ & Hr & Hres).
    unfold analyze, bind, try_except, on_sys, modify_self, modify, get_self,
      time_time.
    subst self2 sys2 latency t0 t1 t2 t3.
    cbn -[tick draw _analyze_rule_based _save_metrics truncate dict_update].
    change (truncate (set_request_count self (request_count self + 1)) text)
      with (truncate self text).
    fold self1. rewrite Hr. unfold tick, draw.
    cbn -[_save_metrics dict_update].
    match goal with
    | |- context [Qlt_le_dec ?a ?b] => destruct (Qlt_le_dec a b)
    end.
    + match goal with
      | |- context [_save_metrics env ?st] =>
          destruct (save_metrics_returns env st)
            as (s' & y' & Hs & _ & _ & Hv);
          rewrite Hs
      end.
      cbn [fst] in Hv. cbn -[dict_update].
      erewrite rule_based_update by exact Hres. rewrite Hv. reflexivity.
    + cbn -[dict_update].
      erewrite rule_based_update by exact Hres. reflexivity.
  - destruct H as [_ Hr].
    unfold analyze, bind, try_except, on_sys, modify_self, modify, get_self,
      time_time.
    cbn -[tick draw _analyze_rule_based _save_metrics truncate dict_update].
    change (truncate (set_request_count self (request_count self + 1)) text)
      with (truncate self text).
    fold self1. rewrite Hr. reflexivity.
Qed.

Lemma metrics_data_of_spec content metrics :
  match metrics_data_of env content metrics with
  | Ret metrics_data =>
      exists entries,
        entries_of content = Some entries
        /\ metrics_data = entries ++ [VDict metrics]
  | Raise _ => env_registry_writable env = false \/ entries_of content = None
  end.
Proof.
  unfold metrics_data_of.
  destruct content as [|v|]; [exists []; auto| |];
    destruct (env_registry_writable env); auto.
  destruct v; cbn; eauto.
Qed.

Lemma save_metrics_run self sys :
  let metrics :=
    [("model_version", VStr (model_version self));
     ("timestamp", VStr (isoformat env (now env)));
     ("request_count", VInt (request_count self));
     ("error_count", VInt (error_count self));
     ("avg_latency_ms",
      VFloat (latency_ms_sum self / inject_Z (Z.max 1 (request_count self))));
     ("error_rate",
      VFloat (inject_Z (error_count self)
              / inject_Z (Z.max 1 (request_count self))))] in
  _save_metrics env (self, sys)
  = (Ret tt,
     match metrics_data_of env (registry sys) metrics with
     | Raise _ => (self, sys)
     | Ret metrics_data =>
         if env_registry_writable env then
           match env_registry_dump env with
           | None =>
               (set_last_metrics_save self (time_at env (ticks sys)),
                tick {| ticks := ticks sys; draws := draws sys;
                        registry := Json (VList metrics_data);
                        calls := calls sys |})
           | Some partial =>
               (self, {| ticks := ticks sys; draws := draws sys;
                         registry := partial; calls := calls sys |})
           end
         else (self, sys)
     end).
Proof.
  intros metrics.
  unfold _save_metrics, bind, get_self, try_except, on_sys, lift,
    write_metrics, registry_write, modify_self, modify, raise, time_time, ret.
  cbn -[tick metrics_data_of]. fold metrics.
  destruct (metrics_data_of env (registry sys) metrics) as [metrics_data|e];
    [|reflexivity].
  destruct (env_registry_writable env); [|reflexivity].
  destruct (env_registry_dump env); reflexivity.
Qed.

(** X3. One call of [analyze] leaves the external call log alone. With
    [t2] the third clock reading of the call, the metrics file is
    rewritten exactly when the scoring call returned, more than 60
    seconds have passed since the last save ([60 < t2 -
    last_metrics_save]), the file is absent or holds a list or a dict,
    and it can be opened. If the dump then succeeds, the file holds the
    former entries followed by a snapshot that counts the current
    request, and the time of the save is recorded. If the dump fails,
    the file, emptied when it was opened, holds what the failed write
    left, and the time of the last save is unchanged. In every other
    case the file and the time of the last save are unchanged. So a
    save that failed is tried again at the next call. *)
Theorem analyze_flushes_metrics_after_a_minute text self sys :
  let t0 := time_at env (ticks sys) in
  let t1 := time_at env (S (ticks sys)) in
  let t2 := time_at env (S (S (ticks sys))) in
  let t3 := time_at env (S (S (S (ticks sys)))) in
  let requests := request_count self + 1 in
  let latency_sum := (latency_ms_sum self + (t1 - t0) * 1000)%Q in
  let snapshot :=
    [("model_version", VStr (model_version self));
     ("timestamp", VStr (isoformat env (now env)));
     ("request_count", VInt requests);
     ("error_count", VInt (error_count self));
     ("avg_latency_ms", VFloat (latency_sum / inject_Z (Z.max 1 requests)));
     ("error_rate",
      VFloat (inject_Z (error_count self) / inject_Z (Z.max 1 requests)))] in
  let attempted :=
    is_ret (fst (_analyze_rule_based env (truncate self text)
                   (set_request_count self requests, tick sys))) = true
    /\ (60 < t2 - last_metrics_save self)%Q
    /\ is_Some (entries_of (registry sys))
    /\ env_registry_writable env = true in
  exists r self' sys',
    analyze env text (self, sys) = (Ret r, (self', sys'))
    /\ calls sys' = calls sys
    /\ (attempted ->
        forall entries,
          entries_of (registry sys) = Some entries ->
          match env_registry_dump env with
          | None =>
              registry sys' = Json (VList (entries ++ [VDict snapshot]))
              /\ last_metrics_save self' = t3
          | Some partial =>
              registry sys' = partial
              /\ last_metrics_save self' = last_metrics_save self
          end)
    /\ (~ attempted ->
        registry sys' = registry sys
        /\ last_metrics_save self' = last_metrics_save self).
Proof.
  intros t0 t1 t2 t3 requests latency_sum snapshot attempted.
  pose proof (analyze_run text self sys) as H. cbv zeta in H.
  subst attempted. fold requests in H.
  destruct (fst (_analyze_rule_based env (truncate self text)
                   (set_request_count self requests, tick sys))) as [r0|e].
  - rewrite H. fold t2.
    destruct (Qlt_le_dec 60 (t2 - last_metrics_save self)) as [Hlt|Hge].
    + rewrite save_metrics_run. cbv zeta. cbn [snd].
      match goal with
      | |- context [metrics_data_of env ?c ?m] =>
          pose proof (metrics_data_of_spec c m) as Hdata;
          destruct (metrics_data_of env c m) as [metrics_data|e]
      end.
      * destruct Hdata as (entries & Hentries & ->).
        cbn [registry tick draw] in Hentries.
        destruct (env_registry_writable env) eqn:Hw.
        -- destruct (env_registry_dump env) as [partial|];
             do 3 eexists; (split; [reflexivity|]); (split; [reflexivity|]);
             (split; [|intros Hn; exfalso; apply Hn; rewrite Hentries; eauto]);
             intros _ l Hl; rewrite Hentries in Hl; injection Hl as <-;
             split; reflexivity.
        -- do 3 eexists. split; [reflexivity|]. split; [reflexivity|].
           split; [intros (_ & _ & _ & Hf); discriminate|].
           intros _. split; reflexivity.
      * cbn [registry tick draw] in Hdata.
        do 3 eexists. split; [reflexivity|]. split; [reflexivity|].
        split; [|intros _; split; reflexivity].
        intros (_ & _ & [l Hl] & Hw). exfalso.
        destruct Hdata as [Hd|Hd]; congruence.
    + do 3 eexists. split; [reflexivity|]. split; [reflexivity|].
      split; [intros (_ & Hlt & _); exfalso; lra|].
      intros _. split; reflexivity.
  - rewrite H. do 3 eexists. split; [reflexivity|]. split; [reflexivity|].
    split; [intros (Hf & _); discriminate|].
    intros _. split; reflexivity.
Qed.

(** X4. [analyze] never touches the settings of the model (keyword
    configuration, maximal length, version, batch size), counts the
    request, and keeps the error counter between zero and the request
    counter; the error rate of a snapshot is then between 0 and 1. *)
Theorem analyze_keeps_settings_and_counter_order text self sys :
  0 <= error_count self <= request_count self ->
  exists r self' sys',
    analyze env text (self, sys) = (Ret r, (self', sys'))
    /\ config self' = config self
    /\ max_length self' = max_length self
    /\ model_version self' = model_version self
    /\ batch_size self' = batch_size self
    /\ request_count self' = request_count self + 1
    /\ 0 <= error_count self' <= request_count self'
    /\ (0 <= inject_Z (error_count self')
              / inject_Z (Z.max 1 (request_count self')) <= 1)%Q.
Proof.
  intros Hinv.
  assert (forall ec rc, 0 <= ec <= rc ->
            (0 <= inject_Z ec / inject_Z (Z.max 1 rc) <= 1)%Q) as Hrate.
  { intros ec rc [H0 H1].
    assert (0 < inject_Z (Z.max 1 rc))%Q as Hpos
      by (change 0%Q with (inject_Z 0); rewrite <- Zlt_Qlt; lia).
    assert (0 <= inject_Z ec)%Q
      by (change 0%Q with (inject_Z 0); rewrite <- Zle_Qle; lia).
    assert (inject_Z ec <= inject_Z (Z.max 1 rc))%Q
      by (rewrite <- Zle_Qle; lia).
    split.
    - apply Qle_shift_div_l; [exact Hpos|]. lra.
    - apply Qle_shift_div_r; [exact Hpos|]. lra. }
  pose proof (analyze_run text self sys) as H. cbv zeta in H.
  destruct (fst (_analyze_rule_based env (truncate self text) _)) as [r0|e].
  - rewrite H. destruct (Qlt_le_dec _ _).
    + rewrite save_metrics_run. cbv zeta. cbn [snd].
      save_cases;
        do 3 eexists; (split; [reflexivity|]); cbn;
        repeat split; try lia; apply Hrate; lia.
    + do 3 eexists. split; [reflexivity|]. cbn.
      repeat split; try lia; apply Hrate; lia.
  - rewrite H. do 3 eexists. split; [reflexivity|]. cbn.
    repeat split; try lia; apply Hrate; lia.
Qed.

Lemma count_keywords_is_ret ws text text' :
  is_ret (count_keywords ws text) = is_ret (count_keywords ws text').
Proof.
  induction ws as [|w ws IH]; [reflexivity|].
  cbn [count_keywords]. destruct (str_lower w); cbn [obind]; [|reflexivity].
  destruct (count_keywords ws text), (count_keywords ws text');
    cbn in *; congruence.
Qed.

Lemma keyword_counts_is_ret cfg text text' :
  is_ret (keyword_counts cfg text) = is_ret (keyword_counts cfg text').
Proof.
  unfold keyword_counts.
  destruct (py_get cfg "positive_keywords" _) as [pos|]; [|reflexivity].
  destruct (py_get cfg "negative_keywords" _) as [neg|]; [|reflexivity].
  cbn [obind].
  destruct (iterate pos) as [wp|]; cbn [obind]; [|reflexivity].
  pose proof (count_keywords_is_ret wp text text') as Hp.
  destruct (count_keywords wp text), (count_keywords wp text');
    cbn in Hp; try discriminate; cbn [obind]; [|reflexivity].
  destruct (iterate neg) as [wn|]; cbn [obind]; [|reflexivity].
  pose proof (count_keywords_is_ret wn text text') as Hn.
  destruct (count_keywords wn text), (count_keywords wn text');
    cbn in Hn; try discriminate; reflexivity.
Qed.

(** X5. Whether [analyze] falls back to the neutral error result depends
    on the configuration alone, not on the text or on the counters: two
    calls under the same configuration either both report an error or
    both report none. *)
Theorem fallback_depends_on_configuration_only
    text1 text2 self1 self2 sys1 sys2 :
  config self1 = config self2 ->
  exists r1 st1 r2 st2,
    analyze env text1 (self1, sys1) = (Ret r1, st1)
    /\ analyze env text2 (self2, sys2) = (Ret r2, st2)
    /\ (dict_lookup r1 "error" = None <-> dict_lookup r2 "error" = None).
Proof.
  intros Hcfg.
  pose proof (analyze_run text1 self1 sys1) as H1.
  pose proof (analyze_run text2 self2 sys2) as H2. cbv zeta in H1, H2.
  pose proof (rule_based_outcome (truncate self1 text1)
                (set_request_count self1 (request_count self1 + 1))
                (tick sys1)) as O1.
  pose proof (rule_based_outcome (truncate self2 text2)
                (set_request_count self2 (request_count self2 + 1))
                (tick sys2)) as O2.
  pose proof (keyword_counts_is_ret (config self2) (truncate self1 text1)
                (truncate self2 text2)) as Hret.
  cbn [config set_request_count] in O1, O2. rewrite Hcfg in O1.
  destruct (fst (_analyze_rule_based env (truncate self1 text1) _)) as [r1|e1],
           (fst (_analyze_rule_based env (truncate self2 text2) _)) as [r2|e2].
  - destruct O1 as (? & ? & _ & _ & R1), O2 as (? & ? & _ & _ & R2).
    rewrite H1, H2. do 4 eexists. split; [reflexivity|]. split; [reflexivity|].
    destruct R1, R2; split; reflexivity.
  - destruct O1 as (? & ? & K1 & _), O2 as (K2 & _).
    rewrite K1, K2 in Hret. discriminate.
  - destruct O1 as (K1 & _), O2 as (? & ? & K2 & _).
    rewrite K1, K2 in Hret. discriminate.
  - rewrite H1, H2. do 4 eexists. split; [reflexivity|]. split; [reflexivity|].
    split; discriminate.
Qed.

Lemma dict_get_missing d k default :
  dict_lookup d k = None -> dict_get d k default = default.
Proof.
  induction d as [|[k' v] d IH]; [reflexivity|]. cbn.
  destruct (String.eqb k' k); [discriminate|exact IH].
Qed.

(** X6. A configuration file that is a JSON object without the two keyword
    lists is accepted, and then every text is neutral: both counts are 0
    and the score is 0.5 plus a tenth of the draw. *)
Theorem configuration_without_keywords_is_neutral text self sys d :
  config self = VDict d ->
  dict_lookup d "positive_keywords" = None ->
  dict_lookup d "negative_keywords" = None ->
  exists latency st',
    analyze env text (self, sys)
    = (Ret [("sentiment", VStr "neutral");
            ("score", VFloat (0.5 + random_at env (draws sys) * 0.1));
            ("details", VDict [("positive_count", VInt 0);
                               ("negative_count", VInt 0)]);
            ("model_version", VStr (model_version self));
            ("latency_ms", VFloat latency)],
       st').
Proof.
  intros Hcfg Hp Hn.
  pose proof (analyze_run text self sys) as H. cbv zeta in H.
  pose proof (rule_based_outcome (truncate self text)
                (set_request_count self (request_count self + 1))
                (tick sys)) as O.
  assert (keyword_counts (config self) (truncate self text) = Ret (0, 0))
    as Hk.
  { unfold keyword_counts. rewrite Hcfg. cbn [py_get].
    rewrite !dict_get_missing by assumption. reflexivity. }
  cbn [config set_request_count] in O.
  destruct (fst (_analyze_rule_based env (truncate self text) _)) as [r0|e].
  - destruct O as (pc & nc & K & _ & R). rewrite Hk in K.
    injection K as <- <-. rewrite H.
    inversion R as [Hlt|Hlt|_]; try lia.
    do 2 eexists. reflexivity.
  - destruct O as [K _]. rewrite Hk in K. discriminate.
Qed.

End ScorerState.

Section Singleton.

Variable env : Env.

Lemma analyze_settings text self sys :
  exists r self' sys',
    analyze env text (self, sys) = (Ret r, (self', sys'))
    /\ config self' = config self
    /\ max_length self' = max_length self
    /\ model_version self' = model_version self
    /\ request_count self' = request_count self + 1
    /\ calls sys' = calls sys.
Proof.
  pose proof (analyze_run env text self sys) as H. cbv zeta in H.
  destruct (fst (_analyze_rule_based env (truncate self text) _)) as [r0|e].
  - rewrite H. destruct (Qlt_le_dec _ _).
    + rewrite save_metrics_run. cbv zeta. cbn [snd].
      save_cases; do 3 eexists; (split; [reflexivity|]); cbn; auto.
    + do 3 eexists. split; [reflexivity|]. cbn. auto.
  - rewrite H. do 3 eexists. split; [reflexivity|]. cbn. auto.
Qed.

(** X7. Once the model object exists it is never built again: a call of
    [analyze_sentiment] returns, counts one request on that same object
    and leaves its keyword configuration, maximal length and version as
    they were loaded, whatever the configuration file and the
    environment variables hold by now. *)
Theorem model_is_loaded_once text p m :
  _model p = Some m ->
  exists r m' s',
    analyze_sentiment env text p = (Ret r, {| _model := Some m'; sys := s' |})
    /\ config m' = config m
    /\ max_length m' = max_length m
    /\ model_version m' = model_version m
    /\ request_count m' = request_count m + 1.
Proof.
  intros Hm. unfold analyze_sentiment, bind, get_model, call_method.
  rewrite Hm.
  destruct (analyze_settings text m (sys p))
    as (r & m' & s' & Ha & Hc & Hl & Hv & Hr & _).
  rewrite Ha. exists r, m', s'. auto.
Qed.

(** X8. The first use builds the model. If the two numeric settings can
    be read and the registry directory can be made, the call returns
    and installs a model with the loaded configuration that has counted
    one request. If one of them fails, [analyze_sentiment] raises that
    error, no model is installed and nothing else has happened, so the
    next call tries again. *)
Theorem first_use_builds_the_model text p :
  _model p = None ->
  (forall batch maxlen,
     env_batch_size env = Ret batch ->
     env_max_length env = Ret maxlen ->
     env_makedirs env = Ret tt ->
     exists r m' s',
       analyze_sentiment env text p
       = (Ret r, {| _model := Some m'; sys := s' |})
       /\ config m' = _load_config env
       /\ max_length m' = maxlen
       /\ request_count m' = 1
       /\ 0 <= error_count m' <= 1)
  /\ (is_ret (env_batch_size env) && is_ret (env_max_length env)
      && is_ret (env_makedirs env) = false ->
      exists e,
        analyze_sentiment env text p
        = (Raise e, {| _model := None; sys := sys p |})).
Proof.
  intros Hm. split.
  - intros batch maxlen Hb Hl Hd.
    unfold analyze_sentiment, bind, get_model, call_method. rewrite Hm.
    unfold init, bind, lift, time_time, ret. rewrite Hb, Hl, Hd.
    match goal with
    | |- context [analyze env text (?m, ?s)] =>
        pose proof (analyze_run env text m s) as H;
        destruct (analyze_settings text m s)
          as (r & m' & s' & Ha & Hc & Hx & _ & Hr & _)
    end.
    rewrite Ha. exists r, m', s'. split; [reflexivity|].
    cbn in Hc, Hx, Hr. split; [exact Hc|]. split; [exact Hx|].
    split; [exact Hr|].
    cbv zeta in H. rewrite Ha in H.
    destruct (fst (_analyze_rule_based _ _ _)).
    + destruct (Qlt_le_dec _ _).
      * rewrite save_metrics_run in H. cbv zeta in H. cbn [snd] in H.
        save_cases; injection H as _ -> _; cbn; lia.
      * injection H as _ -> _. cbn. lia.
    + injection H as _ -> _. cbn. lia.
  - intros Hfail.
    unfold analyze_sentiment, bind, get_model, call_method. rewrite Hm.
    unfold init, bind, lift.
    destruct (env_batch_size env) as [b|e]; [|eauto].
    destruct (env_max_length env) as [l|e]; [|eauto].
    destruct (env_makedirs env) as [[]|e]; [discriminate|eauto].
Qed.

End Singleton.

(** * More on the primary source *)

Lemma page_calls_S page n :
  page_calls page (S n) = GetPage page :: page_calls (page + 1) n.
Proof.
  unfold page_calls. cbn [seq fmap list_fmap]. rewrite Z.add_0_r. f_equal.
  rewrite <- fmap_S_seq, <- list_fmap_compose. apply list_fmap_ext.
  intros _ i _. cbn. f_equal. lia.
Qed.

Lemma page_calls_1 page : page_calls page 1 = [GetPage page].
Proof. unfold page_calls. cbn. rewrite Z.add_0_r. reflexivity. Qed.

Section Requests.

Variable env : Env.
Variables max_results page_size : Z.

Ltac one_request :=
  exists 1%nat; split;
  [cbn [snd]; rewrite page_calls_1; reflexivity|intros _; lia].

(** The loop asks for consecutive pages, and only as many as are needed
    to reach [max_results] at [page_size] articles a page. *)
Lemma paging_calls fuel :
  forall page all_articles s,
    1 <= page_size ->
    exists n,
      snd (paging fuel env max_results page_size page all_articles s)
      = add_calls (page_calls page n) s
      /\ (n <> 0%nat ->
          Z.of_nat (length all_articles) + (Z.of_nat n - 1) * page_size
          < max_results).
Proof.
  induction fuel as [|fuel IH]; intros page all_articles s Hps.
  - exists 0%nat. split; [|congruence].
    cbn [paging]. destruct (_ <? _); cbn; rewrite add_calls_nil; reflexivity.
  - cbn [paging].
    destruct (Z.ltb_spec (Z.of_nat (length all_articles)) max_results)
      as [Hlt|Hge];
      [|exists 0%nat; split; [cbn; rewrite add_calls_nil; reflexivity
                             |congruence]].
    unfold bind, record_call, modify, lift. cbn [fst snd].
    destruct (page_response env page) as [resp|e];
      [|one_request].
    destruct (status_code resp =? 429);
      [one_request|].
    destruct (status_code resp =? 200); cbn [negb];
      [|one_request].
    destruct (json resp) as [data|e];
      [|one_request].
    destruct (py_get data "articles" (VList [])) as [articles|e];
      [|one_request].
    destruct (iterate articles) as [extension|e];
      [|one_request].
    destruct (Z.ltb_spec (Z.of_nat (length extension)) page_size) as [Hs|Hf];
      [one_request|].
    destruct (py_get data "totalResults" (VInt 0)) as [total|e];
      [|one_request].
    destruct (le_int total _) as [[|]|e];
      [one_request
      | |one_request].
    destruct (IH (page + 1) (all_articles ++ extension)
                (add_calls [GetPage page] s) Hps) as (n & Hn & Hbound).
    exists (S n). split.
    + rewrite Hn, page_calls_S, add_calls_cons. reflexivity.
    + intros _. rewrite length_app in Hbound.
      destruct n as [|n]; [lia|]. specialize (Hbound ltac:(lia)). nia.
Qed.

End Requests.

Section ApiItems.

Variable env : Env.

Lemma format_articles_items ticker articles :
  forall seen news out,
    format_articles env ticker articles seen news = Ret out ->
    exists new,
      out = news ++ new
      /\ Forall (api_item ticker) new
      /\ (length new <= length articles)%nat.
Proof.
  induction articles as [|article rest IH]; intros seen news out.
  - cbn. intros [= <-]. exists []. rewrite app_nil_r.
    split; [reflexivity|]. split; [constructor|reflexivity].
  - cbn [format_articles length]. unfold obind at 1.
    destruct (py_get article "title" (VStr "")) as [title|]; [|discriminate].
    assert (forall seen' out',
              format_articles env ticker rest seen' news = Ret out' ->
              exists new, out' = news ++ new /\ Forall (api_item ticker) new
                          /\ (length new <= S (length rest))%nat) as Hskip.
    { intros seen' out' H. destruct (IH _ _ _ H) as (new & -> & Hf & Hl).
      exists new. split; [reflexivity|]. split; [exact Hf|lia]. }
    destruct (truthy title) eqn:Htruthy; cbn [negb]; [|apply Hskip].
    unfold obind at 1.
    destruct (strip_lower title) as [normalized|] eqn:Hn; [|discriminate].
    case_bool_decide; [apply Hskip|].
    unfold obind at 1.
    destruct (py_get article "publishedAt" (VStr "")) as [published|];
      [|discriminate].
    destruct (reformat_date env published) as [date|e].
    + unfold obind at 1.
      destruct (py_get article "source" (VDict [])) as [source|];
        [|discriminate].
      unfold obind at 1.
      destruct (py_get source "name" (VStr "")) as [publisher|];
        [|discriminate].
      unfold obind at 1.
      destruct (py_get article "url" (VStr "")) as [link|]; [|discriminate].
      intros Hout. destruct (IH _ _ _ Hout) as (new & -> & Hf & Hl).
      eexists (_ :: new). split; [rewrite <- app_assoc; reflexivity|].
      split; [|cbn; lia]. constructor; [|exact Hf].
      destruct title; try discriminate.
      do 4 eexists. split; [reflexivity|].
      intros ->. discriminate.
    + destruct (is_value_or_type_error e); [apply Hskip|discriminate].
Qed.

Lemma get_news_from_api_run ticker days max_results s :
  exists items n,
    get_news_from_api env ticker days max_results s
    = (Ret items, add_calls (page_calls 1 n) s)
    /\ Z.of_nat n <= Z.max 0 ((max_results + 99) / 100)
    /\ Z.of_nat (length items) <= Z.max 0 max_results
    /\ Forall (api_item ticker) items.
Proof.
  unfold get_news_from_api, try_except, bind, lift.
  destruct (days_ago env (Z.min days 30)) as [start|e].
  2:{ exists [], 0%nat. rewrite add_calls_nil.
      split; [destruct (exn_cls e); reflexivity|].
      split; [lia|]. split; [cbn; lia|constructor]. }
  destruct (Z.le_gt_cases max_results 0) as [Hle|Hpos].
  - (* the loop is not entered *)
    assert (paging (Z.to_nat max_results) env max_results
              (Z.min 100 max_results) 1 [] s = (Ret [], s)) as ->.
    { destruct (Z.to_nat max_results); cbn [paging length];
        destruct (Z.ltb_spec (Z.of_nat 0) max_results); try lia; reflexivity. }
    exists [], 0%nat. rewrite add_calls_nil.
    assert (list_slice_to (@nil pyval) max_results = []) as ->
      by (unfold list_slice_to; apply take_nil).
    cbn. split; [reflexivity|]. split; [lia|]. split; [lia|constructor].
  - destruct (paging_calls env max_results (Z.min 100 max_results)
                (Z.to_nat max_results) 1 [] s ltac:(lia)) as (n & Hn & Hb).
    assert (Z.of_nat n <= Z.max 0 ((max_results + 99) / 100)) as Hcount.
    { destruct n as [|n]; [lia|]. specialize (Hb ltac:(lia)).
      cbn [length] in Hb.
      assert (Z.of_nat (S n) - 1 <= (max_results - 1) / 100).
      { apply Z.div_le_lower_bound; [lia|].
        destruct (Z.le_gt_cases max_results 100).
        - rewrite Z.min_r in Hb by lia.
          assert (Z.of_nat (S n) - 1 < 1) by nia. lia.
        - rewrite Z.min_l in Hb by lia. lia. }
      assert ((max_results + 99) / 100 = (max_results - 1) / 100 + 1) as ->.
      { replace (max_results + 99) with (max_results - 1 + 1 * 100) by lia.
        apply Z.div_add. lia. }
      lia. }
    destruct (paging _ _ _ _ _ _ s) as [[all|e] s1]; cbn [snd] in Hn; subst s1.
    + destruct (format_articles env ticker _ ∅ []) as [items|e] eqn:Hf.
      * exists items, n. split; [reflexivity|]. split; [exact Hcount|].
        apply format_articles_items in Hf as (new & -> & Hshape & Hlen).
        split; [|exact Hshape]. cbn [app].
        assert (length (list_slice_to all max_results)
                <= Z.to_nat max_results)%nat.
        { unfold list_slice_to. destruct (Z.ltb_spec max_results 0); [lia|].
          rewrite length_take. lia. }
        lia.
      * exists [], n. split; [destruct (exn_cls e); reflexivity|].
        split; [exact Hcount|]. split; [cbn; lia|constructor].
    + exists [], n. split; [destruct (exn_cls e); reflexivity|].
      split; [exact Hcount|]. split; [cbn; lia|constructor].
Qed.

(** X9. [get_news_from_api] never raises. It asks for pages 1, 2, ... in
    a row and for no more than ceil(max_results / 100) of them (none when
    [max_results] is not positive), and touches nothing else. It returns
    at most [max_results] items; each has exactly the fields title,
    publisher, link, published_date and ticker, with a non-empty string
    title, a string date and the ticker asked for. *)
Theorem api_requests_and_items ticker days max_results s :
  exists items n,
    get_news_from_api env ticker days max_results s
    = (Ret items, add_calls (page_calls 1 n) s)
    /\ Z.of_nat n <= Z.max 0 ((max_results + 99) / 100)
    /\ Z.of_nat (length items) <= Z.max 0 max_results
    /\ Forall (api_item ticker) items.
Proof. apply get_news_from_api_run. Qed.


End ApiItems.

(** * More on the spreadsheet source *)

Section Excel.

Variable env : Env.

Lemma eq_str_true v s : eq_str v s = true <-> v = VStr s.
Proof.
  destruct v; cbn; try (split; [discriminate|congruence]).
  rewrite String.eqb_eq. split; congruence.
Qed.

(** A record holds, under the name of a column, the cell of its row. *)
Lemma record_lookup (names : list string) (row : dict) name :
  name ∈ names ->
  dict_lookup ((fun name => (name, dict_get row name VNaN)) <$> names) name
  = Some (dict_get row name VNaN).
Proof.
  induction names as [|c names IH]; [intros H; inversion H|].
  intros Hin. cbn [fmap list_fmap dict_lookup].
  destruct (String.eqb_spec c name) as [->|Hne]; [reflexivity|].
  apply IH. apply elem_of_cons in Hin as [->|Hin]; [contradiction|exact Hin].
Qed.

Lemma row_selected_matches ticker cutoff dates df row i :
  "ticker" ∈ columns df ->
  row_selected ticker cutoff (dict_get row "ticker" VNaN) (dates i) = true
  <-> row_matches ticker cutoff dates i
        ((fun name => (name, dict_get row name VNaN)) <$> columns df).
Proof.
  intros Hcol. unfold row_selected, row_matches.
  rewrite (record_lookup _ row _ Hcol).
  rewrite andb_true_iff, orb_true_iff, !eq_str_true. split.
  - intros [Hcell Hdate]. split; [destruct Hcell as [->| ->]; auto|].
    destruct (dates i) as [t|]; [|discriminate].
    exists t. split; [reflexivity|]. apply Z.leb_le, Hdate.
  - intros [Hcell (t & -> & Hdate)]. split.
    + destruct Hcell as [[= ->]|[= ->]]; auto.
    + apply Z.leb_le, Hdate.
Qed.

(** The mask selects exactly the records that match. *)
Lemma select_rows_picked ticker cutoff dates df :
  "ticker" ∈ columns df ->
  forall rows i,
    picked (row_matches ticker cutoff dates) i
      ((fun row => (fun name => (name, dict_get row name VNaN)) <$> columns df)
       <$> rows)
      (select_rows
         (imap (fun j cell => row_selected ticker cutoff cell (dates (i + j)%nat))
            ((fun row => dict_get row "ticker" VNaN) <$> rows))
         ((fun row => (fun name => (name, dict_get row name VNaN))
                      <$> columns df) <$> rows)).
Proof.
  intros Hcol. induction rows as [|row rows IH]; intros i; [constructor|].
  cbn [fmap list_fmap imap select_rows]. rewrite Nat.add_0_r.
  rewrite (imap_ext _ (fun j cell =>
             row_selected ticker cutoff cell (dates (S i + j)%nat)))
    by (intros j cell _; cbn; f_equal; f_equal; lia).
  pose proof (row_selected_matches ticker cutoff dates df row i Hcol) as Hm.
  destruct (row_selected ticker cutoff (dict_get row "ticker" VNaN) (dates i)).
  - apply PickedKeep; [apply Hm; reflexivity|apply IH].
  - apply PickedSkip; [|apply IH].
    intros H. apply Hm in H. discriminate.
Qed.

Lemma filter_rows_picked ticker cutoff df published dates :
  "ticker" ∈ columns df ->
  column df "published_date" = Ret published ->
  to_datetime env published = Ret dates ->
  tz_aware dates = false ->
  exists items,
    filter_rows env ticker cutoff df = Ret items
    /\ picked (row_matches ticker cutoff (date_at dates)) 0
         (to_records df) items.
Proof.
  intros Hcol Hp Hd Htz. unfold filter_rows, column at 1.
  rewrite bool_decide_eq_true_2 by exact Hcol. cbn [obind].
  rewrite Hp. cbn [obind]. rewrite Hd. cbn [obind]. rewrite Htz.
  eexists. split; [reflexivity|].
  apply (select_rows_picked ticker cutoff (date_at dates) df Hcol
           (cells df) 0%nat).
Qed.

(** X11. When the spreadsheet is read, has a ticker and a published_date
    column, and [pd.to_datetime] converts the date column to dates
    without a time zone, [get_news_from_excel] returns exactly the
    records of the rows whose ticker is the one asked for or GENERAL and
    whose converted date is at or after now minus [days] days: one
    record for each such row, in file order. It reads the file once and
    changes nothing else. *)
Theorem excel_returns_the_selected_rows
    ticker days s df cutoff_date published dates :
  excel_file env = Some (Ret df) ->
  days_ago env days = Ret cutoff_date ->
  "ticker" ∈ columns df ->
  column df "published_date" = Ret published ->
  to_datetime env published = Ret dates ->
  tz_aware dates = false ->
  exists items,
    get_news_from_excel env ticker days s
    = (Ret items, add_calls [ReadExcel ticker days] s)
    /\ picked (row_matches ticker cutoff_date (date_at dates)) 0
         (to_records df) items.
Proof.
  intros Hf Hago Hcol Hp Hd Htz.
  destruct (filter_rows_picked ticker cutoff_date df published dates
              Hcol Hp Hd Htz) as (items & Hrun & Hpicked).
  exists items. split; [|exact Hpicked].
  unfold get_news_from_excel, try_except, bind, lift, record_call, modify.
  rewrite Hf, Hago, Hrun. reflexivity.
Qed.

(** X12. The filter fails as a whole. If the sheet has no ticker column
    or no published_date column, or [pd.to_datetime] (one call for the
    dates of all rows) does not convert the date column or gives dates
    with a time zone, [get_news_from_excel] returns the empty list for
    every ticker, whatever the rows of that ticker hold. *)
Theorem excel_filter_fails_as_a_whole ticker days s df :
  excel_file env = Some (Ret df) ->
  "ticker" ∉ columns df
  \/ "published_date" ∉ columns df
  \/ (exists published,
        column df "published_date" = Ret published
        /\ match to_datetime env published with
           | Ret dates => tz_aware dates = true
           | Raise _ => True
           end) ->
  get_news_from_excel env ticker days s
  = (Ret [], add_calls [ReadExcel ticker days] s).
Proof.
  intros Hf Hbad.
  unfold get_news_from_excel, try_except, bind, lift, record_call, modify.
  rewrite Hf.
  destruct (days_ago env days) as [cutoff|e]; [|reflexivity].
  assert (is_ret (filter_rows env ticker cutoff df) = false) as Hr.
  { unfold filter_rows.
    destruct Hbad as [Hno|[Hno|(published & Hp & Hd)]].
    - unfold column at 1. rewrite bool_decide_eq_false_2 by exact Hno.
      reflexivity.
    - destruct (column df "ticker"); [cbn [obind]|reflexivity].
      unfold column. rewrite bool_decide_eq_false_2 by exact Hno.
      reflexivity.
    - destruct (column df "ticker"); [cbn [obind]|reflexivity].
      rewrite Hp. cbn [obind].
      destruct (to_datetime env published) as [dates|]; [|reflexivity].
      cbn [obind]. rewrite Hd. reflexivity. }
  destruct (filter_rows env ticker cutoff df); [discriminate|reflexivity].
Qed.

End Excel.

(** * More on the pipeline *)

Section Probe.

Variable env : Env.

Lemma is_api_key_valid_run s :
  is_api_key_valid env s = (Ret (probe_ok env), add_calls [ProbeApi] s).
Proof.
  unfold is_api_key_valid, probe_ok, try_except, bind, lift, record_call,
    modify, ret.
  cbn. destruct (probe_response env) as [r|e]; [|reflexivity].
  destruct (status_code r =? 200); [reflexivity|].
  destruct (status_code r =? 401); [reflexivity|].
  destruct (status_code r =? 429); reflexivity.
Qed.

Lemma analyze_result text self sys r st' :
  analyze env text (self, sys) = (Ret r, st') -> scored r.
Proof.
  pose proof (analyze_run env text self sys) as H. cbv zeta in H.
  pose proof (rule_based_outcome env (truncate self text)
                (set_request_count self (request_count self + 1))
                (tick sys)) as O.
  destruct (fst (_analyze_rule_based env (truncate self text) _)) as [r0|e].
  - destruct O as (pc & nc & _ & _ & R). rewrite H. intros [= <- _].
    destruct R; do 2 eexists; (split; [reflexivity|]); split; eauto.
  - rewrite H. intros [= <- _]. do 2 eexists. split; [reflexivity|].
    split; [eauto|reflexivity].
Qed.

(** One call of [analyze_sentiment] when a model is available. *)
Lemma analyze_sentiment_ready text p :
  model_ready env p ->
  exists r p',
    analyze_sentiment env text p = (Ret r, p')
    /\ scored r
    /\ is_Some (_model p')
    /\ requests_so_far p' = requests_so_far p + 1
    /\ calls (sys p') = calls (sys p).
Proof.
  intros Hready. unfold analyze_sentiment, bind, get_model, call_method,
    requests_so_far.
  destruct (_model p) as [m|] eqn:Hm.
  - destruct (analyze_settings env text m (sys p))
      as (r & m' & s' & Ha & _ & _ & _ & Hr & Hc).
    rewrite Ha. exists r. eexists. split; [reflexivity|]. cbn.
    split; [eapply analyze_result; exact Ha|]. auto.
  - destruct Hready as [[x Hx]|Hset]; [congruence|].
    unfold init, bind, lift, time_time, ret.
    destruct (env_batch_size env) as [b|]; [|discriminate].
    destruct (env_max_length env) as [l|]; [|discriminate].
    destruct (env_makedirs env) as [[]|]; [|discriminate].
    match goal with
    | |- context [analyze env text (?m, ?s)] =>
        destruct (analyze_settings env text m s)
          as (r & m' & s' & Ha & _ & _ & _ & Hr & Hc)
    end.
    rewrite Ha. exists r. eexists. split; [reflexivity|]. cbn.
    split; [eapply analyze_result; exact Ha|]. cbn in Hr, Hc. auto.
Qed.

(** [analyze_sentiment] makes no external call, whatever happens. *)
Lemma analyze_sentiment_calls text p :
  calls (sys (snd (analyze_sentiment env text p))) = calls (sys p).
Proof.
  unfold analyze_sentiment, bind, get_model, call_method.
  destruct (_model p) as [m|].
  - destruct (analyze_settings env text m (sys p))
      as (r & m' & s' & Ha & _ & _ & _ & _ & Hc).
    rewrite Ha. exact Hc.
  - unfold init, bind, lift, time_time, ret.
    destruct (env_batch_size env) as [b|]; [|reflexivity].
    destruct (env_max_length env) as [l|]; [|reflexivity].
    destruct (env_makedirs env) as [[]|]; [|reflexivity].
    match goal with
    | |- context [analyze env text (?m, ?s)] =>
        destruct (analyze_settings env text m s)
          as (r & m' & s' & Ha & _ & _ & _ & _ & Hc)
    end.
    rewrite Ha. exact Hc.
Qed.

Lemma process_items_calls ticker news :
  forall processed p,
    calls (sys (snd (process_items env ticker news processed p)))
    = calls (sys p).
Proof.
  induction news as [|item rest IH]; intros processed p; [reflexivity|].
  cbn [process_items].
  destruct (truthy (dict_get item "title" (VStr ""))); cbn [negb]; [|apply IH].
  destruct (dict_get item "title" (VStr "")); try reflexivity.
  unfold bind at 1.
  pose proof (analyze_sentiment_calls s p) as Hc.
  destruct (analyze_sentiment env s p) as [[r|e] p1]; cbn [snd] in Hc;
    [|exact Hc].
  unfold bind at 1, lift.
  destruct (dict_item r "sentiment"); [|exact Hc].
  unfold bind at 1.
  destruct (dict_item r "score"); [|exact Hc].
  rewrite IH. exact Hc.
Qed.

(** With a model available, the scoring loop returns one scored record
    for every item, provided every item has a headline. *)
Lemma process_items_ready ticker news :
  forall processed p,
    Forall has_headline news ->
    model_ready env p ->
    exists out p',
      process_items env ticker news processed p = (Ret (processed ++ out), p')
      /\ Forall2 (scored_from ticker) news out
      /\ Forall scored out
      /\ requests_so_far p' = requests_so_far p + Z.of_nat (length news)
      /\ (news <> [] -> is_Some (_model p')).
Proof.
  induction news as [|item rest IH]; intros processed p Hh Hready.
  - exists [], p. rewrite app_nil_r. cbn.
    split; [reflexivity|]. split; [constructor|]. split; [constructor|].
    split; [lia|congruence].
  - inversion Hh as [|? ? (s & Hs & Hne) Hrest]; subst.
    cbn [process_items]. rewrite Hs. cbn [truthy].
    destruct (String.eqb_spec s ""); [contradiction|]. cbn [negb].
    destruct (analyze_sentiment_ready s p Hready)
      as (r & p1 & Ha & (label & q & Hl & Hlab & Hq) & Hsome & Hreq & _).
    unfold bind at 1. rewrite Ha.
    unfold bind at 1, lift, dict_item. rewrite Hl.
    unfold bind at 1. rewrite Hq.
    destruct (IH (processed ++
                  [[("title", VStr s);
                    ("publisher", dict_get item "publisher" (VStr ""));
                    ("link", dict_get item "link" (VStr ""));
                    ("published_date",
                     dict_get item "published_date" (VStr ""));
                    ("ticker", VStr ticker);
                    ("sentiment", VStr label);
                    ("score", VFloat q)]]) p1 Hrest (or_introl Hsome))
      as (out & p' & Hrun & Hf & Hsc & Hcount & Hlast).
    eexists (_ :: out), p'. split.
    + rewrite Hrun, <- app_assoc. reflexivity.
    + split; [constructor; [|exact Hf]|].
      { exists s, (VStr label), (VFloat q). auto. }
      split; [constructor; [|exact Hsc]|].
      { exists label, q. auto. }
      split; [cbn [length]; lia|].
      intros _. destruct rest as [|x rest'].
      * cbn in Hrun. injection Hrun as _ <-. exact Hsome.
      * apply Hlast. congruence.
Qed.

End Probe.

(** ** The hard-coded source *)

Lemma floor_second_bounds t : t - 999999 <= floor_second t <= t.
Proof.
  unfold floor_second.
  pose proof (Z.div_mod t 1000000 ltac:(lia)).
  pose proof (Z.mod_pos_bound t 1000000 ltac:(lia)). lia.
Qed.

Lemma filter_by_date_all ticker cutoff entries :
  Forall (fun entry => cutoff <= snd entry) entries ->
  filter_by_date ticker cutoff entries
  = (fun entry => dict_set (fst entry) "ticker" (VStr ticker)) <$> entries.
Proof.
  induction 1 as [|[item t] entries Ht _ IH]; [reflexivity|].
  cbn [filter_by_date fmap list_fmap fst snd] in *.
  destruct (Z.ltb_spec t cutoff); [lia|]. rewrite IH. reflexivity.
Qed.

Section Demo.

Variable env : Env.

Lemma demo_entries_recent ticker cutoff :
  cutoff <= now env - 5 * microseconds_per_day ->
  Forall (fun entry => cutoff <= snd entry)
    (common_news env ++ ticker_news env ticker).
Proof.
  intros Hc. unfold microseconds_per_day in Hc.
  assert (forall d h, 0 <= d <= 4 -> 0 <= h <= 8 -> d * 24 + h <= 96 ->
            cutoff <= floor_second
                        (now env - d * microseconds_per_day
                         - h * microseconds_per_hour)) as Hrecent.
  { intros d h Hd Hh Hdh.
    pose proof (floor_second_bounds
                  (now env - d * microseconds_per_day
                   - h * microseconds_per_hour)).
    unfold microseconds_per_day, microseconds_per_hour in *. lia. }
  apply Forall_app. split.
  - unfold common_news, demo_entry. repeat constructor; cbn [snd];
      apply Hrecent; lia.
  - unfold ticker_news, default_ticker_news, demo_entry.
    repeat match goal with |- context [String.eqb ?a ?b] =>
             destruct (String.eqb a b) end;
      repeat constructor; cbn [snd]; apply Hrecent; lia.
Qed.

Lemma get_demo_news_run ticker days s cutoff :
  5 <= days ->
  days_ago env days = Ret cutoff ->
  exists first items,
    get_demo_news env ticker days s
    = (Ret (first :: items), add_calls [DemoNews ticker days] s)
    /\ first = [("title",
                 VStr "Markets reach record highs as tech stocks surge");
                ("publisher", VStr "Financial Times");
                ("link", VStr "https://example.com/markets-record-high");
                ("published_date",
                 VStr (strftime env (now env - 1 * microseconds_per_day
                                     - 0 * microseconds_per_hour)));
                ("ticker", VStr ticker)]
    /\ length items = 6%nat
    /\ Forall (demo_item ticker) (first :: items).
Proof.
  intros Hdays Hago.
  assert (cutoff <= now env - 5 * microseconds_per_day) as Hc.
  { unfold days_ago in Hago.
    destruct (_ || _); [discriminate|]. destruct (_ || _); [discriminate|].
    injection Hago as <-. unfold microseconds_per_day. lia. }
  unfold get_demo_news, bind, lift, record_call, modify, ret.
  cbn [fst snd]. rewrite Hago.
  rewrite (filter_by_date_all _ _ _ (demo_entries_recent ticker cutoff Hc)).
  rewrite fmap_app. unfold common_news at 1, demo_entry.
  cbn [fmap list_fmap fst dict_set String.eqb Ascii.eqb Bool.eqb app].
  do 2 eexists. split; [reflexivity|]. split; [reflexivity|].
  unfold ticker_news, default_ticker_news, demo_entry.
  repeat match goal with |- context [String.eqb ?a ?b] =>
           destruct (String.eqb a b) end;
    (split; [reflexivity|]);
    repeat constructor; do 4 eexists; reflexivity.
Qed.

(** X13. For a window of five days or more, the hard-coded source returns
    seven headlines for every ticker, known or not, the first general
    headline first; each has exactly the fields title, publisher, link,
    published_date and ticker, as strings, with the ticker asked for. *)
Theorem demo_source_serves_seven_headlines ticker days s cutoff :
  5 <= days ->
  days_ago env days = Ret cutoff ->
  exists items,
    get_demo_news env ticker days s
    = (Ret items, add_calls [DemoNews ticker days] s)
    /\ length items = 7%nat
    /\ Forall (demo_item ticker) items
    /\ (items !! 0%nat) ≫= (fun item => dict_lookup item "title")
       = Some (VStr "Markets reach record highs as tech stocks surge").
Proof.
  intros Hdays Hago.
  destruct (get_demo_news_run ticker days s cutoff Hdays Hago)
    as (first & items & Hrun & -> & Hlen & Hshape).
  eexists. split; [exact Hrun|]. split; [cbn; lia|]. split; [exact Hshape|].
  reflexivity.
Qed.

End Demo.

(** ** The merge steps, once more *)

Lemma strip_empty : lower (strip "") = "".
Proof. reflexivity. Qed.

Lemma has_headline_of_key item :
  has_str_title item -> norm_key item <> "" -> has_headline item.
Proof.
  intros [s Hs] Hk. exists s. split; [exact Hs|].
  intros ->. apply Hk. unfold norm_key, normalized_title. rewrite Hs.
  reflexivity.
Qed.

Lemma merged_in_headlines news incoming added :
  merged_in news incoming added -> Forall has_headline added.
Proof.
  intros (_ & Hs & Hnew & _). apply Forall_forall. intros item Hin.
  apply has_headline_of_key.
  - eapply (proj1 (Forall_forall _ _) Hs), Hin.
  - apply Hnew, Hin.
Qed.

Lemma api_item_headline ticker item : api_item ticker item -> has_headline item.
Proof. intros (t & p & l & d & -> & Hne). exists t. auto. Qed.

Section Steps.

Variable env : Env.

Lemma primary_step_run ticker days max_results p :
  exists primary n,
    primary_step env ticker days max_results p
    = (Ret primary,
       {| _model := _model p;
          sys := add_calls (ProbeApi :: page_calls 1 n) (sys p) |})
    /\ (probe_ok env = false -> n = 0%nat /\ primary = [])
    /\ Z.of_nat n <= Z.max 0 ((max_results + 99) / 100)
    /\ Forall has_headline primary.
Proof.
  unfold primary_step, bind, in_sys. rewrite is_api_key_valid_run.
  destruct (probe_ok env); cbn -[get_news_from_api add_calls page_calls].
  - destruct (get_news_from_api_run env ticker days max_results
                (add_calls [ProbeApi] (sys p)))
      as (items & n & Hrun & Hn & _ & Hshape).
    rewrite Hrun. exists items, n. rewrite add_calls_app. cbn [app].
    split; [reflexivity|]. split; [discriminate|]. split; [exact Hn|].
    eapply Forall_impl; [exact Hshape|]. apply api_item_headline.
  - exists [], 0%nat. split; [reflexivity|]. split; [auto|].
    split; [cbn; lia|constructor].
Qed.

Lemma merge_step_run incoming news out :
  merge_step incoming news = Ret out ->
  exists added, out = news ++ added /\ Forall has_headline added.
Proof.
  intros H. apply merge_step_spec in H as [[-> _]|(added & -> & _ & Hm)].
  - exists []. rewrite app_nil_r. split; [reflexivity|constructor].
  - exists added. split; [reflexivity|].
    eapply merged_in_headlines, Hm.
Qed.

Lemma excel_step_run ticker days max_results news p :
  exists o xs,
    excel_step env ticker days max_results news p
    = (o, {| _model := _model p; sys := add_calls xs (sys p) |})
    /\ xs = (if needs_excel days max_results news
             then [ReadExcel ticker days] else [])
    /\ (forall out, o = Ret out ->
          exists added, out = news ++ added /\ Forall has_headline added).
Proof.
  unfold excel_step. destruct (needs_excel days max_results news).
  - unfold bind, in_sys, lift.
    pose proof (get_news_from_excel_calls env ticker days (sys p)) as Hc.
    destruct (get_news_from_excel_returns env ticker days (sys p))
      as (l & s1 & Hl).
    assert (s1 = add_calls [ReadExcel ticker days] (sys p)) as ->.
    { unfold get_news_from_excel, try_except, bind, lift, record_call, modify
        in Hl.
      cbn in Hl. destruct (excel_file env) as [[rows|e]|]; cbn in Hl;
        try (injection Hl as _ <-; reflexivity).
      destruct (days_ago env days); cbn in Hl;
        [|injection Hl as _ <-; reflexivity].
      destruct (filter_rows env ticker _ rows);
        injection Hl as _ <-; reflexivity. }
    rewrite Hl. exists (merge_step l news). eexists.
    split; [reflexivity|]. split; [reflexivity|].
    intros out Hout. apply merge_step_run in Hout. exact Hout.
  - exists (Ret news), []. rewrite add_calls_nil. destruct p.
    split; [reflexivity|]. split; [reflexivity|].
    intros out [= <-]. exists []. rewrite app_nil_r.
    split; [reflexivity|constructor].
Qed.

Lemma demo_step_run ticker days news p :
  exists o ds,
    demo_step env ticker days news p
    = (o, {| _model := _model p; sys := add_calls ds (sys p) |})
    /\ ds = (if needs_demo news then [DemoNews ticker days] else [])
    /\ (forall out, o = Ret out ->
          exists added, out = news ++ added /\ Forall has_headline added).
Proof.
  unfold demo_step. destruct (needs_demo news).
  - unfold bind, in_sys, lift, get_demo_news, record_call, modify, ret.
    cbn [fst snd]. destruct (days_ago env days) as [cutoff|e].
    + eexists (merge_step _ news), _.
      split; [reflexivity|]. split; [reflexivity|].
      intros out Hout. apply merge_step_run in Hout. exact Hout.
    + exists (Raise e). eexists. split; [reflexivity|].
      split; [reflexivity|]. discriminate.
  - exists (Ret news), []. rewrite add_calls_nil. destruct p.
    split; [reflexivity|]. split; [reflexivity|].
    intros out [= <-]. exists []. rewrite app_nil_r.
    split; [reflexivity|constructor].
Qed.

(** The effect of the three merge steps together. *)
Lemma collect_news_run ticker days max_results p :
  exists primary n o xs ds,
    primary_step env ticker days max_results p
    = (Ret primary,
       {| _model := _model p;
          sys := add_calls (ProbeApi :: page_calls 1 n) (sys p) |})
    /\ collect_news env ticker days max_results p
       = (o, {| _model := _model p;
                sys := add_calls (ProbeApi :: page_calls 1 n ++ xs ++ ds)
                         (sys p) |})
    /\ (probe_ok env = false -> n = 0%nat /\ primary = [])
    /\ Z.of_nat n <= Z.max 0 ((max_results + 99) / 100)
    /\ xs = (if needs_excel days max_results primary
             then [ReadExcel ticker days] else [])
    /\ (ds = [] \/ ds = [DemoNews ticker days])
    /\ (forall merged, o = Ret merged ->
          exists more,
            merged = primary ++ more /\ Forall has_headline merged
            /\ (Z.of_nat (length merged) < 5 -> ds = [DemoNews ticker days])).
Proof.
  destruct (primary_step_run ticker days max_results p)
    as (primary & n & Hp & Hprobe & Hn & Hh).
  exists primary, n. unfold collect_news, bind. rewrite Hp.
  destruct (excel_step_run ticker days max_results primary
              {| _model := _model p;
                 sys := add_calls (ProbeApi :: page_calls 1 n) (sys p) |})
    as (o2 & xs & Hx & Hxs & Hout2).
  cbn [_model sys] in Hx. rewrite Hx, add_calls_app.
  destruct o2 as [news2|e].
  - destruct (demo_step_run ticker days news2
                {| _model := _model p;
                   sys := add_calls ((ProbeApi :: page_calls 1 n) ++ xs)
                            (sys p) |})
      as (o3 & ds & Hd & Hds & Hout3).
    cbn [_model sys] in Hd. rewrite Hd, add_calls_app.
    exists o3, xs, ds. split; [reflexivity|].
    split; [rewrite <- app_assoc; reflexivity|].
    split; [exact Hprobe|]. split; [exact Hn|]. split; [exact Hxs|].
    split; [rewrite Hds; destruct (needs_demo news2); auto|].
    intros merged ->.
    destruct (Hout2 news2 eq_refl) as (a2 & -> & Ha2).
    destruct (Hout3 merged eq_refl) as (a3 & -> & Ha3).
    exists (a2 ++ a3). split; [rewrite app_assoc; reflexivity|].
    split; [repeat (apply Forall_app; split); assumption|].
    intros Hfew. rewrite Hds. unfold needs_demo.
    destruct (is_empty (primary ++ a2)); [reflexivity|]. cbn [orb].
    destruct (Z.ltb_spec (Z.of_nat (length (primary ++ a2))) 5);
      [reflexivity|].
    rewrite length_app in Hfew. lia.
  - exists (Raise e), xs, []. rewrite app_nil_r.
    split; [reflexivity|]. split; [reflexivity|].
    split; [exact Hprobe|]. split; [exact Hn|]. split; [exact Hxs|].
    split; [auto|]. discriminate.
Qed.

End Steps.

(** ** The pipeline as a whole, once more *)

Section Whole.

Variable env : Env.

Lemma truncate_step_take max_results (news : list dict) :
  0 <= max_results ->
  truncate_step max_results news = take (Z.to_nat max_results) news.
Proof.
  intros Hm. unfold truncate_step, list_slice_to.
  destruct (Z.ltb_spec max_results 0); [lia|].
  destruct (Z.gtb_spec (Z.of_nat (length news)) max_results);
    [reflexivity|].
  symmetry. apply take_ge. lia.
Qed.

(** X14. Each source is asked at most once for a request, in the order of
    priority, and scoring makes no external call: the calls of one
    [get_financial_news] are the probe, then pages 1, 2, ... of the
    primary source, then at most one read of the spreadsheet, then at
    most one use of the hard-coded source. No page is requested when the
    probe is not answered with status 200, and the spreadsheet is always
    read for a window of more than 30 days. *)
Theorem sources_are_asked_once_in_priority_order ticker days max_results p :
  let d := coerce_days days in
  exists items p' n xs ds,
    get_financial_news env ticker days max_results p = (Ret items, p')
    /\ calls (sys p')
       = calls (sys p) ++ ProbeApi :: page_calls 1 n ++ xs ++ ds
    /\ (probe_ok env = false -> n = 0%nat)
    /\ Z.of_nat n <= Z.max 0 ((max_results + 99) / 100)
    /\ (xs = [] \/ xs = [ReadExcel ticker d])
    /\ (d > 30 -> xs = [ReadExcel ticker d])
    /\ (ds = [] \/ ds = [DemoNews ticker d]).
Proof.
  intros d.
  pose proof (get_financial_news_cases env ticker days max_results p) as H.
  cbv zeta in H. fold d in H.
  destruct (collect_news_run env ticker d max_results p)
    as (primary & n & o & xs & ds & _ & Hc & Hprobe & Hn & Hxs & Hds & _).
  assert (calls (sys (snd (get_financial_news_body env ticker d max_results p)))
          = calls (sys p) ++ ProbeApi :: page_calls 1 n ++ xs ++ ds) as Hcalls.
  { unfold get_financial_news_body, bind. rewrite Hc.
    destruct o as [merged|e]; [|reflexivity].
    rewrite process_items_calls. reflexivity. }
  assert (xs = [] \/ xs = [ReadExcel ticker d]) as Hx
    by (rewrite Hxs; destruct (needs_excel _ _ _); auto).
  assert (d > 30 -> xs = [ReadExcel ticker d]) as Hlong.
  { intros Hd. rewrite Hxs. unfold needs_excel.
    destruct (Z.gtb_spec d 30); [reflexivity|lia]. }
  destruct (get_financial_news_body env ticker d max_results p)
    as [[out|e] p'] eqn:Hb; cbn [snd] in Hcalls.
  - exists out, p', n, xs, ds. split; [exact H|]. split; [exact Hcalls|].
    split; [intros Hf; apply Hprobe, Hf|]. auto.
  - exists [], p', n, xs, ds. split; [exact H|]. split; [exact Hcalls|].
    split; [intros Hf; apply Hprobe, Hf|]. auto.
Qed.

(** X15. First seen wins: the merged list starts with the items of the
    primary source, in their order; the other sources only append. *)
Theorem primary_items_come_first ticker days max_results p :
  exists primary p1,
    primary_step env ticker days max_results p = (Ret primary, p1)
    /\ forall merged p3,
         collect_news env ticker days max_results p = (Ret merged, p3) ->
         exists more, merged = primary ++ more.
Proof.
  destruct (collect_news_run env ticker days max_results p)
    as (primary & n & o & xs & ds & Hp & Hc & _ & _ & _ & _ & Hout).
  do 2 eexists. split; [exact Hp|].
  intros merged p3 Hrun. rewrite Hc in Hrun. injection Hrun as -> _.
  destruct (Hout merged eq_refl) as (more & -> & _). eauto.
Qed.

Lemma scoring_complete_run ticker days max_results p merged p3 :
  0 <= max_results ->
  model_ready env p ->
  collect_news env ticker days max_results p = (Ret merged, p3) ->
  exists items p',
    get_financial_news_body env ticker days max_results p = (Ret items, p')
    /\ Forall2 (scored_from ticker) (take (Z.to_nat max_results) merged) items
    /\ Forall scored items
    /\ requests_so_far p' = requests_so_far p + Z.of_nat (length items).
Proof.
  intros Hm Hready Hc.
  destruct (collect_news_run env ticker days max_results p)
    as (primary & n & o & xs & ds & _ & Hc' & _ & _ & _ & _ & Hout).
  rewrite Hc in Hc'. injection Hc' as <- ->.
  destruct (Hout merged eq_refl) as (more & _ & Hh & _).
  unfold get_financial_news_body, bind. rewrite Hc.
  rewrite truncate_step_take by exact Hm.
  assert (Forall has_headline (take (Z.to_nat max_results) merged)) as Hh'
    by (apply Forall_take, Hh).
  destruct (process_items_ready env ticker _ []
              {| _model := _model p;
                 sys := add_calls (ProbeApi :: page_calls 1 n ++ xs ++ ds)
                          (sys p) |} Hh' Hready)
    as (out & p' & Hrun & Hf & Hs & Hcount & _).
  cbn [app] in Hrun. exists out, p'. split; [exact Hrun|].
  split; [exact Hf|]. split; [exact Hs|].
  rewrite Hcount. apply Forall2_length in Hf. rewrite Hf. reflexivity.
Qed.

(** X16. When a model is available and the merge steps return, nothing is
    lost in scoring: [get_financial_news] returns one record for every
    merged item up to [max_results], in order, each built from its item
    with a sentiment label and a float score, and the model has counted
    exactly one request per returned record. *)
Theorem every_collected_item_is_scored ticker days max_results p merged p3 :
  0 <= max_results ->
  model_ready env p ->
  collect_news env ticker (coerce_days days) max_results p = (Ret merged, p3) ->
  exists items p',
    get_financial_news env ticker days max_results p = (Ret items, p')
    /\ Z.of_nat (length items) = Z.min (Z.of_nat (length merged)) max_results
    /\ Forall2 (scored_from ticker) (take (Z.to_nat max_results) merged) items
    /\ Forall scored items
    /\ requests_so_far p' = requests_so_far p + Z.of_nat (length items).
Proof.
  intros Hm Hready Hc.
  destruct (scoring_complete_run ticker _ max_results p merged p3 Hm Hready Hc)
    as (items & p' & Hb & Hf & Hs & Hr).
  pose proof (get_financial_news_cases env ticker days max_results p) as H.
  cbv zeta in H. rewrite Hb in H.
  exists items, p'. split; [exact H|]. split; [|auto].
  apply Forall2_length in Hf. rewrite <- Hf, length_take. lia.
Qed.

Lemma merge_new_returns incoming :
  forall news existing,
    Forall has_str_title incoming ->
    is_ret (merge_new incoming news existing) = true.
Proof.
  induction incoming as [|item rest IH]; intros news existing Hs;
    [reflexivity|].
  inversion Hs as [|? ? Hi Hrest]; subst.
  cbn [merge_new]. rewrite (has_str_title_norm item Hi). cbn [obind].
  destruct (_ && _); apply IH, Hrest.
Qed.

(** X17. The last resort works: when the probe fails and there is no
    spreadsheet, for a window of five days or more, a positive
    [max_results] and an available model, the result is not empty; it
    starts with the first hard-coded headline, scored and labelled with
    the ticker asked for. *)
Theorem last_resort_serves_headlines ticker days max_results p cutoff :
  probe_ok env = false ->
  excel_file env = None ->
  5 <= days ->
  days_ago env days = Ret cutoff ->
  1 <= max_results ->
  model_ready env p ->
  exists first rest p',
    get_financial_news env ticker (Some days) max_results p
    = (Ret (first :: rest), p')
    /\ dict_lookup first "title"
       = Some (VStr "Markets reach record highs as tech stocks surge")
    /\ dict_lookup first "ticker" = Some (VStr ticker)
    /\ scored first.
Proof.
  intros Hprobe Hfile Hdays Hago Hm Hready.
  assert (coerce_days (Some days) = days) as Hd by (unfold coerce_days; lia).
  assert (exists item more p3,
            collect_news env ticker days max_results p
            = (Ret (item :: more), p3)
            /\ dict_get item "title" (VStr "")
               = VStr "Markets reach record highs as tech stocks surge")
    as (item & more & p3 & Hc & Htitle).
  { unfold collect_news, bind.
    destruct (primary_step_run env ticker days max_results p)
      as (primary & n & -> & Hnone & _).
    destruct (Hnone Hprobe) as [-> ->].
    assert (forall q, exists q',
              excel_step env ticker days max_results [] q = (Ret [], q')
              /\ _model q' = _model q) as Hexcel.
    { intros q. unfold excel_step.
      destruct (needs_excel _ _ _); [|eauto].
      unfold bind, in_sys, lift, get_news_from_excel, try_except, record_call,
        modify. rewrite Hfile. cbn. eauto. }
    destruct (Hexcel {| _model := _model p;
                        sys := add_calls (ProbeApi :: page_calls 1 0)
                                 (sys p) |})
      as (q' & -> & _).
    unfold demo_step. cbn [needs_demo is_empty orb]. unfold bind, in_sys, lift.
    destruct (get_demo_news_run env ticker days (sys q') cutoff Hdays Hago)
      as (first & items & -> & Hfirst & _ & Hshape).
    unfold merge_step. cbn [is_empty existing_titles_of obind merge_new].
    assert (normalized_title first
            = Ret (lower (strip
                "Markets reach record highs as tech stocks surge"))) as ->
      by (rewrite Hfirst; reflexivity).
    cbn [obind]. rewrite bool_decide_eq_false_2 by set_solver.
    change (negb (String.eqb (lower (strip _)) "") && negb false) with true.
    cbn [app].
    assert (Forall has_str_title items) as Hstr.
    { inversion Hshape as [|? ? _ Hrest]; subst.
      eapply Forall_impl; [exact Hrest|].
      intros x (t & pb & l & dt & ->). exists t. reflexivity. }
    pose proof (merge_new_returns items [first]
                  ({[lower (strip
                      "Markets reach record highs as tech stocks surge")]}
                   ∪ ∅) Hstr) as Hret.
    destruct (merge_new items [first] _) as [out|] eqn:Hmerge;
      [|discriminate].
    apply merge_new_spec with (existing := _) in Hmerge as (added & -> & _).
    2:{ intros t. rewrite elem_of_union, elem_of_singleton, elem_of_empty.
        rewrite Hfirst. cbn. rewrite list_elem_of_singleton. tauto. }
    do 3 eexists. split; [reflexivity|]. rewrite Hfirst. reflexivity. }
  rewrite <- Hd in Hc.
  destruct (scoring_complete_run ticker (coerce_days (Some days))
              max_results p _ p3 ltac:(lia) Hready Hc)
    as (items & p' & Hb & Hf & Hs & _).
  pose proof (get_financial_news_cases env ticker (Some days) max_results p)
    as Hrun.
  cbv zeta in Hrun. rewrite Hb in Hrun.
  destruct (Z.to_nat max_results) as [|k] eqn:Hk; [lia|].
  cbn [take] in Hf. inversion Hf as [|? first ? rest Hfirst _]; subst.
  exists first, rest, p'. split; [exact Hrun|].
  destruct Hfirst as (h & se & sc & Ht & _ & ->).
  rewrite Htitle in Ht. injection Ht as <-.
  split; [reflexivity|]. split; [reflexivity|].
  inversion Hs; assumption.
Qed.

End Whole.

(** * The summary *)

Lemma sentiment_value_ret v z :
  sentiment_value v = Ret z ->
  (eq_str v "positive" = true /\ eq_str v "negative" = false
   /\ eq_str v "neutral" = false /\ z = 1)
  \/ (eq_str v "positive" = false /\ eq_str v "negative" = true
      /\ eq_str v "neutral" = false /\ z = -1)
  \/ (eq_str v "positive" = false /\ eq_str v "negative" = false
      /\ eq_str v "neutral" = true /\ z = 0).
Proof.
  unfold sentiment_value.
  destruct v as [| | | | |s| |]; cbn; try discriminate.
  destruct (String.eqb_spec s "positive") as [->|]; [intros [= <-]; auto|].
  destruct (String.eqb_spec s "neutral") as [->|];
    [intros [= <-]; auto 10|].
  destruct (String.eqb_spec s "negative") as [->|];
    [intros [= <-]; auto 10|discriminate].
Qed.

(** The three counts, read off a list whose polarities can be summed. *)
Lemma counts_of_polarity news :
  forall ps,
    polarity_sum_of news = Ret ps ->
    exists pos neg neu,
      count_sentiment news "positive" = Ret pos
      /\ count_sentiment news "negative" = Ret neg
      /\ count_sentiment news "neutral" = Ret neu
      /\ 0 <= pos /\ 0 <= neg /\ 0 <= neu
      /\ pos + neg + neu = Z.of_nat (length news)
      /\ ps = pos - neg.
Proof.
  induction news as [|item rest IH]; intros ps.
  - cbn. intros [= <-]. exists 0, 0, 0. repeat split; lia.
  - cbn [polarity_sum_of count_sentiment length]. unfold obind at 1.
    destruct (dict_item item "sentiment") as [s|]; [|discriminate].
    unfold obind at 1.
    destruct (sentiment_value s) as [v|] eqn:Hv; [|discriminate].
    unfold obind at 1.
    destruct (polarity_sum_of rest) as [acc|]; [|discriminate].
    intros [= <-].
    destruct (IH acc eq_refl)
      as (pos & neg & neu & -> & -> & -> & Hp & Hn & Hu & Hsum & ->).
    cbn [obind].
    apply sentiment_value_ret in Hv
      as [(-> & -> & -> & ->)|[(-> & -> & -> & ->)|(-> & -> & -> & ->)]];
      do 3 eexists; (split; [reflexivity|]); (split; [reflexivity|]);
      (split; [reflexivity|]); repeat split; lia.
Qed.

Lemma summarize_total_news news d :
  summarize news = Ret d ->
  dict_lookup d "total_news" = Some (VInt (Z.of_nat (length news))).
Proof.
  unfold summarize. destruct news as [|item rest];
    [intros [= <-]; reflexivity|].
  cbn [is_empty]. set (news := item :: rest).
  destruct (count_sentiment news "positive"); [|discriminate]. cbn [obind].
  destruct (count_sentiment news "negative"); [|discriminate]. cbn [obind].
  destruct (count_sentiment news "neutral"); [|discriminate]. cbn [obind].
  destruct (weighted_sum_of news); [|discriminate]. cbn [obind].
  destruct (total_weight_of news); [|discriminate]. cbn [obind].
  destruct (polarity_sum_of news); [|discriminate]. cbn [obind].
  intros [= <-]. reflexivity.
Qed.

(** X18. For a non-empty list that can be summarised, the three counts are
    non-negative and add up to [total_news], the length of the list:
    every item carries one of the three labels, since any other raises
    [KeyError]. The average is the number of positive items minus the
    number of negative ones, over the total. *)
Theorem summary_counts_add_up news d :
  news <> [] ->
  summarize news = Ret d ->
  exists pos neg neu,
    dict_lookup d "total_news" = Some (VInt (Z.of_nat (length news)))
    /\ dict_lookup d "positive" = Some (VInt pos)
    /\ dict_lookup d "negative" = Some (VInt neg)
    /\ dict_lookup d "neutral" = Some (VInt neu)
    /\ 0 <= pos /\ 0 <= neg /\ 0 <= neu
    /\ pos + neg + neu = Z.of_nat (length news)
    /\ dict_lookup d "avg_sentiment_score"
       = Some (VFloat (inject_Z (pos - neg)
                       / inject_Z (Z.of_nat (length news)))).
Proof.
  intros Hne. unfold summarize.
  destruct news as [|item rest]; [contradiction|]. cbn [is_empty].
  set (news := item :: rest).
  destruct (polarity_sum_of news) as [ps|e] eqn:Hps.
  - destruct (counts_of_polarity news ps Hps)
      as (pos & neg & neu & -> & -> & -> & Hp & Hn & Hu & Hsum & ->).
    cbn [obind].
    destruct (weighted_sum_of news) as [ws|]; [|discriminate]. cbn [obind].
    destruct (total_weight_of news) as [tw|]; [|discriminate]. cbn [obind].
    intros [= <-]. exists pos, neg, neu. repeat split; auto.
  - destruct (count_sentiment news "positive"); [|discriminate]. cbn [obind].
    destruct (count_sentiment news "negative"); [|discriminate]. cbn [obind].
    destruct (count_sentiment news "neutral"); [|discriminate]. cbn [obind].
    destruct (weighted_sum_of news); [|discriminate]. cbn [obind].
    destruct (total_weight_of news); discriminate.
Qed.

Lemma weighted_sum_bounds news :
  forall ws tw,
    Forall nonneg_score news ->
    weighted_sum_of news = Ret ws ->
    total_weight_of news = Ret tw ->
    (0 <= tw /\ - tw <= ws /\ ws <= tw)%Q.
Proof.
  induction news as [|item rest IH]; intros ws tw Hs.
  - cbn. intros [= <-] [= <-]. lra.
  - inversion Hs as [|? ? (v & q & Hv & Hq & Hq0) Hrest]; subst.
    cbn [weighted_sum_of total_weight_of]. unfold dict_item at 2 3.
    rewrite Hv. cbn [obind]. rewrite Hq. cbn [obind].
    unfold obind at 1.
    destruct (dict_item item "sentiment") as [s|]; [|discriminate].
    unfold obind at 1.
    destruct (sentiment_value s) as [z|] eqn:Hz; [|discriminate].
    destruct (weighted_sum_of rest) as [ws'|]; [|discriminate].
    destruct (total_weight_of rest) as [tw'|]; [|discriminate].
    cbn [obind]. intros [= <-] [= <-].
    destruct (IH ws' tw' Hrest eq_refl eq_refl) as (H0 & Hl & Hu).
    apply sentiment_value_ret in Hz
      as [(_ & _ & _ & ->)|[(_ & _ & _ & ->)|(_ & _ & _ & ->)]];
      unfold inject_Z; lra.
Qed.

(** X19. When no score is negative, the weighted average of a summary is
    the integer 0 (no weight at all) or a float between -1 and 1. *)
Theorem weighted_average_within_bounds news d :
  news <> [] ->
  Forall nonneg_score news ->
  summarize news = Ret d ->
  dict_lookup d "weighted_avg_score" = Some (VInt 0)
  \/ exists w,
       dict_lookup d "weighted_avg_score" = Some (VFloat w)
       /\ (-1 <= w <= 1)%Q.
Proof.
  intros Hne Hs. unfold summarize.
  destruct news as [|item rest]; [contradiction|]. cbn [is_empty].
  set (news := item :: rest) in *.
  destruct (count_sentiment news "positive"); [|discriminate]. cbn [obind].
  destruct (count_sentiment news "negative"); [|discriminate]. cbn [obind].
  destruct (count_sentiment news "neutral"); [|discriminate]. cbn [obind].
  destruct (weighted_sum_of news) as [ws|] eqn:Hws; [|discriminate].
  cbn [obind].
  destruct (total_weight_of news) as [tw|] eqn:Htw; [|discriminate].
  cbn [obind].
  destruct (polarity_sum_of news); [|discriminate]. cbn [obind].
  intros [= <-].
  destruct (weighted_sum_bounds news ws tw Hs Hws Htw) as (H0 & Hl & Hu).
  destruct (Qlt_le_dec 0 tw) as [Hpos|Hle]; [right|left; reflexivity].
  exists (ws / tw)%Q. split; [reflexivity|].
  split.
  - apply Qle_shift_div_l; [exact Hpos|]. lra.
  - apply Qle_shift_div_r; [exact Hpos|]. lra.
Qed.

(** ** The summary of what the pipeline returns *)

Section Summary.

Variable env : Env.

Lemma analyze_sentiment_scored text p r p' :
  analyze_sentiment env text p = (Ret r, p') -> scored r.
Proof.
  unfold analyze_sentiment, bind, get_model, call_method.
  destruct (_model p) as [m|].
  - destruct (analyze env text (m, sys p)) as [o [m' s']] eqn:Ha.
    intros [= -> _]. eapply analyze_result, Ha.
  - destruct (init env (sys p)) as [[m|e] s1]; [|discriminate].
    cbn [sys]. destruct (analyze env text (m, s1)) as [o [m' s']] eqn:Ha.
    intros [= -> _]. eapply analyze_result, Ha.
Qed.

Lemma process_items_scored ticker news :
  forall processed p out p',
    Forall scored processed ->
    process_items env ticker news processed p = (Ret out, p') ->
    Forall scored out.
Proof.
  induction news as [|item rest IH]; intros processed p out p' Hp.
  - cbn. intros [= <- _]. exact Hp.
  - cbn [process_items].
    destruct (truthy (dict_get item "title" (VStr ""))); cbn [negb];
      [|apply IH, Hp].
    destruct (dict_get item "title" (VStr "")); try discriminate.
    unfold bind at 1.
    destruct (analyze_sentiment env s p) as [[r|e] p1] eqn:Ha;
      [|discriminate].
    apply analyze_sentiment_scored in Ha as (label & q & Hl & Hlab & Hq).
    unfold bind at 1, lift, dict_item. rewrite Hl.
    unfold bind at 1. rewrite Hq.
    apply IH. apply Forall_app. split; [exact Hp|].
    constructor; [|constructor]. exists label, q. auto.
Qed.

Lemma summarize_scored news :
  Forall scored news -> exists d, summarize news = Ret d.
Proof.
  intros Hs. unfold summarize. destruct news as [|item rest]; [eauto|].
  cbn [is_empty]. set (news := item :: rest) in *. clearbody news.
  assert (exists ps ws tw,
            polarity_sum_of news = Ret ps /\ weighted_sum_of news = Ret ws
            /\ total_weight_of news = Ret tw) as (ps & ws & tw & Hps & Hws & Htw).
  { induction Hs as [|x l (label & q & Hl & Hlab & Hq) _ IH].
    - exists 0, 0%Q, 0%Q. auto.
    - destruct IH as (ps & ws & tw & Hps & Hws & Htw).
      cbn [polarity_sum_of weighted_sum_of total_weight_of].
      unfold dict_item. rewrite Hl, Hq, Hps, Hws, Htw. cbn [obind as_number].
      destruct Hlab as [-> | [-> | ->]]; cbn; do 3 eexists; repeat split. }
  destruct (counts_of_polarity news ps Hps)
    as (pos & neg & neu & -> & -> & -> & _).
  rewrite Hps, Hws, Htw. cbn [obind]. eauto.
Qed.

(** X20. The summary of one ticker never fails: whatever the sources and
    the scorer do, [ticker_summary] returns a summary, and its
    [total_news] lies between 0 and the limit used. Every record of the
    pipeline carries one of the three labels and a float score, so
    neither lookup table nor sum can raise. *)
Theorem ticker_summary_never_raises ticker days max_results p :
  exists d p' total,
    ticker_summary env ticker days max_results p = (Ret d, p')
    /\ dict_lookup d "total_news" = Some (VInt total)
    /\ 0 <= total
       <= match max_results with None => 100 | Some m => Z.max 1 m end.
Proof.
  unfold ticker_summary. cbv zeta.
  set (sd := match days with None => 7 | Some d0 => Z.max 1 d0 end).
  set (limit := match max_results with None => 100 | Some m => Z.max 1 m end).
  assert (1 <= limit) as Hlimit by (unfold limit; destruct max_results; lia).
  pose proof (get_financial_news_cases env ticker (Some sd) limit p) as H.
  cbv zeta in H. unfold bind.
  destruct (get_financial_news_body env ticker (coerce_days (Some sd)) limit p)
    as [[out|e] p'] eqn:Hb; rewrite H.
  - assert (Forall scored out) as Hs.
    { unfold get_financial_news_body, bind in Hb.
      destruct (collect_news _ _ _ _ _) as [[news|e] p3]; [|discriminate].
      eapply process_items_scored in Hb; [exact Hb|constructor]. }
    assert (Z.of_nat (length out) <= limit) as Hlen.
    { apply body_spec in Hb as (merged & kept & _ & Hk & Hf).
      apply Forall2_length in Hf. apply sublist_length in Hk.
      pose proof (truncate_step_length limit merged ltac:(lia)). lia. }
    destruct (summarize_scored out Hs) as (d & Hd).
    unfold lift. rewrite Hd. exists d, p', (Z.of_nat (length out)).
    split; [reflexivity|]. split; [|lia].
    apply summarize_total_news, Hd.
  - exists [("total_news", VInt 0); ("positive", VInt 0);
            ("negative", VInt 0); ("neutral", VInt 0);
            ("avg_sentiment_score", VInt 0)], p', 0.
    split; [reflexivity|]. split; [reflexivity|lia].
Qed.

End Summary.

(** ** Instances on the sample worlds *)

Lemma analyze_ignores_text_beyond_max_length_witness :
  0 <= max_length terse_model <= len "Profits surge again."
  /\ analyze offline_env ("Profits surge again." +:+ " Then shares crash.")
       (terse_model, fresh_sys)
     = analyze offline_env "Profits surge again." (terse_model, fresh_sys).
Proof.
  assert (0 <= max_length terse_model <= len "Profits surge again.") as H
    by (vm_compute; split; discriminate).
  split; [exact H|].
  apply (analyze_ignores_text_beyond_max_length offline_env
           "Profits surge again." " Then shares crash." terse_model fresh_sys H).
Defined.

Lemma analyze_keeps_settings_and_counter_order_witness :
  0 <= error_count broken_model <= request_count broken_model
  /\ exists r self' sys',
       analyze offline_env "Profits surge" (broken_model, fresh_sys)
       = (Ret r, (self', sys'))
       /\ config self' = broken_config
       /\ request_count self' = 4
       /\ 0 <= error_count self' <= 4.
Proof.
  assert (0 <= error_count broken_model <= request_count broken_model) as H
    by (cbn; lia).
  split; [exact H|].
  destruct (analyze_keeps_settings_and_counter_order offline_env
              "Profits surge" broken_model fresh_sys H)
    as (r & self' & sys' & Ha & Hc & _ & _ & _ & Hr & He & _).
  exists r, self', sys'. split; [exact Ha|]. split; [exact Hc|].
  split; [exact Hr|]. rewrite Hr in He. exact He.
Defined.

Lemma fallback_depends_on_configuration_only_witness :
  config broken_model = config (set_request_count broken_model 100)
  /\ exists r1 st1 r2 st2,
       analyze offline_env "Profits surge" (broken_model, fresh_sys)
       = (Ret r1, st1)
       /\ analyze offline_env ""
            (set_request_count broken_model 100, tick fresh_sys)
          = (Ret r2, st2)
       /\ (dict_lookup r1 "error" = None <-> dict_lookup r2 "error" = None).
Proof.
  split; [reflexivity|].
  apply (fallback_depends_on_configuration_only offline_env "Profits surge" ""
           broken_model (set_request_count broken_model 100)
           fresh_sys (tick fresh_sys)).
  reflexivity.
Defined.

Lemma configuration_without_keywords_is_neutral_witness :
  config bare_model = VDict [("threshold", VFloat 0.5)]
  /\ exists r st',
       analyze offline_env "Profits surge" (bare_model, fresh_sys)
       = (Ret r, st')
       /\ dict_lookup r "sentiment" = Some (VStr "neutral")
       /\ dict_lookup r "details"
          = Some (VDict [("positive_count", VInt 0);
                         ("negative_count", VInt 0)]).
Proof.
  split; [reflexivity|].
  destruct (configuration_without_keywords_is_neutral offline_env
              "Profits surge" bare_model fresh_sys
              [("threshold", VFloat 0.5)] eq_refl eq_refl eq_refl)
    as (latency & st' & Ha).
  do 2 eexists. split; [exact Ha|]. split; reflexivity.
Defined.

Lemma model_is_loaded_once_witness :
  _model loaded_proc = Some broken_model
  /\ exists r m' s',
       analyze_sentiment offline_env "Profits surge" loaded_proc
       = (Ret r, {| _model := Some m'; sys := s' |})
       /\ config m' = broken_config
       /\ request_count m' = 4.
Proof.
  split; [reflexivity|].
  destruct (model_is_loaded_once offline_env "Profits surge" loaded_proc
              broken_model eq_refl)
    as (r & m' & s' & Ha & Hc & _ & _ & Hr).
  exists r, m', s'. auto.
Defined.

Lemma first_use_builds_the_model_witness :
  _model fresh_proc = None
  /\ exists r m' s',
       analyze_sentiment offline_env "Profits surge" fresh_proc
       = (Ret r, {| _model := Some m'; sys := s' |})
       /\ config m' = default_config offline_env
       /\ max_length m' = 512
       /\ request_count m' = 1.
Proof.
  split; [reflexivity|].
  destruct (first_use_builds_the_model offline_env "Profits surge" fresh_proc
              eq_refl) as [Hbuild _].
  destruct (Hbuild 16 512 eq_refl eq_refl eq_refl)
    as (r & m' & s' & Ha & Hc & Hl & Hr & _).
  exists r, m', s'. auto.
Defined.


Lemma excel_returns_the_selected_rows_witness :
  match excel_file general_rows_env with
  | Some (Ret df) => "ticker" ∈ columns df
  | _ => False
  end
  /\ exists items,
       get_news_from_excel general_rows_env "AAPL" 7 fresh_sys
       = (Ret items, add_calls [ReadExcel "AAPL" 7] fresh_sys)
       /\ items
          = [excel_row "GENERAL" (VStr "Stocks rally on strong earnings");
             excel_row "AAPL" (VStr "  STOCKS rally on strong earnings ")].
Proof.
  assert (match excel_file general_rows_env with
          | Some (Ret df) => "ticker" ∈ columns df
          | _ => False
          end) as Hcol by apply list_elem_of_here.
  split; [exact Hcol|].
  destruct (excel_returns_the_selected_rows general_rows_env "AAPL" 7
              fresh_sys _ _ _ _ eq_refl eq_refl Hcol eq_refl eq_refl eq_refl)
    as (items & Hrun & Hpicked).
  exists items. split; [exact Hrun|].
  vm_compute in Hrun. injection Hrun as <-. reflexivity.
Defined.

Lemma excel_filter_fails_as_a_whole_witness :
  (exists published,
     column (sheet [excel_row "AAPL" (VStr "Apple beats estimates");
                    [("ticker", VStr "MSFT");
                     ("title", VStr "Cloud revenue grows");
                     ("publisher", VStr "Reuters");
                     ("link", VStr "https://example.com/story");
                     ("published_date", VStr "next week")]])
       "published_date" = Ret published
     /\ match to_datetime bad_date_env published with
        | Ret dates => tz_aware dates = true
        | Raise _ => True
        end)
  /\ get_news_from_excel bad_date_env "AAPL" 7 fresh_sys
     = (Ret [], add_calls [ReadExcel "AAPL" 7] fresh_sys).
Proof.
  assert (exists published,
            column (sheet [excel_row "AAPL" (VStr "Apple beats estimates");
                           [("ticker", VStr "MSFT");
                            ("title", VStr "Cloud revenue grows");
                            ("publisher", VStr "Reuters");
                            ("link", VStr "https://example.com/story");
                            ("published_date", VStr "next week")]])
              "published_date" = Ret published
            /\ match to_datetime bad_date_env published with
               | Ret dates => tz_aware dates = true
               | Raise _ => True
               end) as Hbad
    by (eexists; split; [reflexivity|exact I]).
  split; [exact Hbad|].
  apply (excel_filter_fails_as_a_whole bad_date_env "AAPL" 7 fresh_sys _
           eq_refl).
  right. right. exact Hbad.
Defined.

Lemma demo_source_serves_seven_headlines_witness :
  5 <= 7
  /\ exists items,
       get_demo_news offline_env "AAPL" 7 fresh_sys
       = (Ret items, add_calls [DemoNews "AAPL" 7] fresh_sys)
       /\ length items = 7%nat.
Proof.
  split; [lia|].
  destruct (demo_source_serves_seven_headlines offline_env "AAPL" 7 fresh_sys
              (now offline_env - 7 * microseconds_per_day)
              ltac:(lia) eq_refl)
    as (items & Hrun & Hlen & _).
  exists items. auto.
Defined.

Lemma every_collected_item_is_scored_witness :
  0 <= 3 /\ model_ready offline_env fresh_proc
  /\ exists items p',
       get_financial_news offline_env "AAPL" (Some 7) 3 fresh_proc
       = (Ret items, p')
       /\ length items = 3%nat
       /\ requests_so_far p' = 3.
Proof.
  assert (model_ready offline_env fresh_proc) as Hready
    by (right; reflexivity).
  split; [lia|]. split; [exact Hready|].
  destruct (collect_news offline_env "AAPL" (coerce_days (Some 7)) 3 fresh_proc)
    as [[merged|e] p3] eqn:Hc; [|vm_compute in Hc; discriminate].
  assert (length merged = 7%nat) as Hlen
    by (vm_compute in Hc; injection Hc as <- _; reflexivity).
  destruct (every_collected_item_is_scored offline_env "AAPL" (Some 7) 3
              fresh_proc merged p3 ltac:(lia) Hready Hc)
    as (items & p' & Hrun & Hn & _ & _ & Hr).
  exists items, p'. split; [exact Hrun|].
  rewrite Hlen in Hn. split; [lia|]. rewrite Hr. cbn. lia.
Defined.

Lemma last_resort_serves_headlines_witness :
  probe_ok offline_env = false /\ excel_file offline_env = None
  /\ model_ready offline_env fresh_proc
  /\ exists first rest p',
       get_financial_news offline_env "MSFT" (Some 7) 1 fresh_proc
       = (Ret (first :: rest), p')
       /\ dict_lookup first "title"
          = Some (VStr "Markets reach record highs as tech stocks surge")
       /\ dict_lookup first "ticker" = Some (VStr "MSFT").
Proof.
  assert (model_ready offline_env fresh_proc) as Hready
    by (right; reflexivity).
  split; [reflexivity|]. split; [reflexivity|]. split; [exact Hready|].
  destruct (last_resort_serves_headlines offline_env "MSFT" 7 1 fresh_proc
              (now offline_env - 7 * microseconds_per_day)
              eq_refl eq_refl ltac:(lia) eq_refl ltac:(lia) Hready)
    as (first & rest & p' & Hrun & Ht & Hk & _).
  exists first, rest, p'. auto.
Defined.

Lemma summary_counts_add_up_witness :
  sample_news <> []
  /\ exists d,
       summarize sample_news = Ret d
       /\ dict_lookup d "positive" = Some (VInt 1)
       /\ dict_lookup d "negative" = Some (VInt 1)
       /\ dict_lookup d "neutral" = Some (VInt 1)
       /\ dict_lookup d "total_news" = Some (VInt 3).
Proof.
  assert (sample_news <> []) as Hne by discriminate.
  split; [exact Hne|].
  destruct (summarize sample_news) as [d|e] eqn:Hs;
    [|vm_compute in Hs; discriminate].
  destruct (summary_counts_add_up sample_news d Hne Hs)
    as (pos & neg & neu & Ht & _).
  exists d. split; [reflexivity|].
  vm_compute in Hs. injection Hs as <-.
  repeat split; reflexivity.
Defined.

Lemma weighted_average_within_bounds_witness :
  Forall nonneg_score sample_news
  /\ exists d w,
       summarize sample_news = Ret d
       /\ dict_lookup d "weighted_avg_score" = Some (VFloat w)
       /\ (-1 <= w <= 1)%Q.
Proof.
  assert (Forall nonneg_score sample_news) as Hs.
  { repeat constructor; do 2 eexists;
      (split; [reflexivity|]); (split; [reflexivity|]); discriminate. }
  split; [exact Hs|].
  destruct (summarize sample_news) as [d|e] eqn:Hd;
    [|vm_compute in Hd; discriminate].
  destruct (weighted_average_within_bounds sample_news d ltac:(discriminate)
              Hs Hd) as [H0|(w & Hw & Hb)].
  - exfalso. vm_compute in Hd. injection Hd as <-. discriminate.
  - exists d, w. auto.
Defined.

Lemma page_exception_returns_nothing_witness :
  page_response dropped_connection_env 2 = Raise network_down
  /\ get_news_from_api dropped_connection_env "AAPL" 7 150 fresh_sys
     = (Ret [], add_calls [GetPage 1; GetPage 2] fresh_sys).
Proof.
  split; [reflexivity|].
  apply (page_exception_returns_nothing dropped_connection_env "AAPL" 7 150
           fresh_sys 2 (map sample_article (seq 0 100)) [GetPage 1]
           network_down).
  - reflexivity.
  - eapply (RequestsCons _ _ _ (1, []) (2, _) (2, _) []);
      [|apply RequestsNil].
    eapply (Turn dropped_connection_env 150 (Z.min 100 150) 1 []
              (Response 200 "ok" (Ret first_page)) first_page
              (VList (map sample_article (seq 0 100)))
              (map sample_article (seq 0 100)) (VInt 500));
      try reflexivity; try (cbn; lia); vm_compute; discriminate.
  - cbn. lia.
  - reflexivity.
Defined.
